(** * Verification of the intent dispatcher and the meeting scheduler

    A shallow embedding of [app/agent/action_executor.py] and
    [app/agent/meeting_scheduler.py], with the collaborators they call
    ([email_service], [calendar_service], [search_service]), the SQLAlchemy
    session and the APScheduler job store, followed by the theorems that
    settle the properties stated for them. *)

From Stdlib Require Import ZArith QArith Qround List String Ascii Bool Lia Permutation Sorted.
From stdpp Require Import base option list gmap.
Import ListNotations.
Local Open Scope Z_scope.

(** ** Python values *)

(** A Python [str] is a sequence of Unicode code points. *)
Abbreviation pystr := (list N).

(** String literals of the source are written here as they are there; the
    file is UTF-8, so a literal is decoded from its bytes to code points. *)
Fixpoint utf8_decode (bytes : list N) : pystr :=
  match bytes with
  | [] => []
  | b0 :: rest =>
      if (b0 <? 128)%N then b0 :: utf8_decode rest
      else if (b0 <? 224)%N then
        match rest with
        | b1 :: rest' => ((b0 - 192) * 64 + (b1 - 128))%N :: utf8_decode rest'
        | _ => []
        end
      else if (b0 <? 240)%N then
        match rest with
        | b1 :: b2 :: rest' =>
            ((b0 - 224) * 4096 + (b1 - 128) * 64 + (b2 - 128))%N :: utf8_decode rest'
        | _ => []
        end
      else
        match rest with
        | b1 :: b2 :: b3 :: rest' =>
            ((b0 - 240) * 262144 + (b1 - 128) * 4096 + (b2 - 128) * 64 + (b3 - 128))%N
              :: utf8_decode rest'
        | _ => []
        end
  end.

Fixpoint bytes_of (s : string) : list N :=
  match s with
  | EmptyString => []
  | String a s' => N_of_ascii a :: bytes_of s'
  end.

Definition str (s : string) : pystr := utf8_decode (bytes_of s).

Fixpoint pystr_eqb (a b : pystr) : bool :=
  match a, b with
  | [], [] => true
  | x :: a', y :: b' => N.eqb x y && pystr_eqb a' b'
  | _, _ => false
  end.

(** A Python [float]: a finite value, an infinity or a NaN. *)
Inductive pyfloat :=
| FFinite (q : Q)
| FInf (negative : bool)
| FNaN.

(** The values a JSON payload is made of, which are also the values of the
    result dictionaries.  A [dict] keeps its items in insertion order. *)
#[warnings="-register-all"]
Inductive value :=
| VNone
| VBool (b : bool)
| VInt (z : Z)
| VFloat (f : pyfloat)
| VStr (s : pystr)
| VList (l : list value)
| VDict (d : list (pystr * value)).

Abbreviation pydict := (list (pystr * value)).

(** Python truthiness, as used by [if x:], [x or y] and [not x]. *)
Definition truthy (v : value) : bool :=
  match v with
  | VNone => false
  | VBool b => b
  | VInt z => negb (z =? 0)
  | VFloat (FFinite q) => negb (Qeq_bool q 0)
  | VFloat _ => true
  | VStr s => match s with [] => false | _ => true end
  | VList l => match l with [] => false | _ => true end
  | VDict d => match d with [] => false | _ => true end
  end.

(** [d.get(k)] and [d.get(k, default)] on a dict. *)
Fixpoint dict_get (k : pystr) (d : pydict) : option value :=
  match d with
  | [] => None
  | (k', v) :: d' => if pystr_eqb k k' then Some v else dict_get k d'
  end.

Definition get (k : string) (d : pydict) : value :=
  match dict_get (str k) d with Some v => v | None => VNone end.

Definition get_default (k : string) (dflt : value) (d : pydict) : value :=
  match dict_get (str k) d with Some v => v | None => dflt end.

(** The outcome of running Python code: a value, or a raised exception
    (of class [Exception]) with its message [str(e)]. *)
Inductive outcome (A : Type) :=
| Ok (a : A)
| Raise (msg : pystr).
Arguments Ok {A} a.
Arguments Raise {A} msg.

(** [isinstance(data, list)] *)
Definition is_list (v : value) : bool :=
  match v with VList _ => true | _ => false end.

Definition AttributeError : pystr := str "AttributeError".
Definition TypeError : pystr := str "TypeError".
Definition IndexError : pystr := str "IndexError".
Definition OverflowError : pystr := str "OverflowError".
Definition ValueError : pystr := str "ValueError".

(** The object of a [v.get(...)] call: only a dict has the method. *)
Definition as_dict (v : value) : outcome pydict :=
  match v with
  | VDict d => Ok d
  | _ => Raise AttributeError
  end.

(** [sep.join(parts)] for a list of strs *)
Fixpoint join (sep : pystr) (parts : list pystr) : pystr :=
  match parts with
  | [] => []
  | [x] => x
  | x :: parts' => x ++ sep ++ join sep parts'
  end.

(** The elements of a list as strs, for [sep.join], which raises on an
    element that is not a str. *)
Fixpoint all_strs (l : list value) : outcome (list pystr) :=
  match l with
  | [] => Ok []
  | VStr s :: l' =>
      match all_strs l' with
      | Ok r => Ok (s :: r)
      | Raise e => Raise e
      end
  | _ :: _ => Raise TypeError
  end.

(** [str.isspace] of a character, as [str.strip] uses it. *)
Definition is_space (c : N) : bool :=
  ((9 <=? c) && (c <=? 13) || (28 <=? c) && (c <=? 32) || (c =? 133) || (c =? 160)
   || (c =? 5760) || (8192 <=? c) && (c <=? 8202) || (c =? 8232) || (c =? 8233)
   || (c =? 8239) || (c =? 8287) || (c =? 12288))%N.

Fixpoint lstrip (s : pystr) : pystr :=
  match s with
  | c :: s' => if is_space c then lstrip s' else s
  | [] => []
  end.

(** [s.strip()] *)
Definition strip (s : pystr) : pystr :=
  rev (lstrip (rev (lstrip s))).

(** A dict literal with the two keys of a failed result. *)
Definition failure (msg : pystr) : pydict :=
  [(str "success", VBool false); (str "error", VStr msg)].

(** [None] or a str *)
Definition opt_str (o : option pystr) : value :=
  match o with
  | Some s => VStr s
  | None => VNone
  end.

(** [bool(l)] for a str or a list *)
Definition nonempty {A} (l : list A) : bool :=
  match l with [] => false | _ => true end.

(** [needle in haystack] for two strs *)
Fixpoint starts_with (prefix s : pystr) : bool :=
  match prefix, s with
  | [], _ => true
  | c :: prefix', d :: s' => N.eqb c d && starts_with prefix' s'
  | _ :: _, [] => false
  end.

Fixpoint str_in (needle haystack : pystr) : bool :=
  starts_with needle haystack ||
  match haystack with
  | [] => false
  | _ :: haystack' => str_in needle haystack'
  end.

(** [s.endswith(suffix)] *)
Definition endswith (s suffix : pystr) : bool :=
  starts_with (rev suffix) (rev s).

(** ** Dates and durations

    A naive [datetime] is its number of microseconds since
    0001-01-01T00:00:00; a [timedelta] is a number of microseconds. *)

Definition us_per_second : Z := 1000000.
Definition us_per_minute : Z := 60 * us_per_second.
Definition us_per_hour : Z := 60 * us_per_minute.
Definition us_per_day : Z := 24 * us_per_hour.

(** [datetime.max] is 9999-12-31T23:59:59.999999: 3652059 days from
    [datetime.min]. *)
Definition datetime_end : Z := 3652059 * us_per_day.
(** [timedelta.max] is 999999999 days, 23:59:59.999999. *)
Definition timedelta_end : Z := 1000000000 * us_per_day.

(** A [datetime] object: naive, or aware (carrying a time zone), as
    [dateutil.parser.parse] may return either. *)
Record datetime := { dt_us : Z; dt_aware : bool }.

Definition naive (t : Z) : datetime := {| dt_us := t; dt_aware := false |}.


(** ** Exceptions, effects and the state of the process *)

(** Calls that leave the process, and commits of the database, in the order
    in which they happen. *)
Inductive effect :=
| ECalendarInsert (title : value) (start_time end_time : datetime)
                  (attendees : list value) (notify : bool)
| ECalendarDelete (event_id : pystr)
| ECalendarList
| ESmtpSend (to_email : value) (subject : value) (delivered : bool)
| EImapFetch (count : value)
| EWebSearch (query : value)
| EDbCommit.

(** What [service.events().insert(...).execute()] returns. *)
Record created_event := {
  ce_id : option pystr;
  ce_htmlLink : option pystr;
  ce_meet_uri : option pystr;
}.

(** An entry of [get_recent_emails]'s list. *)
Record email_item := {
  em_id : pystr;
  em_subject : pystr;
  em_from : pystr;
  em_date : option pystr;
  em_body : pystr;
}.

(** Configuration, library functions and the outside world.  Nothing is
    assumed of them: every theorem holds for every platform.  The replies
    of the outside world take the number of effects so far as an argument,
    so that the same call can be answered differently later. *)
Record Platform := {
  (* app/config.py *)
  SMTP_USER : pystr;
  SMTP_PASSWORD : pystr;
  (* GoogleCalendarService.is_configured, set by _initialize *)
  calendar_is_configured : bool;
  (* dateutil: parser.parse(s, dayfirst=True); None when it raises *)
  parser_parse : pystr -> option datetime;
  (* datetime.isoformat() *)
  isoformat : datetime -> pystr;
  (* str(v) and the formatting of v in an f-string, for v not a str *)
  py_str : value -> pystr;
  (* str.lower() *)
  str_lower : pystr -> pystr;
  (* int(v * 60); None when it raises *)
  int_times_60 : value -> option Z;
  (* timedelta(hours=f), timedelta(minutes=f) for a finite float f, in
     microseconds; the first argument is the unit in microseconds *)
  timedelta_of_float : Z -> Q -> Z;
  (* SQLite: the text stored for a number bound to a TEXT column, and the
     integer a text compares as against an INTEGER column *)
  sqlite_text : value -> pystr;
  sqlite_integer : pystr -> option Z;
  (* datetime.now() and datetime.utcnow(), by the number of clock reads *)
  clock_now : nat -> Z;
  clock_utcnow : nat -> Z;
  (* Google Calendar: insert, delete, list; inl is the failure message *)
  google_insert : nat -> value -> datetime -> datetime -> list value -> pystr + created_event;
  google_delete : nat -> pystr -> option pystr;
  google_list : nat -> pystr + list pydict;
  (* SMTP: None when the mail was handed over, else the failure message *)
  smtp_sendmail : nat -> value -> value -> option pystr;
  (* IMAP: the body of get_recent_emails's try block *)
  imap_fetch : nat -> value -> pystr + list email_item;
  (* DuckDuckGo: the results and the instant answer *)
  ddgs_text : nat -> value -> pystr + (list pydict * value);
}.

(** ** The database: app/db/models.py

    A table is the list of its rows in rowid order, which is the order in
    which SQLite returns them to a query without ORDER BY.  A DateTime
    column holds a naive datetime. *)

Module Task.
Record t := {
  id : Z;
  title : pystr;
  description : option pystr;
  due_date : option Z;
  reminder_date : option Z;
  is_completed : bool;
  priority : value;
  category : option pystr;
  created_at : Z;
  updated_at : Z;
}.
End Task.

Module ShoppingItem.
Record t := {
  id : Z;
  name : pystr;
  quantity : option pystr;
  category : option pystr;
  is_purchased : bool;
  notes : option pystr;
  price_estimate : value;
  created_at : Z;
}.
End ShoppingItem.

Module AgentAction.
Record t := {
  id : Z;
  action_type : pystr;
  target : option pystr;
  content : option pystr;
  status : option pystr;
  created_at : Z;
  executed_at : option Z;
}.
End AgentAction.

Module CalendarEvent.
Record t := {
  id : Z;
  google_event_id : option pystr;
  title : pystr;
  description : option pystr;
  start_time : Z;
  end_time : Z;
  meet_link : option pystr;
  attendee_email : option pystr;
  attendee_name : option pystr;
  reminder_sent : bool;
  reminder_time : option Z;
  status : option pystr;
  created_at : Z;
  updated_at : Z;
}.
End CalendarEvent.

Record Db := {
  tasks : list Task.t;
  shopping_items : list ShoppingItem.t;
  agent_actions : list AgentAction.t;
  calendar_events : list CalendarEvent.t;
}.

(** The objects a handler constructs, with the arguments it passes; the
    columns get their types when the session flushes. *)
Record new_task := {
  nt_title : value;
  nt_description : value;
  nt_due_date : option datetime;
  nt_priority : value;
  nt_category : value;
}.

Record new_item := {
  ni_name : value;
  ni_quantity : value;
  ni_category : value;
  ni_notes : value;
  ni_price_estimate : value;
}.

Record new_action := {
  na_action_type : value;
  na_target : value;
  na_content : value;
  na_status : value;
  na_executed_at : option Z;
}.

Record new_event := {
  ne_google_event_id : value;
  ne_title : value;
  ne_description : value;
  ne_start_time : option datetime;
  ne_end_time : option datetime;
  ne_meet_link : value;
  ne_attendee_email : value;
  ne_attendee_name : value;
  ne_reminder_time : option datetime;
  ne_status : value;
}.

(** What a session holds between two commits: added objects, attribute
    assignments on loaded objects, and deletions. *)
Inductive pending_op :=
| AddTask (o : new_task)
| AddItem (o : new_item)
| AddAction (o : new_action)
| AddEvent (o : new_event)
| CompleteTask (task_id : Z) (updated_at : Z)
| DeleteTask (task_id : Z)
| PurchaseItem (item_id : Z)
| DeleteItem (item_id : Z)
| SetActionStatus (action_id : Z) (status : pystr) (executed_at : Z)
| CancelEvent (event_id : Z) (updated_at : Z).

(** A session ([autoflush=False]): queries read [database]; [pending] is
    written by [commit]. *)
Record Session := {
  database : Db;
  pending : list pending_op;
}.

(** ** The job store of APScheduler and the meeting scheduler's state *)

Record Job := {
  run_date : datetime;
  job_to_email : value;
  job_name : value;
  job_title : value;
  job_start_time : datetime;
  job_meet_link : value;
  job_is_owner : bool;
}.

Record SchedulerState := {
  jobs : gmap pystr Job;
  scheduled_reminders : gmap (option pystr) pystr;
  _started : bool;
}.

Record World := {
  session : Session;
  meeting_scheduler : SchedulerState;
  trace : list effect;
  clock_reads : nat;
}.

Definition set_session (f : Session -> Session) (w : World) : World :=
  {| session := f (session w); meeting_scheduler := meeting_scheduler w;
     trace := trace w; clock_reads := clock_reads w |}.

Definition set_meeting_scheduler (f : SchedulerState -> SchedulerState) (w : World) : World :=
  {| session := session w; meeting_scheduler := f (meeting_scheduler w);
     trace := trace w; clock_reads := clock_reads w |}.

Definition set_trace (f : list effect -> list effect) (w : World) : World :=
  {| session := session w; meeting_scheduler := meeting_scheduler w;
     trace := f (trace w); clock_reads := clock_reads w |}.

Definition set_clock_reads (f : nat -> nat) (w : World) : World :=
  {| session := session w; meeting_scheduler := meeting_scheduler w;
     trace := trace w; clock_reads := f (clock_reads w) |}.

(** ** Python code as state-passing computations that may raise *)

Definition M (A : Type) : Type := World -> outcome A * World.

Definition ret {A} (a : A) : M A := fun w => (Ok a, w).

Definition bind {A B} (m : M A) (k : A -> M B) : M B :=
  fun w =>
    match m w with
    | (Ok a, w') => k a w'
    | (Raise e, w') => (Raise e, w')
    end.

Definition raise {A} (msg : pystr) : M A := fun w => (Raise msg, w).

(** [try: body / except Exception as e: handler(str(e))] *)
Definition try_except {A} (body : M A) (handler : pystr -> M A) : M A :=
  fun w =>
    match body w with
    | (Ok a, w') => (Ok a, w')
    | (Raise e, w') => handler e w'
    end.

(** [try: body / except: pass] *)
Definition try_pass (body : M unit) : M unit :=
  try_except body (fun _ => ret tt).

Notation "x <- c ;; k" := (bind c (fun x => k))
  (at level 100, c at next level, right associativity).
Notation "c ;;; k" := (bind c (fun _ => k))
  (at level 100, right associativity).

(** [for x in xs: body(x)] *)
Fixpoint for_each {A} (xs : list A) (body : A -> M unit) : M unit :=
  match xs with
  | [] => ret tt
  | x :: xs' => body x ;;; for_each xs' body
  end.

Definition lift {A} (o : outcome A) : M A := fun w => (o, w).

Definition get_world : M World := fun w => (Ok w, w).

(** The record of one call that leaves the process. *)
Definition emit (e : effect) : M unit :=
  fun w => (Ok tt, set_trace (fun t => t ++ [e]) w).

(** ** Arithmetic of dates *)

(** [a <= b] and [a > b] for [b] naive: comparing an aware datetime with
    a naive one raises. *)
Definition dt_le_naive (a : datetime) (b : Z) : outcome bool :=
  if dt_aware a then Raise TypeError else Ok (dt_us a <=? b).

Definition dt_gt_naive (a : datetime) (b : Z) : outcome bool :=
  if dt_aware a then Raise TypeError else Ok (b <? dt_us a).

(** [t + delta] and [t - delta]: the result must be a date of the years
    1 to 9999. *)
Definition dt_add (t : datetime) (delta : Z) : outcome datetime :=
  let r := dt_us t + delta in
  if (0 <=? r) && (r <? datetime_end)
  then Ok {| dt_us := r; dt_aware := dt_aware t |}
  else Raise OverflowError.

Definition dt_sub (t : datetime) (delta : Z) : outcome datetime :=
  dt_add t (- delta).

Definition timedelta_in_range (d : Z) : outcome Z :=
  if (- (timedelta_end - us_per_day) <=? d) && (d <? timedelta_end)
  then Ok d else Raise OverflowError.

Section Runtime.

Context (P : Platform).

(** [datetime.now()] and [datetime.utcnow()] *)
Definition now : M Z :=
  fun w => (Ok (clock_now P (clock_reads w)), set_clock_reads S w).

Definition utcnow : M Z :=
  fun w => (Ok (clock_utcnow P (clock_reads w)), set_clock_reads S w).

(** [timedelta(minutes=v)], [timedelta(hours=v)]: [unit] is the unit in
    microseconds. *)
Definition timedelta (unit : Z) (v : value) : outcome Z :=
  match v with
  | VInt z => timedelta_in_range (z * unit)
  | VBool b => Ok (if b then unit else 0)
  | VFloat (FFinite q) => timedelta_in_range (timedelta_of_float P unit q)
  | VFloat (FInf _) => Raise OverflowError
  | VFloat FNaN => Raise ValueError
  | _ => Raise TypeError
  end.

(** [f"{v}"] *)
Definition fmt (v : value) : pystr :=
  match v with
  | VStr s => s
  | _ => py_str P v
  end.

(** *** Flushing a session *)

Definition IntegrityError : pystr := str "IntegrityError: NOT NULL constraint failed".
Definition InterfaceError : pystr := str "InterfaceError: Error binding parameter".

(** A value bound to a String or Text column: SQLite stores a number as
    its text and cannot bind a list or a dict. *)
Definition bind_text (v : value) : outcome (option pystr) :=
  match v with
  | VNone => Ok None
  | VStr s => Ok (Some s)
  | VBool _ | VInt _ | VFloat _ => Ok (Some (sqlite_text P v))
  | VList _ | VDict _ => Raise InterfaceError
  end.

(** A value bound to an Integer or Float column. *)
Definition bind_scalar (v : value) : outcome value :=
  match v with
  | VList _ | VDict _ => Raise InterfaceError
  | _ => Ok v
  end.

(** [nullable=False] *)
Definition not_null {A} (o : option A) : outcome A :=
  match o with
  | Some a => Ok a
  | None => Raise IntegrityError
  end.

(** [default=...]: used when the attribute is None. *)
Definition or_default {A} (dflt : A) (o : option A) : A :=
  match o with
  | Some a => a
  | None => dflt
  end.

(** The rowid SQLite gives a new row: one more than the largest. *)
Definition next_id (ids : list Z) : Z :=
  1 + fold_right Z.max 0 ids.

Definition set_tasks (f : list Task.t -> list Task.t) (d : Db) : Db :=
  {| tasks := f (tasks d); shopping_items := shopping_items d;
     agent_actions := agent_actions d; calendar_events := calendar_events d |}.

Definition set_shopping_items (f : list ShoppingItem.t -> list ShoppingItem.t) (d : Db) : Db :=
  {| tasks := tasks d; shopping_items := f (shopping_items d);
     agent_actions := agent_actions d; calendar_events := calendar_events d |}.

Definition set_agent_actions (f : list AgentAction.t -> list AgentAction.t) (d : Db) : Db :=
  {| tasks := tasks d; shopping_items := shopping_items d;
     agent_actions := f (agent_actions d); calendar_events := calendar_events d |}.

Definition set_calendar_events (f : list CalendarEvent.t -> list CalendarEvent.t) (d : Db) : Db :=
  {| tasks := tasks d; shopping_items := shopping_items d;
     agent_actions := agent_actions d; calendar_events := f (calendar_events d) |}.

Definition insert_task (o : new_task) (d : Db) : M (Db * Z) :=
  title <- lift (match bind_text (nt_title o) with
                 | Ok t => not_null t | Raise e => Raise e end) ;;
  description <- lift (bind_text (nt_description o)) ;;
  priority <- lift (bind_scalar (nt_priority o)) ;;
  category <- lift (bind_text (nt_category o)) ;;
  created <- utcnow ;;
  updated <- utcnow ;;
  let new_id := next_id (map Task.id (tasks d)) in
  let row := {| Task.id := new_id;
                Task.title := title;
                Task.description := description;
                Task.due_date := option_map dt_us (nt_due_date o);
                Task.reminder_date := None;
                Task.is_completed := false;
                Task.priority := match priority with VNone => VInt 1 | v => v end;
                Task.category := category;
                Task.created_at := created;
                Task.updated_at := updated |} in
  ret (set_tasks (fun l => l ++ [row]) d, new_id).

Definition insert_item (o : new_item) (d : Db) : M (Db * Z) :=
  name <- lift (match bind_text (ni_name o) with
                | Ok t => not_null t | Raise e => Raise e end) ;;
  quantity <- lift (bind_text (ni_quantity o)) ;;
  category <- lift (bind_text (ni_category o)) ;;
  notes <- lift (bind_text (ni_notes o)) ;;
  price <- lift (bind_scalar (ni_price_estimate o)) ;;
  created <- utcnow ;;
  let new_id := next_id (map ShoppingItem.id (shopping_items d)) in
  let row := {| ShoppingItem.id := new_id;
                ShoppingItem.name := name;
                ShoppingItem.quantity := Some (or_default (str "1") quantity);
                ShoppingItem.category := category;
                ShoppingItem.is_purchased := false;
                ShoppingItem.notes := notes;
                ShoppingItem.price_estimate := price;
                ShoppingItem.created_at := created |} in
  ret (set_shopping_items (fun l => l ++ [row]) d, new_id).

Definition insert_action (o : new_action) (d : Db) : M (Db * Z) :=
  action_type <- lift (match bind_text (na_action_type o) with
                       | Ok t => not_null t | Raise e => Raise e end) ;;
  target <- lift (bind_text (na_target o)) ;;
  content <- lift (bind_text (na_content o)) ;;
  status <- lift (bind_text (na_status o)) ;;
  created <- utcnow ;;
  let new_id := next_id (map AgentAction.id (agent_actions d)) in
  let row := {| AgentAction.id := new_id;
                AgentAction.action_type := action_type;
                AgentAction.target := target;
                AgentAction.content := content;
                AgentAction.status := Some (or_default (str "pending") status);
                AgentAction.created_at := created;
                AgentAction.executed_at := na_executed_at o |} in
  ret (set_agent_actions (fun l => l ++ [row]) d, new_id).

Definition insert_event (o : new_event) (d : Db) : M (Db * Z) :=
  google_event_id <- lift (bind_text (ne_google_event_id o)) ;;
  title <- lift (match bind_text (ne_title o) with
                 | Ok t => not_null t | Raise e => Raise e end) ;;
  description <- lift (bind_text (ne_description o)) ;;
  start_time <- lift (not_null (ne_start_time o)) ;;
  end_time <- lift (not_null (ne_end_time o)) ;;
  meet_link <- lift (bind_text (ne_meet_link o)) ;;
  attendee_email <- lift (bind_text (ne_attendee_email o)) ;;
  attendee_name <- lift (bind_text (ne_attendee_name o)) ;;
  status <- lift (bind_text (ne_status o)) ;;
  created <- utcnow ;;
  updated <- utcnow ;;
  let new_id := next_id (map CalendarEvent.id (calendar_events d)) in
  let row := {| CalendarEvent.id := new_id;
                CalendarEvent.google_event_id := google_event_id;
                CalendarEvent.title := title;
                CalendarEvent.description := description;
                CalendarEvent.start_time := dt_us start_time;
                CalendarEvent.end_time := dt_us end_time;
                CalendarEvent.meet_link := meet_link;
                CalendarEvent.attendee_email := attendee_email;
                CalendarEvent.attendee_name := attendee_name;
                CalendarEvent.reminder_sent := false;
                CalendarEvent.reminder_time := option_map dt_us (ne_reminder_time o);
                CalendarEvent.status := Some (or_default (str "scheduled") status);
                CalendarEvent.created_at := created;
                CalendarEvent.updated_at := updated |} in
  ret (set_calendar_events (fun l => l ++ [row]) d, new_id).

Definition complete_row (t : Z) (r : Task.t) : Task.t :=
  {| Task.id := Task.id r; Task.title := Task.title r;
     Task.description := Task.description r; Task.due_date := Task.due_date r;
     Task.reminder_date := Task.reminder_date r; Task.is_completed := true;
     Task.priority := Task.priority r; Task.category := Task.category r;
     Task.created_at := Task.created_at r; Task.updated_at := t |}.

Definition purchase_row (r : ShoppingItem.t) : ShoppingItem.t :=
  {| ShoppingItem.id := ShoppingItem.id r; ShoppingItem.name := ShoppingItem.name r;
     ShoppingItem.quantity := ShoppingItem.quantity r;
     ShoppingItem.category := ShoppingItem.category r;
     ShoppingItem.is_purchased := true; ShoppingItem.notes := ShoppingItem.notes r;
     ShoppingItem.price_estimate := ShoppingItem.price_estimate r;
     ShoppingItem.created_at := ShoppingItem.created_at r |}.

Definition status_row (status : pystr) (t : Z) (r : AgentAction.t) : AgentAction.t :=
  {| AgentAction.id := AgentAction.id r;
     AgentAction.action_type := AgentAction.action_type r;
     AgentAction.target := AgentAction.target r;
     AgentAction.content := AgentAction.content r;
     AgentAction.status := Some status;
     AgentAction.created_at := AgentAction.created_at r;
     AgentAction.executed_at := Some t |}.

Definition cancel_row (t : Z) (r : CalendarEvent.t) : CalendarEvent.t :=
  {| CalendarEvent.id := CalendarEvent.id r;
     CalendarEvent.google_event_id := CalendarEvent.google_event_id r;
     CalendarEvent.title := CalendarEvent.title r;
     CalendarEvent.description := CalendarEvent.description r;
     CalendarEvent.start_time := CalendarEvent.start_time r;
     CalendarEvent.end_time := CalendarEvent.end_time r;
     CalendarEvent.meet_link := CalendarEvent.meet_link r;
     CalendarEvent.attendee_email := CalendarEvent.attendee_email r;
     CalendarEvent.attendee_name := CalendarEvent.attendee_name r;
     CalendarEvent.reminder_sent := CalendarEvent.reminder_sent r;
     CalendarEvent.reminder_time := CalendarEvent.reminder_time r;
     CalendarEvent.status := Some (str "cancelled");
     CalendarEvent.created_at := CalendarEvent.created_at r;
     CalendarEvent.updated_at := t |}.

(** UPDATE ... WHERE id = key *)
Definition update_where {A} (id_of : A -> Z) (key : Z) (f : A -> A) (rows : list A) : list A :=
  map (fun r => if id_of r =? key then f r else r) rows.

(** DELETE ... WHERE id = key *)
Definition delete_where {A} (id_of : A -> Z) (key : Z) (rows : list A) : list A :=
  filter (fun r => negb (id_of r =? key)) rows.

(** One pending operation written to the database; the rowid of the row it
    inserts, if it inserts one. *)
Definition flush_op (op : pending_op) (d : Db) : M (Db * list Z) :=
  match op with
  | AddTask o => r <- insert_task o d ;; ret (fst r, [snd r])
  | AddItem o => r <- insert_item o d ;; ret (fst r, [snd r])
  | AddAction o => r <- insert_action o d ;; ret (fst r, [snd r])
  | AddEvent o => r <- insert_event o d ;; ret (fst r, [snd r])
  | CompleteTask k t =>
      ret (set_tasks (update_where Task.id k (complete_row t)) d, [])
  | DeleteTask k =>
      ret (set_tasks (delete_where Task.id k) d, [])
  | PurchaseItem k =>
      ret (set_shopping_items (update_where ShoppingItem.id k purchase_row) d, [])
  | DeleteItem k =>
      ret (set_shopping_items (delete_where ShoppingItem.id k) d, [])
  | SetActionStatus k st t =>
      ret (set_agent_actions (update_where AgentAction.id k (status_row st t)) d, [])
  | CancelEvent k t =>
      ret (set_calendar_events (update_where CalendarEvent.id k (cancel_row t)) d, [])
  end.

Fixpoint flush (ops : list pending_op) (d : Db) : M (Db * list Z) :=
  match ops with
  | [] => ret (d, [])
  | op :: ops' =>
      r <- flush_op op d ;;
      r' <- flush ops' (fst r) ;;
      ret (fst r', snd r ++ snd r')
  end.

(** [db.add(obj)], and an assignment to or [db.delete] of a loaded object *)
Definition db_add (op : pending_op) : M unit :=
  fun w => (Ok tt, set_session (fun s => {| database := database s;
                                            pending := pending s ++ [op] |}) w).

(** [db.commit()]: all pending operations are written, or none is and the
    exception of the first that fails is raised.  It returns the rowids of
    the inserted rows (what [obj.id] reads afterwards). *)
Definition commit : M (list Z) :=
  fun w =>
    match flush (pending (session w)) (database (session w)) w with
    | (Ok (d, ids), w') =>
        (Ok ids,
         set_trace (fun t => t ++ [EDbCommit])
           (set_session (fun _ => {| database := d; pending := [] |}) w'))
    | (Raise e, _) => (Raise e, w)
    end.

(** [db.rollback()] *)
Definition rollback : M unit :=
  fun w => (Ok tt, set_session (fun s => {| database := database s; pending := [] |}) w).

(** [db.query(...)...all()] and [.first()] read the database. *)
Definition query {A} (q : Db -> A) : M A :=
  fun w => (Ok (q (database (session w))), w).

(** *** SQL comparisons *)

Definition ascii_lower (c : N) : N :=
  if ((65 <=? c) && (c <=? 90))%N then (c + 32)%N else c.

(** SQLite's [lower()]: ASCII letters only. *)
Definition sqlite_lower (s : pystr) : pystr := map ascii_lower s.

(** [text LIKE pattern] on lowered operands: [%] (37) matches any run of
    characters, [_] (95) any one character. *)
Fixpoint like (pattern : pystr) : pystr -> bool :=
  match pattern with
  | [] => fun text => match text with [] => true | _ => false end
  | c :: pattern' =>
      if (c =? 37)%N then
        fix skip (text : pystr) : bool :=
          like pattern' text ||
          match text with
          | [] => false
          | _ :: text' => skip text'
          end
      else
        fun text =>
          match text with
          | [] => false
          | d :: text' => ((c =? 95)%N || (c =? d)%N) && like pattern' text'
          end
  end.

(** [column.ilike(pattern)], rendered as [lower(column) LIKE lower(pattern)] *)
Definition ilike (pattern text : pystr) : bool :=
  like (sqlite_lower pattern) (sqlite_lower text).

(** [f"%{v}%"] *)
Definition contains_pattern (v : value) : pystr :=
  str "%" ++ fmt v ++ str "%".

(** [column == v] for an INTEGER column: the rowid [v] compares equal to,
    if any. *)
Definition bind_integer (v : value) : outcome (option Z) :=
  match v with
  | VNone => Ok None
  | VBool b => Ok (Some (if b then 1 else 0))
  | VInt z => Ok (Some z)
  | VFloat (FFinite q) =>
      Ok (if Z.rem (Qnum q) (Zpos (Qden q)) =? 0
          then Some (Z.quot (Qnum q) (Zpos (Qden q))) else None)
  | VFloat _ => Ok None
  | VStr s => Ok (sqlite_integer P s)
  | VList _ | VDict _ => Raise InterfaceError
  end.

Definition eq_integer (key : option Z) (column : Z) : bool :=
  match key with
  | Some k => column =? k
  | None => false
  end.

(** [column == v] for a String column; NULL equals nothing. *)
Definition eq_text (key : option pystr) (column : option pystr) : bool :=
  match key, column with
  | Some k, Some c => pystr_eqb c k
  | _, _ => false
  end.

End Runtime.

(** ** app/agent/email_service.py *)

Module email_service.
Section email_service.

Context (P : Platform).

(** [self.is_configured = bool(self.user and self.password)] *)
Definition is_configured : bool :=
  match SMTP_USER P, SMTP_PASSWORD P with
  | _ :: _, _ :: _ => true
  | _, _ => false
  end.

Definition send_email (to_email : value) (subject : value) : M pydict :=
  if negb is_configured then
    ret (failure (str "Email service not configured. Please set SMTP credentials in .env"))
  else
    w <- get_world ;;
    match smtp_sendmail P (length (trace w)) to_email subject with
    | None =>
        emit (ESmtpSend to_email subject true) ;;;
        sent_at <- utcnow P ;;
        ret [(str "success", VBool true);
             (str "message", VStr (str "Email sent to " ++ fmt P to_email));
             (str "sent_at", VStr (isoformat P (naive sent_at)))]
    | Some msg =>
        emit (ESmtpSend to_email subject false) ;;;
        ret (failure msg)
    end.

Definition is_alnum (c : N) : bool :=
  ((97 <=? c) && (c <=? 122) || (65 <=? c) && (c <=? 90) || (48 <=? c) && (c <=? 57))%N.

Definition is_alpha (c : N) : bool :=
  ((97 <=? c) && (c <=? 122) || (65 <=? c) && (c <=? 90))%N.

(** [[a-zA-Z0-9._%+-]] *)
Definition local_char (c : N) : bool :=
  (is_alnum c || (c =? 46) || (c =? 95) || (c =? 37) || (c =? 43) || (c =? 45))%N.

(** [[a-zA-Z0-9.-]] *)
Definition domain_char (c : N) : bool :=
  (is_alnum c || (c =? 46) || (c =? 45))%N.

(** The text up to the first [c], and the text after it. *)
Fixpoint split_at (c : N) (s : pystr) : option (pystr * pystr) :=
  match s with
  | [] => None
  | d :: s' =>
      if (d =? c)%N then Some ([], s')
      else match split_at c s' with
           | Some (a, b) => Some (d :: a, b)
           | None => None
           end
  end.

(** [re.match(r'^[a-zA-Z0-9._%+-]+@[a-zA-Z0-9.-]+\.[a-zA-Z]{2,}$', s)]:
    [$] matches at the end and before a newline that ends the string; the
    last label has letters only, so it starts after the last dot. *)
Definition matches_pattern (s : pystr) : bool :=
  let s := match rev s with
           | 10%N :: r => rev r
           | _ => s
           end in
  match split_at 64 s with
  | None => false
  | Some (local_part, rest) =>
      match split_at 46 (rev rest) with
      | None => false
      | Some (rev_tld, rev_domain) =>
          nonempty local_part && forallb local_char local_part &&
          nonempty rev_domain && forallb domain_char rev_domain &&
          (2 <=? length rev_tld)%nat && forallb is_alpha rev_tld
      end
  end.

(** [validate_email(email)]: [re.match] raises on anything but a str. *)
Definition validate_email (email : value) : outcome bool :=
  match email with
  | VStr s => Ok (matches_pattern s)
  | _ => Raise TypeError
  end.

(** [body[:200] + "..." if len(body) > 200 else body] *)
Definition preview (body : pystr) : pystr :=
  if (200 <? length body)%nat then take 200 body ++ str "..." else body.

Definition email_dict (e : email_item) : value :=
  VDict [(str "id", VStr (em_id e));
         (str "subject", VStr (em_subject e));
         (str "from", VStr (em_from e));
         (str "date", opt_str (em_date e));
         (str "body", VStr (em_body e));
         (str "preview", VStr (preview (em_body e)))].

Definition get_recent_emails (count : value) : M pydict :=
  if negb is_configured then
    ret (failure (str "Email service not configured. Please set SMTP credentials in .env"))
  else
    w <- get_world ;;
    emit (EImapFetch count) ;;;
    match imap_fetch P (length (trace w)) count with
    | inl msg => ret (failure msg)
    | inr emails =>
        ret [(str "success", VBool true);
             (str "count", VInt (Z.of_nat (length emails)));
             (str "emails", VList (map email_dict emails))]
    end.

(** [index + 1] *)
Definition plus_one (v : value) : outcome value :=
  match v with
  | VInt z => Ok (VInt (z + 1))
  | VBool b => Ok (VInt ((if b then 1 else 0) + 1))
  | VFloat (FFinite q) => Ok (VFloat (FFinite (q + 1)))
  | VFloat f => Ok (VFloat f)
  | _ => Raise TypeError
  end.

(** [index >= n] for the length [n] of a list *)
Definition ge_len (v : value) (n : nat) : outcome bool :=
  match v with
  | VInt z => Ok (Z.of_nat n <=? z)
  | VBool b => Ok (Z.of_nat n <=? (if b then 1 else 0))
  | VFloat (FFinite q) => Ok (Qle_bool (inject_Z (Z.of_nat n)) q)
  | VFloat (FInf negative) => Ok (negb negative)
  | VFloat FNaN => Ok false
  | _ => Raise TypeError
  end.

(** [l[index]]: a negative index counts from the end. *)
Definition item_at (l : list value) (v : value) : outcome value :=
  let at_ (z : Z) :=
    let n := Z.of_nat (length l) in
    let k := if z <? 0 then z + n else z in
    if (0 <=? k) && (k <? n)
    then match nth_error l (Z.to_nat k) with
         | Some x => Ok x
         | None => Raise IndexError
         end
    else Raise IndexError in
  match v with
  | VInt z => at_ z
  | VBool b => at_ (if b then 1 else 0)
  | _ => Raise TypeError
  end.

(** [result.get("emails", [])], which the service always sets to a list *)
Definition emails_of (result : pydict) : list value :=
  match get_default "emails" (VList []) result with
  | VList l => l
  | _ => []
  end.

Definition get_email_by_index (index : value) : M pydict :=
  count <- lift (plus_one index) ;;
  result <- get_recent_emails count ;;
  if negb (truthy (get "success" result)) then ret result
  else
    let emails := emails_of result in
    missing <- lift (ge_len index (length emails)) ;;
    if missing then
      ret (failure (str "Email at index " ++ fmt P index ++ str " not found"))
    else
      e <- lift (item_at emails index) ;;
      ret [(str "success", VBool true); (str "email", e)].

(** [v.lower()] *)
Definition lower (v : value) : outcome pystr :=
  match v with
  | VStr s => Ok (str_lower P s)
  | _ => Raise AttributeError
  end.

(** [email_item.get(key, "").lower()] on an entry of the service's list *)
Definition lowered_field (key : string) (e : value) : pystr :=
  match e with
  | VDict d => match get_default key (VStr []) d with
               | VStr s => str_lower P s
               | _ => []
               end
  | _ => []
  end.

(** The loop of [search_emails]: it stops at [count] matches. *)
Fixpoint matching_emails (query_lower : pystr) (count : nat) (emails : list value) : list value :=
  match emails with
  | [] => []
  | e :: emails' =>
      if str_in query_lower (lowered_field "subject" e)
         || str_in query_lower (lowered_field "from" e)
         || str_in query_lower (lowered_field "body" e)
      then match count with
           | O | 1%nat => [e]
           | S n => e :: matching_emails query_lower n emails'
           end
      else matching_emails query_lower count emails'
  end.

Definition search_emails (query : value) : M pydict :=
  result <- get_recent_emails (VInt 50) ;;
  if negb (truthy (get "success" result)) then ret result
  else
    query_lower <- lift (lower query) ;;
    let matching := matching_emails query_lower 5 (emails_of result) in
    ret [(str "success", VBool true);
         (str "query", query);
         (str "count", VInt (Z.of_nat (length matching)));
         (str "emails", VList matching)].

End email_service.
End email_service.


(** ** app/agent/calendar_service.py *)

Module calendar_service.
Section calendar_service.

Context (P : Platform).

Definition is_configured : bool := calendar_is_configured P.

Definition value_eqb_str (v : value) (s : pystr) : bool :=
  match v with
  | VStr s' => pystr_eqb s' s
  | _ => false
  end.

(** The attendees of the request body: the organizer, if configured, then
    the others without the organizer's address. *)
Definition all_attendees (attendees : list value) : list value :=
  (if nonempty (SMTP_USER P) then [VStr (SMTP_USER P)] else []) ++
  filter (fun email => negb (value_eqb_str email (SMTP_USER P))) attendees.

(** [end_time] is [None] or a datetime. *)
Definition create_event_with_meet (title : value) (start_time : datetime)
    (end_time : option datetime) (description : value) (attendees : list value)
    (send_notifications : bool) : M pydict :=
  if negb is_configured then
    ret (failure (str "Google Calendar not configured. Please set up OAuth credentials."))
  else
    try_except
      (end_time <- match end_time with
                   | Some t => ret t
                   | None => lift (dt_add start_time us_per_hour)
                   end ;;
       _ <- now P ;;
       w <- get_world ;;
       emit (ECalendarInsert title start_time end_time (all_attendees attendees)
                             send_notifications) ;;;
       match google_insert P (length (trace w)) title start_time end_time
                           (all_attendees attendees) with
       | inl msg => ret (failure msg)
       | inr created =>
           ret [(str "success", VBool true);
                (str "event_id", opt_str (ce_id created));
                (str "event_link", opt_str (ce_htmlLink created));
                (str "meet_link", opt_str (ce_meet_uri created));
                (str "title", title);
                (str "start_time", VStr (isoformat P start_time));
                (str "end_time", VStr (isoformat P end_time));
                (str "attendees", VList attendees);
                (str "message",
                 VStr (str "Evenimentul '" ++ fmt P title ++ str "' a fost creat cu Google Meet."))]
       end)
      (fun e => ret (failure (str "Failed to create event: " ++ e))).

Definition get_upcoming_events : M pydict :=
  if negb is_configured then
    ret (failure (str "Google Calendar not configured."))
  else
    _ <- utcnow P ;;
    w <- get_world ;;
    emit ECalendarList ;;;
    match google_list P (length (trace w)) with
    | inl msg => ret (failure (str "Failed to get events: " ++ msg))
    | inr events =>
        ret [(str "success", VBool true);
             (str "count", VInt (Z.of_nat (length events)));
             (str "events", VList (map VDict events))]
    end.

Definition delete_event (event_id : pystr) : M pydict :=
  if negb is_configured then
    ret (failure (str "Google Calendar not configured."))
  else
    w <- get_world ;;
    emit (ECalendarDelete event_id) ;;;
    match google_delete P (length (trace w)) event_id with
    | None =>
        ret [(str "success", VBool true);
             (str "message", VStr (str "Evenimentul a fost șters."))]
    | Some msg => ret (failure (str "Failed to delete event: " ++ msg))
    end.

End calendar_service.
End calendar_service.

(** ** app/ai/search_service.py *)

Module search_service.
Section search_service.

Context (P : Platform).

Definition search (query : value) : M pydict :=
  w <- get_world ;;
  emit (EWebSearch query) ;;;
  match ddgs_text P (length (trace w)) query with
  | inr (formatted_results, direct_answer) =>
      ret [(str "success", VBool true);
           (str "query", query);
           (str "direct_answer", direct_answer);
           (str "results", VList (map VDict formatted_results));
           (str "error", VNone)]
  | inl msg =>
      ret [(str "success", VBool false);
           (str "query", query);
           (str "direct_answer", VNone);
           (str "results", VList []);
           (str "error", VStr msg)]
  end.

(** [v[:200]] *)
Definition slice_200 (v : value) : outcome value :=
  match v with
  | VStr s => Ok (VStr (take 200 s))
  | VList l => Ok (VList (take 200 l))
  | _ => Raise TypeError
  end.

(** [result.get(key, "")] on an entry of the results *)
Definition entry_get (key : string) (result : value) : outcome value :=
  match result with
  | VDict d => Ok (get_default key (VStr []) d)
  | _ => Raise AttributeError
  end.

(** The loop of [format_results_for_ai], numbering from [i]. *)
Fixpoint format_entries (i : Z) (results : list value) : outcome (list pystr) :=
  match results with
  | [] => Ok []
  | result :: results' =>
      match entry_get "title" result, entry_get "snippet" result with
      | Ok title, Ok snippet =>
          let head := [str "
" ++ fmt P (VInt i) ++ str ". " ++ fmt P title] in
          match (if truthy snippet then
                   match slice_200 snippet with
                   | Ok cut => Ok [str "   " ++ fmt P cut ++ str "..."]
                   | Raise e => Raise e
                   end
                 else Ok []) with
          | Ok tail =>
              match format_entries (i + 1) results' with
              | Ok rest => Ok (head ++ tail ++ rest)
              | Raise e => Raise e
              end
          | Raise e => Raise e
          end
      | Raise e, _ | _, Raise e => Raise e
      end
  end.

Definition format_results_for_ai (search_results : pydict) : outcome pystr :=
  if negb (truthy (get "success" search_results)) then
    Ok (str "Nu am putut căuta: " ++
        fmt P (get_default "error" (VStr (str "eroare necunoscută")) search_results))
  else
    let results := match get_default "results" (VList []) search_results with
                   | VList l => take 5 l
                   | _ => []
                   end in
    match format_entries 1 results with
    | Ok entries =>
        Ok (join (str "
")
              ([str "Rezultate căutare pentru '" ++ fmt P (get "query" search_results) ++ str "':"]
               ++ (if truthy (get "direct_answer" search_results)
                   then [str "
Răspuns direct: " ++ fmt P (get "direct_answer" search_results)]
                   else [])
               ++ entries))
    | Raise e => Raise e
    end.

End search_service.
End search_service.

(** ** app/agent/meeting_scheduler.py *)

Module MeetingSchedulerService.
Section MeetingSchedulerService.

Context (P : Platform).

Definition JobLookupError : pystr := str "JobLookupError".

(** [self.scheduler.add_job(..., id=job_id, replace_existing=True)] *)
Definition add_job (job_id : pystr) (job : Job) : M unit :=
  fun w => (Ok tt, set_meeting_scheduler
                     (fun s => {| jobs := <[job_id := job]> (jobs s);
                                  scheduled_reminders := scheduled_reminders s;
                                  _started := _started s |}) w).

(** [self.scheduler.remove_job(job_id)]: raises when there is no such job. *)
Definition remove_job (job_id : pystr) : M unit :=
  fun w =>
    match jobs (meeting_scheduler w) !! job_id with
    | Some _ =>
        (Ok tt, set_meeting_scheduler
                  (fun s => {| jobs := delete job_id (jobs s);
                               scheduled_reminders := scheduled_reminders s;
                               _started := _started s |}) w)
    | None => (Raise JobLookupError, w)
    end.

Definition start : M unit :=
  fun w =>
    if _started (meeting_scheduler w) then (Ok tt, w)
    else (Ok tt, set_meeting_scheduler
                   (fun s => {| jobs := jobs s;
                                scheduled_reminders := scheduled_reminders s;
                                _started := true |}) w).

Definition stop : M unit :=
  fun w =>
    if _started (meeting_scheduler w)
    then (Ok tt, set_meeting_scheduler
                   (fun s => {| jobs := jobs s;
                                scheduled_reminders := scheduled_reminders s;
                                _started := false |}) w)
    else (Ok tt, w).

(** [f"reminder_{event_id}_owner"] and [f"reminder_{event_id}_attendee"] *)
Definition job_id_owner (event_id : value) : pystr :=
  str "reminder_" ++ fmt P event_id ++ str "_owner".

Definition job_id_attendee (event_id : value) : pystr :=
  str "reminder_" ++ fmt P event_id ++ str "_attendee".

(** The key [event_id] of [self.scheduled_reminders]: a str or [None]. *)
Definition reminder_key (event_id : value) : option pystr :=
  match event_id with
  | VStr s => Some s
  | _ => None
  end.

Definition _send_invitation_email (to_email : value) (title : value) : M pydict :=
  email_service.send_email P to_email
    (VStr (str "Invitație la întâlnire: " ++ fmt P title)).

Definition _send_organizer_confirmation_email (title : value) : M pydict :=
  email_service.send_email P (VStr (SMTP_USER P))
    (VStr (str "✅ Întâlnire programată: " ++ fmt P title)).

Definition _schedule_reminder (event_id : value) (reminder_time : datetime)
    (title : value) (start_time : datetime) (meet_link : value)
    (attendee_email : value) (attendee_name : value) : M unit :=
  w <- get_world ;;
  (if negb (_started (meeting_scheduler w)) then start else ret tt) ;;;
  (if nonempty (SMTP_USER P) then
     add_job (job_id_owner event_id)
       {| run_date := reminder_time; job_to_email := VStr (SMTP_USER P);
          job_name := VStr []; job_title := title; job_start_time := start_time;
          job_meet_link := meet_link; job_is_owner := true |}
   else ret tt) ;;;
  (if truthy attendee_email
      && negb (calendar_service.value_eqb_str attendee_email (SMTP_USER P)) then
     add_job (job_id_attendee event_id)
       {| run_date := reminder_time; job_to_email := attendee_email;
          job_name := attendee_name; job_title := title; job_start_time := start_time;
          job_meet_link := meet_link; job_is_owner := false |}
   else ret tt) ;;;
  fun w => (Ok tt, set_meeting_scheduler
                     (fun s => {| jobs := jobs s;
                                  scheduled_reminders :=
                                    <[reminder_key event_id := str "reminder_" ++ fmt P event_id]>
                                      (scheduled_reminders s);
                                  _started := _started s |}) w).

Definition cancel_reminder (event_id : pystr) : M bool :=
  try_except
    (try_pass (remove_job (job_id_owner (VStr event_id))) ;;;
     try_pass (remove_job (job_id_attendee (VStr event_id))) ;;;
     (fun w => (Ok tt, set_meeting_scheduler
                         (fun s => {| jobs := jobs s;
                                      scheduled_reminders :=
                                        delete (Some event_id) (scheduled_reminders s);
                                      _started := _started s |}) w)) ;;;
     ret true)
    (fun _ => ret false).

(** [end_time] is [None] or a datetime; [attendee_email] is [None] or a
    str; the body of an email is not modelled. *)
Definition schedule_meeting (title : value) (start_time : datetime)
    (end_time : option datetime) (attendee_email attendee_name description : value)
    (reminder_hours_before : value) : M pydict :=
  try_except
    (let attendees :=
       (if truthy attendee_email then [attendee_email] else []) ++
       (if nonempty (SMTP_USER P) then [VStr (SMTP_USER P)] else []) in
     end_time <- match end_time with
                 | Some t => ret t
                 | None => lift (dt_add start_time us_per_hour)
                 end ;;
     _ <- lift (match int_times_60 P reminder_hours_before with
                | Some minutes => Ok minutes
                | None => Raise TypeError
                end) ;;
     result <- calendar_service.create_event_with_meet P title start_time (Some end_time)
                 description attendees true ;;
     if negb (truthy (get "success" result)) then ret result
     else
       let meet_link := get_default "meet_link" (VStr []) result in
       let event_id := get_default "event_id" (VStr []) result in
       (if truthy attendee_email
        then _ <- _send_invitation_email attendee_email title ;; ret tt
        else ret tt) ;;;
       (if nonempty (SMTP_USER P)
        then _ <- _send_organizer_confirmation_email title ;; ret tt
        else ret tt) ;;;
       lead <- lift (timedelta P us_per_hour reminder_hours_before) ;;
       reminder_time <- lift (dt_sub start_time lead) ;;
       now1 <- now P ;;
       in_future <- lift (dt_gt_naive reminder_time now1) ;;
       (if in_future
        then _schedule_reminder event_id reminder_time title start_time meet_link
               attendee_email attendee_name
        else ret tt) ;;;
       now2 <- now P ;;
       reminder_scheduled <- lift (dt_gt_naive reminder_time now2) ;;
       now3 <- now P ;;
       has_reminder_time <- lift (dt_gt_naive reminder_time now3) ;;
       ret [(str "success", VBool true);
            (str "event_id", event_id);
            (str "meet_link", meet_link);
            (str "event_link", get "event_link" result);
            (str "title", title);
            (str "start_time", VStr (isoformat P start_time));
            (str "end_time", VStr (isoformat P end_time));
            (str "attendee", attendee_email);
            (str "reminder_scheduled", VBool reminder_scheduled);
            (str "reminder_time",
             if has_reminder_time then VStr (isoformat P reminder_time) else VNone);
            (str "message",
             VStr (str "Întâlnirea '" ++ fmt P title ++
                   str "' a fost programată cu succes. Link Google Meet: " ++ fmt P meet_link))])
    (fun e => ret (failure (str "Failed to schedule meeting: " ++ e))).

End MeetingSchedulerService.
End MeetingSchedulerService.

(** ** app/agent/action_executor.py *)

(** [ORDER BY key ASC]: rows with equal keys keep their order. *)
Fixpoint insert_by {A} (leb : A -> A -> bool) (x : A) (l : list A) : list A :=
  match l with
  | [] => [x]
  | y :: l' => if leb x y then x :: l else y :: insert_by leb x l'
  end.

Fixpoint order_by {A} (leb : A -> A -> bool) (l : list A) : list A :=
  match l with
  | [] => []
  | x :: l' => insert_by leb x (order_by leb l')
  end.

(** [column.asc().nullsfirst()]: NULL before every value. *)
Definition asc_nullsfirst (a b : option Z) : bool :=
  match a, b with
  | None, _ => true
  | Some _, None => false
  | Some x, Some y => x <=? y
  end.

(** [Task.is_completed == False], [ShoppingItem.is_purchased == False] *)
Definition active_tasks (d : Db) : list Task.t :=
  filter (fun t => negb (Task.is_completed t)) (tasks d).

Definition active_items (d : Db) : list ShoppingItem.t :=
  filter (fun i => negb (ShoppingItem.is_purchased i)) (shopping_items d).

(** [column >= lo, column < hi] on a nullable DateTime column: NULL
    satisfies no comparison. *)
Definition in_range (lo hi : Z) (column : option Z) : bool :=
  match column with
  | Some t => (lo <=? t) && (t <? hi)
  | None => false
  end.

Module ActionExecutor.
Section ActionExecutor.

Context (P : Platform).

(** [_parse_date]: [parser.parse] raises on what is not a str, and every
    exception gives [None]. *)
Definition _parse_date (date_str : value) : option datetime :=
  match date_str with
  | VStr s => parser_parse P s
  | _ => None
  end.

(** *** Tasks *)

(** The [Task(...)] of [_add_task] *)
Definition task_of (task_data : pydict) : new_task :=
  {| nt_title := get_default "title" (VStr (str "Task fără titlu")) task_data;
     nt_description := get "description" task_data;
     nt_due_date := if truthy (get "due_date" task_data)
                    then _parse_date (get "due_date" task_data) else None;
     nt_priority := get_default "priority" (VInt 1) task_data;
     nt_category := get "category" task_data |}.

(** The loop of the batch mode; it returns [added_tasks]. *)
Fixpoint add_tasks (data : list value) : M (list value) :=
  match data with
  | [] => ret []
  | task_data :: data' =>
      d <- lift (as_dict task_data) ;;
      db_add (AddTask (task_of d)) ;;;
      added <- add_tasks data' ;;
      ret (get_default "title" (VStr (str "Task")) d :: added)
  end.

Definition titles (l : list Task.t) : list value :=
  map (fun t => VStr (Task.title t)) l.

(** The row an object added last has after the commit. *)
Definition added_row {A} (id_of : A -> Z) (ids : list Z) (rows : list A) : outcome A :=
  match List.find (fun r => id_of r =? List.last ids 0) rows with
  | Some r => Ok r
  | None => Raise (str "InvalidRequestError")
  end.

Definition _add_task (data : value) : M pydict :=
  try_except
    (match data with
     | VList l =>
         added_tasks <- add_tasks l ;;
         _ <- commit P ;;
         all_tasks <- query active_tasks ;;
         names <- lift (all_strs added_tasks) ;;
         ret [(str "success", VBool true);
              (str "action", VStr (str "add_task"));
              (str "count", VInt (Z.of_nat (length added_tasks)));
              (str "message",
               VStr (str "Am adăugat " ++ fmt P (VInt (Z.of_nat (length added_tasks)))
                     ++ str " task-uri: " ++ join (str ", ") names ++ str "."));
              (str "full_list", VList (titles all_tasks));
              (str "total_tasks", VInt (Z.of_nat (length all_tasks)))]
     | _ =>
         d <- lift (as_dict data) ;;
         db_add (AddTask (task_of d)) ;;;
         ids <- commit P ;;
         task <- bind (query (fun db => added_row Task.id ids (tasks db))) lift ;;
         all_tasks <- query active_tasks ;;
         ret [(str "success", VBool true);
              (str "action", VStr (str "add_task"));
              (str "task_id", VInt (Task.id task));
              (str "message",
               VStr (str "Task-ul '" ++ Task.title task ++ str "' a fost adăugat."));
              (str "full_list", VList (titles all_tasks));
              (str "total_tasks", VInt (Z.of_nat (length all_tasks)))]
     end)
    (fun e => rollback ;;; ret (failure e)).

Definition task_dict (task : Task.t) : value :=
  VDict [(str "id", VInt (Task.id task));
         (str "title", VStr (Task.title task));
         (str "description", opt_str (Task.description task));
         (str "due_date",
          match Task.due_date task with
          | Some t => VStr (isoformat P (naive t))
          | None => VNone
          end);
         (str "priority", Task.priority task);
         (str "category", opt_str (Task.category task))].

(** The query of [_list_tasks]: [category] is the bound parameter of the
    category filter and [today] the start of the current day, when the
    filters are asked for. *)
Definition list_tasks_query (category : option (option pystr)) (today : option Z)
    (d : Db) : list Task.t :=
  let by_category :=
    match category with
    | Some key => filter (fun t => eq_text key (Task.category t)) (active_tasks d)
    | None => active_tasks d
    end in
  let by_day :=
    match today with
    | Some start => filter (fun t => in_range start (start + us_per_day) (Task.due_date t))
                      by_category
    | None => by_category
    end in
  order_by (fun a b => asc_nullsfirst (Task.due_date a) (Task.due_date b)) by_day.

(** [datetime.now().date()], as the first instant of that day *)
Definition date_of (t : Z) : Z := (t / us_per_day) * us_per_day.

Definition _list_tasks (data : value) : M pydict :=
  try_except
    (d <- lift (as_dict data) ;;
     category <- (if truthy (get "category" d)
                  then key <- lift (bind_text P (get "category" d)) ;; ret (Some key)
                  else ret None) ;;
     today <- (if truthy (get "today" d)
               then t <- now P ;;
                    if date_of t + us_per_day <? datetime_end
                    then ret (Some (date_of t)) else raise OverflowError
               else ret None) ;;
     tasks <- query (list_tasks_query category today) ;;
     ret [(str "success", VBool true);
          (str "action", VStr (str "list_tasks"));
          (str "count", VInt (Z.of_nat (length tasks)));
          (str "tasks", VList (map task_dict tasks))])
    (fun e => ret (failure e)).

(** The lookup of [_complete_task] and [_delete_task] *)
Definition find_task (d : pydict) : M (option Task.t) :=
  if truthy (get "task_id" d) then
    key <- lift (bind_integer P (get "task_id" d)) ;;
    query (fun db => find (fun t => eq_integer key (Task.id t)) (tasks db))
  else if truthy (get "task_title" d) then
    query (fun db => find (fun t => ilike (contains_pattern P (get "task_title" d))
                                          (Task.title t)) (tasks db))
  else ret None.

Definition _complete_task (data : value) : M pydict :=
  try_except
    (d <- lift (as_dict data) ;;
     task <- find_task d ;;
     match task with
     | None => ret (failure (str "Task-ul nu a fost găsit."))
     | Some task =>
         t <- utcnow P ;;
         db_add (CompleteTask (Task.id task) t) ;;;
         _ <- commit P ;;
         ret [(str "success", VBool true);
              (str "action", VStr (str "complete_task"));
              (str "message",
               VStr (str "Task-ul '" ++ Task.title task
                     ++ str "' a fost marcat ca finalizat."))]
     end)
    (fun e => rollback ;;; ret (failure e)).

Definition _delete_task (data : value) : M pydict :=
  try_except
    (d <- lift (as_dict data) ;;
     task <- find_task d ;;
     match task with
     | None => ret (failure (str "Task-ul nu a fost găsit."))
     | Some task =>
         db_add (DeleteTask (Task.id task)) ;;;
         _ <- commit P ;;
         ret [(str "success", VBool true);
              (str "action", VStr (str "delete_task"));
              (str "message",
               VStr (str "Task-ul '" ++ Task.title task ++ str "' a fost șters."))]
     end)
    (fun e => rollback ;;; ret (failure e)).

(** *** Shopping *)

(** The [ShoppingItem(...)] of [_add_shopping_item] *)
Definition item_of (item_data : pydict) : new_item :=
  {| ni_name := get_default "name" (VStr (str "Item")) item_data;
     ni_quantity := if truthy (get "quantity" item_data)
                    then VStr (fmt P (get_default "quantity" (VStr (str "1")) item_data))
                    else VStr (str "1");
     ni_category := get "category" item_data;
     ni_notes := get "notes" item_data;
     ni_price_estimate := get "price" item_data |}.

Fixpoint add_items (data : list value) : M (list value) :=
  match data with
  | [] => ret []
  | item_data :: data' =>
      d <- lift (as_dict item_data) ;;
      db_add (AddItem (item_of d)) ;;;
      added <- add_items data' ;;
      ret (get_default "name" (VStr (str "Item")) d :: added)
  end.

Definition names (l : list ShoppingItem.t) : list value :=
  map (fun i => VStr (ShoppingItem.name i)) l.

Definition _add_shopping_item (data : value) : M pydict :=
  try_except
    (match data with
     | VList l =>
         added_items <- add_items l ;;
         _ <- commit P ;;
         all_items <- query active_items ;;
         added_names <- lift (all_strs added_items) ;;
         ret [(str "success", VBool true);
              (str "action", VStr (str "add_shopping_item"));
              (str "count", VInt (Z.of_nat (length added_items)));
              (str "message",
               VStr (str "Am adăugat " ++ fmt P (VInt (Z.of_nat (length added_items)))
                     ++ str " produse pe listă: " ++ join (str ", ") added_names ++ str "."));
              (str "full_list", VList (names all_items));
              (str "total_items", VInt (Z.of_nat (length all_items)))]
     | _ =>
         d <- lift (as_dict data) ;;
         db_add (AddItem (item_of d)) ;;;
         ids <- commit P ;;
         item <- bind (query (fun db => added_row ShoppingItem.id ids (shopping_items db))) lift ;;
         all_items <- query active_items ;;
         ret [(str "success", VBool true);
              (str "action", VStr (str "add_shopping_item"));
              (str "item_id", VInt (ShoppingItem.id item));
              (str "message",
               VStr (str "'" ++ ShoppingItem.name item
                     ++ str "' a fost adăugat la lista de cumpărături."));
              (str "full_list", VList (names all_items));
              (str "total_items", VInt (Z.of_nat (length all_items)))]
     end)
    (fun e => rollback ;;; ret (failure e)).

Definition item_dict (item : ShoppingItem.t) : value :=
  VDict [(str "id", VInt (ShoppingItem.id item));
         (str "name", VStr (ShoppingItem.name item));
         (str "quantity", opt_str (ShoppingItem.quantity item));
         (str "category", opt_str (ShoppingItem.category item));
         (str "notes", opt_str (ShoppingItem.notes item));
         (str "price_estimate", ShoppingItem.price_estimate item)].

Definition _list_shopping (data : value) : M pydict :=
  try_except
    (d <- lift (as_dict data) ;;
     category <- (if truthy (get "category" d)
                  then key <- lift (bind_text P (get "category" d)) ;; ret (Some key)
                  else ret None) ;;
     items <- query (fun db =>
                match category with
                | Some key => filter (fun i => eq_text key (ShoppingItem.category i))
                                (active_items db)
                | None => active_items db
                end) ;;
     ret [(str "success", VBool true);
          (str "action", VStr (str "list_shopping"));
          (str "count", VInt (Z.of_nat (length items)));
          (str "items", VList (map item_dict items))])
    (fun e => ret (failure e)).

(** The suffixes of [_remove_shopping_item], in the order of the source. *)
Definition suffixes : list pystr :=
  [str "urile"; str "ele"; str "ule"; str "ul"; str "le"; str "ii"; str "a"].

(** The loop over the suffixes: the first suffix that ends the term and is
    more than two characters shorter than it is cut off
    ([search_term[:-len(suffix)]]), and the loop ends. *)
Fixpoint strip_suffix (candidates : list pystr) (search_term : pystr) : pystr :=
  match candidates with
  | [] => search_term
  | suffix :: candidates' =>
      if endswith search_term suffix && (length suffix + 2 <? length search_term)%nat
      then take (length search_term - length suffix) search_term
      else strip_suffix candidates' search_term
  end.

(** [data['item_name'].lower().strip()] and the loop *)
Definition normalize (item_name : pystr) : pystr :=
  strip_suffix suffixes (strip (str_lower P item_name)).

(** [ShoppingItem.name.ilike(f"%{term}%")] with [is_purchased == False] *)
Definition item_matches (term : value) (i : ShoppingItem.t) : bool :=
  ilike (contains_pattern P term) (ShoppingItem.name i)
  && negb (ShoppingItem.is_purchased i).

Definition find_item (d : pydict) : M (option ShoppingItem.t) :=
  if truthy (get "item_id" d) then
    key <- lift (bind_integer P (get "item_id" d)) ;;
    query (fun db => find (fun i => eq_integer key (ShoppingItem.id i)) (shopping_items db))
  else if truthy (get "item_name" d) then
    search_term <- lift (match get "item_name" d with
                         | VStr s => Ok (normalize s)
                         | _ => Raise AttributeError
                         end) ;;
    item <- query (fun db => find (item_matches (VStr search_term)) (shopping_items db)) ;;
    match item with
    | Some _ => ret item
    | None =>
        query (fun db => find (item_matches (get "item_name" d)) (shopping_items db))
    end
  else ret None.

Definition _remove_shopping_item (data : value) : M pydict :=
  try_except
    (d <- lift (as_dict data) ;;
     item <- find_item d ;;
     match item with
     | None => ret (failure (str "Produsul nu a fost găsit pe listă."))
     | Some item =>
         if truthy (get_default "purchased" (VBool false) d) then
           db_add (PurchaseItem (ShoppingItem.id item)) ;;;
           _ <- commit P ;;
           ret [(str "success", VBool true);
                (str "action", VStr (str "mark_purchased"));
                (str "message",
                 VStr (str "'" ++ ShoppingItem.name item
                       ++ str "' a fost marcat ca cumpărat."))]
         else
           db_add (DeleteItem (ShoppingItem.id item)) ;;;
           _ <- commit P ;;
           ret [(str "success", VBool true);
                (str "action", VStr (str "remove_shopping_item"));
                (str "message",
                 VStr (str "'" ++ ShoppingItem.name item
                       ++ str "' a fost șters de pe listă."))]
     end)
    (fun e => rollback ;;; ret (failure e)).

(** *** Emails and search *)

Definition _send_email (data : value) : M pydict :=
  try_except
    (d <- lift (as_dict data) ;;
     let to_email := get "to" d in
     let subject := get_default "subject" (VStr (str "Mesaj de la Asistentul AI")) d in
     let body := get_default "body" (VStr []) d in
     if negb (truthy to_email) then
       ret (failure (str "Adresa de email nu a fost specificată."))
     else
       valid <- lift (email_service.validate_email to_email) ;;
       if negb valid then ret (failure (str "Adresa de email nu este validă."))
       else
         db_add (AddAction
                   {| na_action_type := VStr (str "email");
                      na_target := to_email;
                      na_content := VStr (str "Subject: " ++ fmt P subject ++ [10; 10]%N
                                          ++ fmt P body);
                      na_status := VStr (str "pending");
                      na_executed_at := None |}) ;;;
         ids <- commit P ;;
         result <- email_service.send_email P to_email subject ;;
         t <- utcnow P ;;
         db_add (SetActionStatus (List.last ids 0)
                   (if truthy (get "success" result) then str "completed" else str "failed")
                   t) ;;;
         _ <- commit P ;;
         ret result)
    (fun e => rollback ;;; ret (failure e)).

(** [body[:200] + "..." if len(body) > 200 else body] for
    [body = email_item.get("body", "")] *)
Definition email_preview (email_item : pydict) : outcome value :=
  match get_default "body" (VStr []) email_item with
  | VStr s => Ok (VStr (if (200 <? length s)%nat then take 200 s ++ str "..." else s))
  | VList l => if (200 <? length l)%nat then Raise TypeError else Ok (VList l)
  | VDict d => if (200 <? length d)%nat then Raise TypeError else Ok (VDict d)
  | _ => Raise TypeError
  end.

(** The loop [for i, email_item in enumerate(emails, 1)] *)
Fixpoint format_emails (i : Z) (emails : list value) : outcome (list value) :=
  match emails with
  | [] => Ok []
  | email_item :: emails' =>
      match as_dict email_item with
      | Raise e => Raise e
      | Ok d =>
          match email_preview d with
          | Raise e => Raise e
          | Ok preview =>
              match format_emails (i + 1) emails' with
              | Raise e => Raise e
              | Ok rest =>
                  Ok (VDict [(str "index", VInt i);
                             (str "from", get_default "from" (VStr (str "Necunoscut")) d);
                             (str "subject",
                              get_default "subject" (VStr (str "Fără subiect")) d);
                             (str "date", get_default "date" (VStr []) d);
                             (str "preview", preview)] :: rest)
              end
          end
      end
  end.

(** The dict that [_read_last_email] and [_summarize_email] return for an
    email. *)
Definition email_fields (email_item : pydict) : value :=
  VDict [(str "from", get_default "from" (VStr (str "Necunoscut")) email_item);
         (str "subject", get_default "subject" (VStr (str "Fără subiect")) email_item);
         (str "date", get_default "date" (VStr []) email_item);
         (str "body", get_default "body" (VStr []) email_item)].

Definition _read_emails (data : value) : M pydict :=
  try_except
    (d <- lift (as_dict data) ;;
     result <- email_service.get_recent_emails P (get_default "count" (VInt 5) d) ;;
     if negb (truthy (get "success" result)) then
       ret [(str "success", VBool false);
            (str "error",
             get_default "error" (VStr (str "Nu am putut citi emailurile")) result)]
     else
       let emails := email_service.emails_of result in
       if negb (nonempty emails) then
         ret [(str "success", VBool true);
              (str "action", VStr (str "read_emails"));
              (str "message", VStr (str "Nu ai emailuri noi în inbox."));
              (str "emails", VList [])]
       else
         email_list <- lift (format_emails 1 emails) ;;
         ret [(str "success", VBool true);
              (str "action", VStr (str "read_emails"));
              (str "message",
               VStr (str "Ai " ++ fmt P (VInt (Z.of_nat (length emails)))
                     ++ str " emailuri recente."));
              (str "emails", VList email_list)])
    (fun e => ret (failure (str "Nu am putut citi emailurile: " ++ e))).

Definition _read_last_email (data : value) : M pydict :=
  try_except
    (result <- email_service.get_recent_emails P (VInt 1) ;;
     if negb (truthy (get "success" result)) then
       ret [(str "success", VBool false);
            (str "error", get_default "error" (VStr (str "Nu am putut citi emailul")) result)]
     else
       match email_service.emails_of result with
       | [] =>
           ret [(str "success", VBool true);
                (str "action", VStr (str "read_last_email"));
                (str "message", VStr (str "Nu ai emailuri noi în inbox."));
                (str "email", VNone)]
       | email_item :: _ =>
           e <- lift (as_dict email_item) ;;
           ret [(str "success", VBool true);
                (str "action", VStr (str "read_last_email"));
                (str "message", VStr (str "Am citit ultimul email."));
                (str "email", email_fields e)]
       end)
    (fun e => ret (failure (str "Nu am putut citi emailul: " ++ e))).

Definition _search_emails (data : value) : M pydict :=
  try_except
    (d <- lift (as_dict data) ;;
     let query := get_default "query" (VStr []) d in
     if negb (truthy query) then
       ret (failure (str "Nu ai specificat ce să caut în emailuri."))
     else
       result <- email_service.search_emails P query ;;
       if negb (truthy (get "success" result)) then
         ret [(str "success", VBool false);
              (str "error",
               get_default "error" (VStr (str "Nu am putut căuta emailuri")) result)]
       else
         let emails := email_service.emails_of result in
         if negb (nonempty emails) then
           ret [(str "success", VBool true);
                (str "action", VStr (str "search_emails"));
                (str "message",
                 VStr (str "Nu am găsit emailuri care să conțină '" ++ fmt P query
                       ++ str "'."));
                (str "emails", VList [])]
         else
           email_list <- lift (format_emails 1 emails) ;;
           ret [(str "success", VBool true);
                (str "action", VStr (str "search_emails"));
                (str "message",
                 VStr (str "Am găsit " ++ fmt P (VInt (Z.of_nat (length emails)))
                       ++ str " emailuri pentru '" ++ fmt P query ++ str "'."));
                (str "emails", VList email_list)])
    (fun e => ret (failure (str "Nu am putut căuta emailuri: " ++ e))).

Definition _summarize_email (data : value) : M pydict :=
  try_except
    (d <- lift (as_dict data) ;;
     let index := get_default "index" (VInt 1) d in
     result <- email_service.get_email_by_index P index ;;
     if negb (truthy (get "success" result)) then
       ret [(str "success", VBool false);
            (str "error",
             get_default "error"
               (VStr (str "Nu am găsit emailul cu indexul " ++ fmt P index ++ str "."))
               result)]
     else
       e <- lift (as_dict (get_default "email" (VDict []) result)) ;;
       ret [(str "success", VBool true);
            (str "action", VStr (str "summarize_email"));
            (str "message", VStr (str "Am citit emailul pentru rezumat."));
            (str "email", email_fields e);
            (str "needs_ai_summary", VBool true)])
    (fun e => ret (failure (str "Nu am putut citi emailul: " ++ e))).

Definition _search_internet (data : value) : M pydict :=
  try_except
    (d <- lift (as_dict data) ;;
     let query := get_default "query" (VStr []) d in
     if negb (truthy query) then ret (failure (str "Nu ai specificat ce să caut."))
     else
       results <- search_service.search P query ;;
       formatted <- lift (search_service.format_results_for_ai P results) ;;
       ret [(str "success", get "success" results);
            (str "action", VStr (str "search_internet"));
            (str "query", query);
            (str "results", get_default "results" (VList []) results);
            (str "direct_answer", get "direct_answer" results);
            (str "formatted", VStr formatted)])
    (fun e => ret (failure e)).

(** *** Calendar and meetings *)

(** The start time [_schedule_meeting] reads from the payload: [None] when
    it is missing or cannot be parsed. *)
Definition meeting_start_time (d : pydict) : option datetime :=
  if truthy (get "start_time" d) then _parse_date (get "start_time" d)
  else if truthy (get "date" d) && truthy (get "time" d)
       then _parse_date (VStr (fmt P (get "date" d) ++ str " " ++ fmt P (get "time" d)))
       else None.

Definition _schedule_meeting (data : value) : M pydict :=
  try_except
    (d <- lift (as_dict data) ;;
     let title := get_default "title" (VStr (str "Întâlnire")) d in
     match meeting_start_time d with
     | None => ret (failure (str "Nu am putut determina data și ora întâlnirii."))
     | Some start_time =>
         t <- now P ;;
         not_future <- lift (dt_le_naive start_time t) ;;
         if not_future then ret (failure (str "Data întâlnirii trebuie să fie în viitor."))
         else
           let duration_minutes := get_default "duration_minutes" (VInt 60) d in
           end_time <- (if truthy (get "end_time" d)
                        then ret (_parse_date (get "end_time" d))
                        else delta <- lift (timedelta P us_per_minute duration_minutes) ;;
                             e <- lift (dt_add start_time delta) ;;
                             ret (Some e)) ;;
           let attendee_email := get "attendee_email" d in
           let attendee_name := get_default "attendee_name" (VStr []) d in
           let description := get_default "description" (VStr []) d in
           let reminder_hours := get_default "reminder_hours" (VFloat (FFinite 1)) d in
           valid <- (if truthy attendee_email
                     then lift (email_service.validate_email attendee_email)
                     else ret true) ;;
           if negb valid then
             ret (failure (str "Adresa de email '" ++ fmt P attendee_email
                           ++ str "' nu este validă."))
           else
             result <- MeetingSchedulerService.schedule_meeting P title start_time end_time
                         attendee_email attendee_name description reminder_hours ;;
             if truthy (get "success" result) then
               lead <- lift (timedelta P us_per_hour reminder_hours) ;;
               reminder_time <- lift (dt_sub start_time lead) ;;
               db_add (AddEvent
                         {| ne_google_event_id := get "event_id" result;
                            ne_title := title;
                            ne_description := description;
                            ne_start_time := Some start_time;
                            ne_end_time := end_time;
                            ne_meet_link := get "meet_link" result;
                            ne_attendee_email := attendee_email;
                            ne_attendee_name := attendee_name;
                            ne_reminder_time := Some reminder_time;
                            ne_status := VStr (str "scheduled") |}) ;;;
               executed_at <- utcnow P ;;
               db_add (AddAction
                         {| na_action_type := VStr (str "schedule_meeting");
                            na_target := attendee_email;
                            na_content := VStr (str "Meeting: " ++ fmt P title
                                                ++ str ", Meet: "
                                                ++ fmt P (get "meet_link" result));
                            na_status := VStr (str "completed");
                            na_executed_at := Some executed_at |}) ;;;
               _ <- commit P ;;
               ret [(str "success", VBool true);
                    (str "action", VStr (str "schedule_meeting"));
                    (str "event_id", get "event_id" result);
                    (str "meet_link", get "meet_link" result);
                    (str "title", title);
                    (str "start_time", VStr (isoformat P start_time));
                    (str "attendee", attendee_email);
                    (str "message", get "message" result)]
             else ret result
     end)
    (fun e => rollback ;;; ret (failure e)).

Definition _add_calendar_event (data : value) : M pydict :=
  try_except
    (d <- lift (as_dict data) ;;
     let title := get_default "title" (VStr (str "Eveniment")) d in
     let start_time :=
       if truthy (get "start_time" d) then _parse_date (get "start_time" d)
       else if truthy (get "date" d)
            then _parse_date (VStr (fmt P (get "date" d) ++ str " "
                                    ++ fmt P (get_default "time" (VStr (str "09:00")) d)))
            else None in
     match start_time with
     | None => ret (failure (str "Nu am putut determina data evenimentului."))
     | Some start_time =>
         let duration_minutes := get_default "duration_minutes" (VInt 60) d in
         delta <- lift (timedelta P us_per_minute duration_minutes) ;;
         end_time <- lift (dt_add start_time delta) ;;
         let description := get_default "description" (VStr []) d in
         result <- calendar_service.create_event_with_meet P title start_time (Some end_time)
                     description [] false ;;
         if truthy (get "success" result) then
           db_add (AddEvent
                     {| ne_google_event_id := get "event_id" result;
                        ne_title := title;
                        ne_description := description;
                        ne_start_time := Some start_time;
                        ne_end_time := Some end_time;
                        ne_meet_link := VNone;
                        ne_attendee_email := VNone;
                        ne_attendee_name := VNone;
                        ne_reminder_time := None;
                        ne_status := VStr (str "scheduled") |}) ;;;
           _ <- commit P ;;
           ret [(str "success", VBool true);
                (str "action", VStr (str "add_calendar_event"));
                (str "event_id", get "event_id" result);
                (str "title", title);
                (str "start_time", VStr (isoformat P start_time));
                (str "message",
                 VStr (str "Evenimentul '" ++ fmt P title
                       ++ str "' a fost adăugat în calendar."))]
         else ret result
     end)
    (fun e => rollback ;;; ret (failure e)).

(** [event.get(...)] over the events of the remote calendar *)
Fixpoint format_events (events : list value) : outcome (list value) :=
  match events with
  | [] => Ok []
  | event :: events' =>
      match as_dict event with
      | Raise e => Raise e
      | Ok d =>
          match format_events events' with
          | Raise e => Raise e
          | Ok rest =>
              Ok (VDict [(str "title", get "title" d);
                         (str "start", get "start" d);
                         (str "end", get "end" d);
                         (str "meet_link", get "meet_link" d);
                         (str "attendees", get_default "attendees" (VList []) d)] :: rest)
          end
      end
  end.

Definition is_scheduled (e : CalendarEvent.t) : bool :=
  eq_text (Some (str "scheduled")) (CalendarEvent.status e).

Definition event_dict (event : CalendarEvent.t) : value :=
  VDict [(str "id", VInt (CalendarEvent.id event));
         (str "title", VStr (CalendarEvent.title event));
         (str "start", VStr (isoformat P (naive (CalendarEvent.start_time event))));
         (str "end", VStr (isoformat P (naive (CalendarEvent.end_time event))));
         (str "meet_link", opt_str (CalendarEvent.meet_link event));
         (str "attendee", opt_str (CalendarEvent.attendee_email event))].

Definition _list_calendar_events (data : value) : M pydict :=
  try_except
    (google_result <- calendar_service.get_upcoming_events P ;;
     if truthy (get "success" google_result) then
       match get_default "events" (VList []) google_result with
       | VList (event :: events) =>
           event_list <- lift (format_events (event :: events)) ;;
           ret [(str "success", VBool true);
                (str "action", VStr (str "list_calendar_events"));
                (str "count", VInt (Z.of_nat (length event_list)));
                (str "events", VList event_list);
                (str "message",
                 VStr (str "Ai " ++ fmt P (VInt (Z.of_nat (length event_list)))
                       ++ str " evenimente programate."))]
       | _ =>
           ret [(str "success", VBool true);
                (str "action", VStr (str "list_calendar_events"));
                (str "count", VInt 0);
                (str "events", VList []);
                (str "message", VStr (str "Nu ai evenimente programate."))]
       end
     else
       t <- now P ;;
       events <- query (fun db =>
                   take 10 (order_by (fun a b => CalendarEvent.start_time a
                                                 <=? CalendarEvent.start_time b)
                              (filter (fun e => (t <=? CalendarEvent.start_time e)
                                                && is_scheduled e)
                                      (calendar_events db)))) ;;
       ret [(str "success", VBool true);
            (str "action", VStr (str "list_calendar_events"));
            (str "count", VInt (Z.of_nat (length events)));
            (str "events", VList (map event_dict events));
            (str "message",
             VStr (str "Ai " ++ fmt P (VInt (Z.of_nat (length events)))
                   ++ str " evenimente programate."))])
    (fun e => ret (failure e)).

(** The lookup of [_cancel_calendar_event]: by id, by remote id, or by
    title among the scheduled events. *)
Definition find_event (d : pydict) : M (option CalendarEvent.t) :=
  if truthy (get "event_id" d) then
    key <- lift (bind_integer P (get "event_id" d)) ;;
    query (fun db => find (fun e => eq_integer key (CalendarEvent.id e)) (calendar_events db))
  else if truthy (get "google_event_id" d) then
    key <- lift (bind_text P (get "google_event_id" d)) ;;
    query (fun db => find (fun e => eq_text key (CalendarEvent.google_event_id e))
                          (calendar_events db))
  else if truthy (get "title" d) then
    query (fun db => find (fun e => ilike (contains_pattern P (get "title" d))
                                          (CalendarEvent.title e)
                                    && is_scheduled e)
                          (calendar_events db))
  else ret None.

Definition _cancel_calendar_event (data : value) : M pydict :=
  try_except
    (d <- lift (as_dict data) ;;
     event <- find_event d ;;
     match event with
     | None => ret (failure (str "Evenimentul nu a fost găsit."))
     | Some event =>
         (match CalendarEvent.google_event_id event with
          | Some (c :: s) =>
              _ <- calendar_service.delete_event P (c :: s) ;;
              _ <- MeetingSchedulerService.cancel_reminder P (c :: s) ;;
              ret tt
          | _ => ret tt
          end) ;;;
         t <- utcnow P ;;
         db_add (CancelEvent (CalendarEvent.id event) t) ;;;
         _ <- commit P ;;
         ret [(str "success", VBool true);
              (str "action", VStr (str "cancel_calendar_event"));
              (str "message",
               VStr (str "Evenimentul '" ++ CalendarEvent.title event
                     ++ str "' a fost anulat."))]
     end)
    (fun e => rollback ;;; ret (failure e)).

(** *** The dispatcher *)

Definition action_handlers : list (pystr * (value -> M pydict)) :=
  [(str "add_task", _add_task);
   (str "list_tasks", _list_tasks);
   (str "complete_task", _complete_task);
   (str "delete_task", _delete_task);
   (str "add_shopping_item", _add_shopping_item);
   (str "list_shopping", _list_shopping);
   (str "remove_shopping_item", _remove_shopping_item);
   (str "send_email", _send_email);
   (str "read_emails", _read_emails);
   (str "read_last_email", _read_last_email);
   (str "search_emails", _search_emails);
   (str "summarize_email", _summarize_email);
   (str "search_internet", _search_internet);
   (str "schedule_meeting", _schedule_meeting);
   (str "add_calendar_event", _add_calendar_event);
   (str "list_calendar_events", _list_calendar_events);
   (str "cancel_calendar_event", _cancel_calendar_event)].

(** [action_handlers.get(intent)] *)
Fixpoint handler_of (intent : pystr) (handlers : list (pystr * (value -> M pydict)))
    : option (value -> M pydict) :=
  match handlers with
  | [] => None
  | (name, handler) :: handlers' =>
      if pystr_eqb intent name then Some handler else handler_of intent handlers'
  end.

Definition execute (intent : pystr) (action_data : value) : M pydict :=
  match handler_of intent action_handlers with
  | Some handler => handler (if truthy action_data then action_data else VDict [])
  | None => ret (failure (str "Unknown intent: " ++ intent))
  end.

End ActionExecutor.
End ActionExecutor.

(** ** A concrete platform and an empty state, for running the code *)

(** The decimal digits of a number, as [str(n)] gives them. *)
Fixpoint decimal (fuel : nat) (n : N) : pystr :=
  match fuel with
  | O => []
  | S fuel' =>
      (if (n <? 10)%N then [] else decimal fuel' (n / 10)%N) ++ [(48 + n mod 10)%N]
  end.

Definition demo_str (v : value) : pystr :=
  match v with
  | VNone => str "None"
  | VBool true => str "True"
  | VBool false => str "False"
  | VInt z => (if z <? 0 then str "-" else []) ++ decimal 20 (Z.abs_N z)
  | VStr s => s
  | _ => str "?"
  end.

(** 08:00 on some day of the year 2027, in microseconds. *)
Definition demo_now : Z := 740000 * us_per_day + 8 * us_per_hour.

(** The two dates the demo parser knows: a day after [demo_now] and a day
    before it. *)
Definition demo_parse (s : pystr) : option datetime :=
  if pystr_eqb s (str "tomorrow 10:00") then Some (naive (demo_now + 26 * us_per_hour))
  else if pystr_eqb s (str "yesterday 10:00") then Some (naive (demo_now - 22 * us_per_hour))
  else None.

Definition demo_with (smtp_user : pystr) : Platform :=
  {| SMTP_USER := smtp_user;
     SMTP_PASSWORD := str "secret";
     calendar_is_configured := true;
     parser_parse := demo_parse;
     isoformat := fun t => str "T+" ++ decimal 30 (Z.abs_N (dt_us t));
     py_str := demo_str;
     str_lower := map ascii_lower;
     int_times_60 := fun v => match v with
                              | VInt z => Some (z * 60)
                              | VFloat (FFinite q) => Some (Qfloor (q * 60))
                              | _ => None
                              end;
     timedelta_of_float := fun unit q => Qfloor (q * inject_Z unit);
     sqlite_text := demo_str;
     sqlite_integer := fun _ => None;
     clock_now := fun n => demo_now + Z.of_nat n;
     clock_utcnow := fun n => demo_now - 2 * us_per_hour + Z.of_nat n;
     google_insert := fun n _ _ _ _ =>
       inr {| ce_id := Some (str "evt" ++ decimal 20 (N.of_nat n));
              ce_htmlLink := Some (str "https://calendar.example/evt");
              ce_meet_uri := Some (str "https://meet.example/abc") |};
     google_delete := fun _ _ => None;
     google_list := fun _ => inl (str "unavailable");
     smtp_sendmail := fun _ _ _ => None;
     imap_fetch := fun _ _ => inr [];
     ddgs_text := fun _ _ => inl (str "offline") |}.

(** The organizer's address is configured in [demo]; in [demo_no_smtp] it
    has the default of app/config.py, the empty string. *)
Definition demo : Platform := demo_with (str "me@example.com").
Definition demo_no_smtp : Platform := demo_with [].

Definition empty_db : Db :=
  {| tasks := []; shopping_items := []; agent_actions := []; calendar_events := [] |}.

Definition world_of (d : Db) : World :=
  {| session := {| database := d; pending := [] |};
     meeting_scheduler := {| jobs := ∅; scheduled_reminders := ∅; _started := false |};
     trace := [];
     clock_reads := 0 |}.

(** * Properties *)

(** ** Reasoning about computations *)

(** [returns m Q]: every value [m] returns satisfies [Q].
    [always m Q]: [m] returns a value, which satisfies [Q], from every
    state; it never raises. *)
Definition returns {A} (m : M A) (Q : A -> Prop) : Prop :=
  forall w a w', m w = (Ok a, w') -> Q a.

Definition always {A} (m : M A) (Q : A -> Prop) : Prop :=
  forall w, exists a w', m w = (Ok a, w') /\ Q a.

Lemma returns_ret {A} (a : A) (Q : A -> Prop) : Q a -> returns (ret a) Q.
Proof. intros HQ w a' w' H. inversion H. subst. exact HQ. Qed.

Lemma returns_raise {A} (e : pystr) (Q : A -> Prop) : returns (raise e) Q.
Proof. intros w a w' H. discriminate H. Qed.

Lemma returns_lift {A} (o : outcome A) (Q : A -> Prop) :
  (forall a, o = Ok a -> Q a) -> returns (lift o) Q.
Proof. intros HQ w a w' H. inversion H. auto. Qed.

Lemma returns_bind {A B} (m : M A) (k : A -> M B) (Q : A -> Prop) (R : B -> Prop) :
  returns m Q -> (forall a, Q a -> returns (k a) R) -> returns (bind m k) R.
Proof.
  intros Hm Hk w b w' H. unfold bind in H.
  destruct (m w) as [[a | e] w1] eqn:E; [| discriminate H].
  eapply Hk; [eapply Hm; exact E | exact H].
Qed.

Lemma returns_bind_any {A B} (m : M A) (k : A -> M B) (R : B -> Prop) :
  (forall a, returns (k a) R) -> returns (bind m k) R.
Proof.
  intros Hk. apply returns_bind with (Q := fun _ => True); [easy | auto].
Qed.

Lemma returns_try_except {A} (body : M A) (handler : pystr -> M A) (Q : A -> Prop) :
  returns body Q -> (forall e, returns (handler e) Q) ->
  returns (try_except body handler) Q.
Proof.
  intros Hb Hh w a w' H. unfold try_except in H.
  destruct (body w) as [[a1 | e] w1] eqn:E.
  - inversion H. subst. eapply Hb. exact E.
  - eapply Hh. exact H.
Qed.

Lemma always_ret {A} (a : A) (Q : A -> Prop) : Q a -> always (ret a) Q.
Proof. intros HQ w. exists a, w. split; [reflexivity | exact HQ]. Qed.

Lemma always_returns {A} (m : M A) (Q : A -> Prop) : always m Q -> returns m Q.
Proof.
  intros H w a w' E. destruct (H w) as (a1 & w1 & E1 & HQ).
  rewrite E in E1. inversion E1. subst. exact HQ.
Qed.

(** A [try] block whose handlers return leaves no exception. *)
Lemma always_try_except {A} (body : M A) (handler : pystr -> M A) (Q : A -> Prop) :
  returns body Q -> (forall e, always (handler e) Q) ->
  always (try_except body handler) Q.
Proof.
  intros Hb Hh w. unfold try_except.
  destruct (body w) as [[a | e] w1] eqn:E.
  - exists a, w1. split; [reflexivity | eapply Hb; exact E].
  - apply Hh.
Qed.

(** ** The result contract: a dict with a boolean [success] *)

Definition well_formed (r : pydict) : Prop :=
  exists b, dict_get (str "success") r = Some (VBool b).

Lemma well_formed_failure (msg : pystr) : well_formed (failure msg).
Proof. exists false. reflexivity. Qed.

Lemma always_failure (msg : pystr) : always (ret (failure msg)) well_formed.
Proof. apply always_ret, well_formed_failure. Qed.

Lemma always_rollback_failure (msg : pystr) :
  always (rollback ;;; ret (failure msg)) well_formed.
Proof.
  intros w. eexists _, _. split; [reflexivity | apply well_formed_failure].
Qed.

(** What [get "success"] reads from a well-formed result. *)
Lemma well_formed_get (r : pydict) :
  well_formed r -> exists b, get "success" r = VBool b.
Proof. intros [b H]. exists b. unfold get. rewrite H. reflexivity. Qed.

(** A result that copies the [success] of a well-formed one. *)
Lemma well_formed_copy (r rest : pydict) :
  well_formed r -> well_formed ((str "success", get "success" r) :: rest).
Proof.
  intros H. destruct (well_formed_get r H) as [b Hb]. exists b.
  rewrite Hb. reflexivity.
Qed.

Create HintDb results.

#[local] Hint Resolve well_formed_failure always_failure always_rollback_failure : results.

(** One step through the body of a handler. *)
Ltac returns_step :=
  lazymatch goal with
  | |- returns (bind _ _) _ =>
      first [ eapply returns_bind; [solve [auto 1 with results nocore] | intros ? ?]
            | apply returns_bind_any; intros ? ]
  | |- returns (ret _) _ => apply returns_ret
  | |- returns (raise _) _ => apply returns_raise
  | |- returns (if ?b then _ else _) _ => destruct b eqn:?
  | |- returns (match ?x with _ => _ end) _ => destruct x eqn:?
  | |- returns (try_except _ _) _ => apply returns_try_except; [| intros ?]
  | |- well_formed _ =>
      first [ assumption | eexists; reflexivity | apply well_formed_copy; assumption ]
  end.

Ltac returns_tac := cbv zeta; repeat (returns_step; cbv zeta).

(** ** Every handler returns a well-formed result and never raises *)

Section Contract.

Context (P : Platform).

Lemma send_email_well_formed (to_email subject : value) :
  returns (email_service.send_email P to_email subject) well_formed.
Proof. unfold email_service.send_email. returns_tac. Qed.

Lemma create_event_well_formed title start_time end_time description attendees notify :
  returns (calendar_service.create_event_with_meet P title start_time end_time
             description attendees notify) well_formed.
Proof. unfold calendar_service.create_event_with_meet. returns_tac. Qed.

Lemma search_well_formed (query : value) :
  returns (search_service.search P query) well_formed.
Proof. unfold search_service.search. returns_tac. Qed.

#[local] Hint Extern 1 (returns (email_service.send_email _ _ _) _) =>
  apply send_email_well_formed : results.
#[local] Hint Extern 1 (returns (calendar_service.create_event_with_meet _ _ _ _ _ _ _) _) =>
  apply create_event_well_formed : results.
#[local] Hint Extern 1 (returns (search_service.search _ _) _) =>
  apply search_well_formed : results.

Lemma schedule_meeting_well_formed title start_time end_time attendee_email
    attendee_name description reminder_hours_before :
  returns (MeetingSchedulerService.schedule_meeting P title start_time end_time
             attendee_email attendee_name description reminder_hours_before) well_formed.
Proof. unfold MeetingSchedulerService.schedule_meeting. returns_tac. Qed.

#[local] Hint Extern 1
  (returns (MeetingSchedulerService.schedule_meeting _ _ _ _ _ _ _ _) _) =>
  apply schedule_meeting_well_formed : results.

Import ActionExecutor.

Lemma _add_task_contract data : always (_add_task P data) well_formed.
Proof.
  unfold _add_task. apply always_try_except; [| auto with results]. returns_tac.
Qed.

Lemma _list_tasks_contract data : always (_list_tasks P data) well_formed.
Proof.
  unfold _list_tasks. apply always_try_except; [| auto with results]. returns_tac.
Qed.

Lemma _complete_task_contract data : always (_complete_task P data) well_formed.
Proof.
  unfold _complete_task. apply always_try_except; [| auto with results]. returns_tac.
Qed.

Lemma _delete_task_contract data : always (_delete_task P data) well_formed.
Proof.
  unfold _delete_task. apply always_try_except; [| auto with results]. returns_tac.
Qed.

Lemma _add_shopping_item_contract data : always (_add_shopping_item P data) well_formed.
Proof.
  unfold _add_shopping_item. apply always_try_except; [| auto with results]. returns_tac.
Qed.

Lemma _list_shopping_contract data : always (_list_shopping P data) well_formed.
Proof.
  unfold _list_shopping. apply always_try_except; [| auto with results]. returns_tac.
Qed.

Lemma _remove_shopping_item_contract data : always (_remove_shopping_item P data) well_formed.
Proof.
  unfold _remove_shopping_item. apply always_try_except; [| auto with results]. returns_tac.
Qed.

Lemma _send_email_contract data : always (_send_email P data) well_formed.
Proof.
  unfold _send_email. apply always_try_except; [| auto with results]. returns_tac.
Qed.

Lemma _read_emails_contract data : always (_read_emails P data) well_formed.
Proof.
  unfold _read_emails. apply always_try_except; [| auto with results]. returns_tac.
Qed.

Lemma _read_last_email_contract data : always (_read_last_email P data) well_formed.
Proof.
  unfold _read_last_email. apply always_try_except; [| auto with results]. returns_tac.
Qed.

Lemma _search_emails_contract data : always (_search_emails P data) well_formed.
Proof.
  unfold _search_emails. apply always_try_except; [| auto with results]. returns_tac.
Qed.

Lemma _summarize_email_contract data : always (_summarize_email P data) well_formed.
Proof.
  unfold _summarize_email. apply always_try_except; [| auto with results]. returns_tac.
Qed.

Lemma _search_internet_contract data : always (_search_internet P data) well_formed.
Proof.
  unfold _search_internet. apply always_try_except; [| auto with results]. returns_tac.
Qed.

Lemma _schedule_meeting_contract data : always (_schedule_meeting P data) well_formed.
Proof.
  unfold _schedule_meeting. apply always_try_except; [| auto with results]. returns_tac.
Qed.

Lemma _add_calendar_event_contract data : always (_add_calendar_event P data) well_formed.
Proof.
  unfold _add_calendar_event. apply always_try_except; [| auto with results]. returns_tac.
Qed.

Lemma _list_calendar_events_contract data : always (_list_calendar_events P data) well_formed.
Proof.
  unfold _list_calendar_events. apply always_try_except; [| auto with results]. returns_tac.
Qed.

Lemma _cancel_calendar_event_contract data : always (_cancel_calendar_event P data) well_formed.
Proof.
  unfold _cancel_calendar_event. apply always_try_except; [| auto with results]. returns_tac.
Qed.

End Contract.

(** ** C1: the dispatcher *)

Lemma pystr_eqb_eq (a b : pystr) : pystr_eqb a b = true <-> a = b.
Proof.
  revert b. induction a as [| x a IH]; intros [| y b]; simpl; try easy.
  rewrite andb_true_iff, N.eqb_eq, IH. split.
  - intros [-> ->]. reflexivity.
  - intros H. inversion H. auto.
Qed.

Lemma pystr_eqb_refl (a : pystr) : pystr_eqb a a = true.
Proof. apply pystr_eqb_eq. reflexivity. Qed.

Section Dispatcher.

Context (P : Platform).

Import ActionExecutor.

Lemma handler_of_Forall (Q : (value -> M pydict) -> Prop) hs intent h :
  Forall (fun p => Q (snd p)) hs -> handler_of intent hs = Some h -> Q h.
Proof.
  induction 1 as [| [name h'] hs Hh _ IH]; simpl; [discriminate |].
  destruct (pystr_eqb intent name); [| exact IH].
  intros E. inversion E. subst. exact Hh.
Qed.

Lemma handler_of_None hs intent :
  ~ In intent (map fst hs) -> handler_of intent hs = None.
Proof.
  induction hs as [| [name h] hs IH]; simpl; [reflexivity |].
  intros Hn. destruct (pystr_eqb intent name) eqn:E.
  - apply pystr_eqb_eq in E. subst. tauto.
  - apply IH. tauto.
Qed.

Lemma action_handlers_contract :
  Forall (fun p => forall data, always (snd p data) well_formed) (action_handlers P).
Proof.
  unfold action_handlers.
  constructor; [exact (_add_task_contract P) |].
  constructor; [exact (_list_tasks_contract P) |].
  constructor; [exact (_complete_task_contract P) |].
  constructor; [exact (_delete_task_contract P) |].
  constructor; [exact (_add_shopping_item_contract P) |].
  constructor; [exact (_list_shopping_contract P) |].
  constructor; [exact (_remove_shopping_item_contract P) |].
  constructor; [exact (_send_email_contract P) |].
  constructor; [exact (_read_emails_contract P) |].
  constructor; [exact (_read_last_email_contract P) |].
  constructor; [exact (_search_emails_contract P) |].
  constructor; [exact (_summarize_email_contract P) |].
  constructor; [exact (_search_internet_contract P) |].
  constructor; [exact (_schedule_meeting_contract P) |].
  constructor; [exact (_add_calendar_event_contract P) |].
  constructor; [exact (_list_calendar_events_contract P) |].
  constructor; [exact (_cancel_calendar_event_contract P) |].
  constructor.
Qed.

(** C1.  For every intent and payload, from every state, [execute] returns
    a dict whose [success] is a boolean and raises nothing; the registry has
    17 entries, and for an intent outside it the result is the failure
    "Unknown intent: ..." and the state is left as it was: no handler ran. *)
Theorem execute_contract (intent : pystr) (action_data : value) (w : World) :
  (exists r w' b,
      execute P intent action_data w = (Ok r, w')
      /\ dict_get (str "success") r = Some (VBool b))
  /\ length (action_handlers P) = 17%nat
  /\ (~ In intent (map fst (action_handlers P)) ->
      execute P intent action_data w
      = (Ok [(str "success", VBool false);
             (str "error", VStr (str "Unknown intent: " ++ intent))], w)).
Proof.
  split; [| split].
  - unfold execute. destruct (handler_of intent (action_handlers P)) as [h |] eqn:E.
    + pose proof (handler_of_Forall (fun h => forall data, always (h data) well_formed)
                  _ _ _ action_handlers_contract E) as Hh.
      destruct (Hh (if truthy action_data then action_data else VDict []) w)
        as (r & w' & Hr & b & Hb).
      exists r, w', b. auto.
    + exists (failure (str "Unknown intent: " ++ intent)), w, false. auto.
  - reflexivity.
  - intros Hn. unfold execute. rewrite (handler_of_None _ _ Hn). reflexivity.
Qed.

End Dispatcher.

Lemma execute_contract_witness :
  ActionExecutor.execute demo (str "fly_to_the_moon") (VDict [(str "when", VStr (str "now"))])
    (world_of empty_db)
  = (Ok [(str "success", VBool false);
         (str "error", VStr (str "Unknown intent: " ++ str "fly_to_the_moon"))],
     world_of empty_db).
Proof.
  refine (proj2 (proj2 (execute_contract demo (str "fly_to_the_moon")
                          (VDict [(str "when", VStr (str "now"))])
                          (world_of empty_db))) _).
  vm_compute. intuition discriminate.
Defined.

(** * Further properties of the code *)

(** ** Tools for following a computation through the state *)

(** Literals stay folded while a computation is simplified. *)
#[local] Arguments str : simpl never.
#[local] Arguments MeetingSchedulerService.job_id_owner : simpl never.
#[local] Arguments MeetingSchedulerService.job_id_attendee : simpl never.
#[local] Arguments fmt : simpl never.

(** The fields of the state, for simplifying projections only. *)
Ltac fields :=
  cbn [session meeting_scheduler trace clock_reads jobs scheduled_reminders _started
       database pending set_session set_meeting_scheduler set_trace set_clock_reads
       tasks shopping_items agent_actions calendar_events
       set_tasks set_shopping_items set_agent_actions set_calendar_events fst snd].

Ltac fields_in H :=
  cbn [session meeting_scheduler trace clock_reads jobs scheduled_reminders _started
       database pending set_session set_meeting_scheduler set_trace set_clock_reads
       tasks shopping_items agent_actions calendar_events
       set_tasks set_shopping_items set_agent_actions set_calendar_events fst snd] in H.

Lemma bind_Ok {A B} (m : M A) (k : A -> M B) (w w' : World) (b : B) :
  bind m k w = (Ok b, w') ->
  exists a w1, m w = (Ok a, w1) /\ k a w1 = (Ok b, w').
Proof.
  unfold bind. destruct (m w) as [[a | e] w1]; [eauto | discriminate].
Qed.

Lemma bind_run {A B} (m : M A) (k : A -> M B) (w w1 : World) (a : A) :
  m w = (Ok a, w1) -> bind m k w = k a w1.
Proof. intros H. unfold bind. rewrite H. reflexivity. Qed.

Lemma bind_raise {A B} (m : M A) (k : A -> M B) (w w1 : World) (e : pystr) :
  m w = (Raise e, w1) -> bind m k w = (Raise e, w1).
Proof. intros H. unfold bind. rewrite H. reflexivity. Qed.

Lemma try_except_Ok {A} (body : M A) (handler : pystr -> M A) (w w1 : World) (a : A) :
  body w = (Ok a, w1) -> try_except body handler w = (Ok a, w1).
Proof. intros H. unfold try_except. rewrite H. reflexivity. Qed.

Lemma try_except_Raise {A} (body : M A) (handler : pystr -> M A) (w w1 : World) e :
  body w = (Raise e, w1) -> try_except body handler w = handler e w1.
Proof. intros H. unfold try_except. rewrite H. reflexivity. Qed.

(** ** The reminder jobs: meeting_scheduler.py *)

Section Reminders.

Context (P : Platform).

Import MeetingSchedulerService.

Lemma job_ids_differ (event_id : value) :
  job_id_owner P event_id <> job_id_attendee P event_id.
Proof.
  unfold job_id_owner, job_id_attendee. intros H.
  apply app_inv_head in H. apply app_inv_head in H.
  vm_compute in H. discriminate H.
Qed.

(** The scheduler's state once the reminders of an event are cancelled. *)
Definition without_reminders (event_id : pystr) (s : SchedulerState) : SchedulerState :=
  {| jobs := delete (job_id_attendee P (VStr event_id))
               (delete (job_id_owner P (VStr event_id)) (jobs s));
     scheduled_reminders := delete (Some event_id) (scheduled_reminders s);
     _started := _started s |}.

Lemma cancel_reminder_run (event_id : pystr) (w : World) :
  cancel_reminder P event_id w
  = (Ok true, set_meeting_scheduler (without_reminders event_id) w).
Proof.
  destruct w as [ss [js rs st] tr ck].
  unfold cancel_reminder, try_except, bind, try_pass, try_except, remove_job, ret,
    set_meeting_scheduler, without_reminders.
  cbn [meeting_scheduler jobs scheduled_reminders _started session trace clock_reads].
  destruct (js !! job_id_owner P (VStr event_id)) eqn:Eo;
    cbn [meeting_scheduler jobs scheduled_reminders _started session trace clock_reads].
  - destruct (delete (job_id_owner P (VStr event_id)) js
              !! job_id_attendee P (VStr event_id)) eqn:Ea;
      cbn [meeting_scheduler jobs scheduled_reminders _started session trace clock_reads].
    + reflexivity.
    + rewrite (delete_id _ _ Ea). reflexivity.
  - rewrite (delete_id _ _ Eo).
    destruct (js !! job_id_attendee P (VStr event_id)) eqn:Ea;
      cbn [meeting_scheduler jobs scheduled_reminders _started session trace clock_reads].
    + reflexivity.
    + rewrite (delete_id _ _ Ea). reflexivity.
Qed.

(** [cancel_reminder] never raises and returns [True]; afterwards neither
    reminder job of the event exists and the event has no entry in
    [scheduled_reminders]; the jobs of other events, the database and the
    record of effects are as before. *)
Theorem cancel_reminder_removes (event_id : pystr) (w : World) :
  exists w',
    cancel_reminder P event_id w = (Ok true, w')
    /\ jobs (meeting_scheduler w') !! job_id_owner P (VStr event_id) = None
    /\ jobs (meeting_scheduler w') !! job_id_attendee P (VStr event_id) = None
    /\ (forall job_id,
           job_id <> job_id_owner P (VStr event_id) ->
           job_id <> job_id_attendee P (VStr event_id) ->
           jobs (meeting_scheduler w') !! job_id = jobs (meeting_scheduler w) !! job_id)
    /\ scheduled_reminders (meeting_scheduler w') !! Some event_id = None
    /\ _started (meeting_scheduler w') = _started (meeting_scheduler w)
    /\ session w' = session w /\ trace w' = trace w.
Proof.
  eexists. split; [apply cancel_reminder_run |].
  destruct w as [ss [js rs st] tr ck]. unfold without_reminders. fields.
  repeat split.
  - rewrite lookup_delete_ne by (apply not_eq_sym, job_ids_differ).
    apply lookup_delete_eq.
  - apply lookup_delete_eq.
  - intros job_id Ho Ha. rewrite !lookup_delete_ne by congruence. reflexivity.
  - apply lookup_delete_eq.
Qed.

Lemma without_reminders_twice (event_id : pystr) (s : SchedulerState) :
  without_reminders event_id (without_reminders event_id s) = without_reminders event_id s.
Proof.
  unfold without_reminders. cbn [jobs scheduled_reminders _started]. f_equal.
  - apply map_eq. intros k. rewrite !lookup_delete. repeat case_decide; reflexivity.
  - apply delete_delete_eq.
Qed.

(** Cancelling the reminders of an event twice is the same as cancelling
    them once: the second call finds no job, swallows the two lookup errors
    and changes nothing. *)
Theorem cancel_reminder_idempotent (event_id : pystr) (w : World) :
  (cancel_reminder P event_id ;;; cancel_reminder P event_id) w
  = cancel_reminder P event_id w.
Proof.
  rewrite (bind_run _ _ _ _ _ (cancel_reminder_run event_id w)).
  rewrite !cancel_reminder_run. f_equal.
  destruct w as [ss ms tr ck]. unfold set_meeting_scheduler.
  cbn [session meeting_scheduler trace clock_reads].
  rewrite without_reminders_twice. reflexivity.
Qed.

(** The job [_schedule_reminder] registers for a recipient. *)
Definition reminder_job (reminder_time : datetime) (to_email name title : value)
    (start_time : datetime) (meet_link : value) (is_owner : bool) : Job :=
  {| run_date := reminder_time; job_to_email := to_email; job_name := name;
     job_title := title; job_start_time := start_time; job_meet_link := meet_link;
     job_is_owner := is_owner |}.

(** The attendee gets a reminder of their own when an address is given and
    it is not the organizer's. *)
Definition attendee_reminded (attendee_email : value) : bool :=
  truthy attendee_email && negb (calendar_service.value_eqb_str attendee_email (SMTP_USER P)).

Definition with_reminders (event_id : value) (reminder_time : datetime)
    (title : value) (start_time : datetime) (meet_link attendee_email attendee_name : value)
    (s : SchedulerState) : SchedulerState :=
  let with_owner :=
    if nonempty (SMTP_USER P)
    then <[job_id_owner P event_id :=
             reminder_job reminder_time (VStr (SMTP_USER P)) (VStr []) title start_time
               meet_link true]> (jobs s)
    else jobs s in
  {| jobs := if attendee_reminded attendee_email
             then <[job_id_attendee P event_id :=
                      reminder_job reminder_time attendee_email attendee_name title
                        start_time meet_link false]> with_owner
             else with_owner;
     scheduled_reminders :=
       <[reminder_key event_id := str "reminder_" ++ fmt P event_id]> (scheduled_reminders s);
     _started := true |}.

Lemma _schedule_reminder_run event_id reminder_time title start_time meet_link
    attendee_email attendee_name (w : World) :
  _schedule_reminder P event_id reminder_time title start_time meet_link
    attendee_email attendee_name w
  = (Ok tt, set_meeting_scheduler
              (with_reminders event_id reminder_time title start_time meet_link
                 attendee_email attendee_name) w).
Proof.
  destruct w as [ss [js rs st] tr ck].
  unfold _schedule_reminder, with_reminders, attendee_reminded, reminder_job, bind,
    get_world, start, add_job, ret, set_meeting_scheduler.
  cbn [meeting_scheduler jobs scheduled_reminders _started session trace clock_reads].
  destruct st, (nonempty (SMTP_USER P)),
    (truthy attendee_email && negb (calendar_service.value_eqb_str attendee_email (SMTP_USER P)));
    reflexivity.
Qed.

(** [_schedule_reminder] never raises.  It starts the scheduler, registers
    the organizer's job when [SMTP_USER] is set and the attendee's job when
    an attendee address is given that is not the organizer's, both at the
    reminder time, under ids made of the event id and the role; no other
    job, nothing in the database, no effect. *)
Theorem _schedule_reminder_jobs event_id reminder_time title start_time meet_link
    attendee_email attendee_name (w : World) :
  exists w',
    _schedule_reminder P event_id reminder_time title start_time meet_link
      attendee_email attendee_name w = (Ok tt, w')
    /\ jobs (meeting_scheduler w') !! job_id_owner P event_id
       = (if nonempty (SMTP_USER P)
          then Some (reminder_job reminder_time (VStr (SMTP_USER P)) (VStr []) title
                       start_time meet_link true)
          else jobs (meeting_scheduler w) !! job_id_owner P event_id)
    /\ jobs (meeting_scheduler w') !! job_id_attendee P event_id
       = (if attendee_reminded attendee_email
          then Some (reminder_job reminder_time attendee_email attendee_name title
                       start_time meet_link false)
          else jobs (meeting_scheduler w) !! job_id_attendee P event_id)
    /\ (forall job_id,
           job_id <> job_id_owner P event_id ->
           job_id <> job_id_attendee P event_id ->
           jobs (meeting_scheduler w') !! job_id = jobs (meeting_scheduler w) !! job_id)
    /\ _started (meeting_scheduler w') = true
    /\ session w' = session w /\ trace w' = trace w.
Proof.
  eexists. split; [apply _schedule_reminder_run |].
  pose proof (job_ids_differ event_id) as Hd.
  destruct w as [ss [js rs st] tr ck]. unfold with_reminders. fields.
  repeat split.
  - destruct (attendee_reminded attendee_email), (nonempty (SMTP_USER P));
      rewrite ?(lookup_insert_ne _ (job_id_attendee P event_id)) by congruence;
      rewrite ?lookup_insert_eq; reflexivity.
  - destruct (attendee_reminded attendee_email), (nonempty (SMTP_USER P));
      rewrite ?lookup_insert_eq; try reflexivity.
    rewrite lookup_insert_ne by congruence. reflexivity.
  - intros job_id Ho Ha.
    destruct (attendee_reminded attendee_email), (nonempty (SMTP_USER P));
      rewrite ?lookup_insert_ne by congruence; reflexivity.
Qed.

(** Scheduling the reminders of an event and then cancelling them leaves
    the job store as it was, when the event had no job before. *)
Theorem schedule_then_cancel (event_id : pystr) reminder_time title start_time
    meet_link attendee_email attendee_name (w : World) :
  jobs (meeting_scheduler w) !! job_id_owner P (VStr event_id) = None ->
  jobs (meeting_scheduler w) !! job_id_attendee P (VStr event_id) = None ->
  exists w',
    (_schedule_reminder P (VStr event_id) reminder_time title start_time meet_link
       attendee_email attendee_name ;;; cancel_reminder P event_id) w = (Ok true, w')
    /\ jobs (meeting_scheduler w') = jobs (meeting_scheduler w)
    /\ scheduled_reminders (meeting_scheduler w') !! Some event_id = None.
Proof.
  intros Ho Ha. eexists. split.
  - rewrite (bind_run _ _ _ _ _ (_schedule_reminder_run _ _ _ _ _ _ _ w)).
    apply cancel_reminder_run.
  - pose proof (job_ids_differ (VStr event_id)) as Hd.
    destruct w as [ss [js rs st] tr ck]. unfold with_reminders, without_reminders.
    fields. fields_in Ho. fields_in Ha. split; [| apply lookup_delete_eq].
    apply map_eq. intros k. rewrite !lookup_delete.
    repeat case_decide; subst; try (symmetry; assumption).
    destruct (attendee_reminded attendee_email), (nonempty (SMTP_USER P));
      rewrite ?lookup_insert_ne by congruence; reflexivity.
Qed.

(** Scheduling the same event id again replaces its jobs instead of adding
    to them ([replace_existing=True]): the job store is the one the later
    call alone would give, when the later call reminds the attendee whenever
    the earlier one did. *)
Theorem reschedule_replaces event_id
    reminder_time1 title1 start_time1 meet_link1 attendee_email1 attendee_name1
    reminder_time2 title2 start_time2 meet_link2 attendee_email2 attendee_name2
    (w : World) :
  (attendee_reminded attendee_email1 = true -> attendee_reminded attendee_email2 = true) ->
  exists w1 w2,
    (_schedule_reminder P event_id reminder_time1 title1 start_time1 meet_link1
       attendee_email1 attendee_name1 ;;;
     _schedule_reminder P event_id reminder_time2 title2 start_time2 meet_link2
       attendee_email2 attendee_name2) w = (Ok tt, w1)
    /\ _schedule_reminder P event_id reminder_time2 title2 start_time2 meet_link2
         attendee_email2 attendee_name2 w = (Ok tt, w2)
    /\ jobs (meeting_scheduler w1) = jobs (meeting_scheduler w2).
Proof.
  intros Himp. eexists _, _. split; [| split].
  - rewrite (bind_run _ _ _ _ _ (_schedule_reminder_run _ _ _ _ _ _ _ w)).
    apply _schedule_reminder_run.
  - apply _schedule_reminder_run.
  - pose proof (job_ids_differ event_id) as Hd.
    destruct w as [ss [js rs st] tr ck]. unfold with_reminders. fields.
    destruct (attendee_reminded attendee_email1);
      [rewrite (Himp eq_refl) | destruct (attendee_reminded attendee_email2)];
      destruct (nonempty (SMTP_USER P));
      apply map_eq; intros k; rewrite ?lookup_insert; repeat case_decide; congruence.
Qed.

End Reminders.

Lemma schedule_then_cancel_witness :
  exists w',
    (MeetingSchedulerService._schedule_reminder demo (VStr (str "evt1")) (naive 5)
       (VStr (str "Sync")) (naive 9) VNone (VStr (str "ana@example.com")) (VStr (str "Ana")) ;;;
     MeetingSchedulerService.cancel_reminder demo (str "evt1")) (world_of empty_db)
    = (Ok true, w')
    /\ jobs (meeting_scheduler w') = jobs (meeting_scheduler (world_of empty_db))
    /\ scheduled_reminders (meeting_scheduler w') !! Some (str "evt1") = None.
Proof.
  exact (schedule_then_cancel demo (str "evt1") (naive 5) (VStr (str "Sync")) (naive 9)
           VNone (VStr (str "ana@example.com")) (VStr (str "Ana")) (world_of empty_db)
           eq_refl eq_refl).
Defined.

Lemma reschedule_replaces_witness :
  exists w1 w2,
    (MeetingSchedulerService._schedule_reminder demo (VStr (str "evt1")) (naive 5)
       (VStr (str "Sync")) (naive 9) VNone (VStr (str "bob@example.com")) (VStr []) ;;;
     MeetingSchedulerService._schedule_reminder demo (VStr (str "evt1")) (naive 7)
       (VStr (str "Sync")) (naive 11) VNone (VStr (str "ana@example.com"))
       (VStr (str "Ana"))) (world_of empty_db) = (Ok tt, w1)
    /\ MeetingSchedulerService._schedule_reminder demo (VStr (str "evt1")) (naive 7)
         (VStr (str "Sync")) (naive 11) VNone (VStr (str "ana@example.com"))
         (VStr (str "Ana")) (world_of empty_db) = (Ok tt, w2)
    /\ jobs (meeting_scheduler w1) = jobs (meeting_scheduler w2).
Proof.
  refine (reschedule_replaces demo (VStr (str "evt1")) (naive 5) (VStr (str "Sync"))
            (naive 9) VNone (VStr (str "bob@example.com")) (VStr []) (naive 7) (VStr (str "Sync")) (naive 11) VNone
            (VStr (str "ana@example.com")) (VStr (str "Ana")) (world_of empty_db) _).
  vm_compute. intros _. reflexivity.
Defined.

(** ** What the collaborators do to the state *)

Definition is_smtp_send (e : effect) : Prop :=
  match e with
  | ESmtpSend _ _ _ => True
  | _ => False
  end.

Lemma lift_Ok {A} (o : outcome A) (w w' : World) (a : A) :
  lift o w = (Ok a, w') -> o = Ok a /\ w' = w.
Proof. unfold lift. intros H. inversion H. auto. Qed.

Ltac inv_bind H :=
  let a := fresh "a" in
  let w1 := fresh "w" in
  let H1 := fresh "H" in
  apply bind_Ok in H as (a & w1 & H1 & H).

Ltac inv_lift H :=
  let E := fresh "E" in
  apply lift_Ok in H as (E & ->).

Lemma get_present (k : string) (d : pydict) (v dflt : value) :
  dict_get (str k) d = Some v -> get k d = v /\ get_default k dflt d = v.
Proof. intros H. unfold get, get_default. rewrite H. auto. Qed.

Lemma get_success_failure (msg : pystr) : get "success" (failure msg) = VBool false.
Proof. reflexivity. Qed.

Lemma try_except_inv {A} (body : M A) (handler : pystr -> M A) (w w' : World) (o : outcome A) :
  try_except body handler w = (o, w') ->
  (exists a, o = Ok a /\ body w = (Ok a, w'))
  \/ (exists e w1, body w = (Raise e, w1) /\ handler e w1 = (o, w')).
Proof.
  unfold try_except. destruct (body w) as [[a | e] w1].
  - intros H. inversion H. subst. eauto.
  - eauto.
Qed.

Section Services.

Context (P : Platform).

(** [send_email] never raises; it touches neither the database nor the
    scheduler, and contacts the SMTP server at most once. *)
Lemma send_email_effects (to_email subject : value) (w : World) :
  exists r w' sent,
    email_service.send_email P to_email subject w = (Ok r, w')
    /\ session w' = session w
    /\ meeting_scheduler w' = meeting_scheduler w
    /\ trace w' = trace w ++ sent
    /\ Forall is_smtp_send sent
    /\ (clock_reads w <= clock_reads w')%nat
    /\ (length sent <= 1)%nat.
Proof.
  unfold email_service.send_email.
  destruct (negb (email_service.is_configured P)).
  - exists (failure (str "Email service not configured. Please set SMTP credentials in .env")),
      w, []. rewrite app_nil_r. repeat split; auto.
  - unfold bind, get_world, emit, utcnow, ret.
    destruct (smtp_sendmail P (length (trace w)) to_email subject).
    + eexists _, _, [_]. split; [reflexivity |]. fields. repeat split; auto; try lia.
      constructor; [exact I | constructor].
    + eexists _, _, [_]. split; [reflexivity |]. fields. repeat split; auto; try lia.
      constructor; [exact I | constructor].
Qed.

(** The attendees [schedule_meeting] passes to the calendar. *)
Definition meeting_attendees (attendee_email : value) : list value :=
  (if truthy attendee_email then [attendee_email] else []) ++
  (if nonempty (SMTP_USER P) then [VStr (SMTP_USER P)] else []).

(** [create_event_with_meet] with an end time: it never raises, and it
    either fails, or has inserted the event and reports its id and link. *)
Lemma create_event_effects title start_time end_time description attendees notify
    (w : World) :
  exists r w',
    calendar_service.create_event_with_meet P title start_time (Some end_time)
      description attendees notify w = (Ok r, w')
    /\ session w' = session w
    /\ meeting_scheduler w' = meeting_scheduler w
    /\ ((get "success" r = VBool false
         /\ (trace w' = trace w
             \/ trace w' = trace w ++ [ECalendarInsert title start_time end_time
                                         (calendar_service.all_attendees P attendees) notify])
         /\ (clock_reads w <= clock_reads w')%nat)
        \/ (exists created,
               calendar_is_configured P = true
               /\ google_insert P (length (trace w)) title start_time end_time
                    (calendar_service.all_attendees P attendees) = inr created
               /\ trace w' = trace w ++ [ECalendarInsert title start_time end_time
                                           (calendar_service.all_attendees P attendees) notify]
               /\ clock_reads w' = S (clock_reads w)
               /\ dict_get (str "success") r = Some (VBool true)
               /\ dict_get (str "event_id") r = Some (opt_str (ce_id created))
               /\ dict_get (str "meet_link") r = Some (opt_str (ce_meet_uri created))
               /\ dict_get (str "event_link") r = Some (opt_str (ce_htmlLink created)))).
Proof.
  unfold calendar_service.create_event_with_meet, calendar_service.is_configured.
  destruct (calendar_is_configured P) eqn:Ec; cbn [negb].
  - unfold try_except, bind, now, get_world, emit, ret. fields.
    destruct (google_insert P (length (trace w)) title start_time end_time
                (calendar_service.all_attendees P attendees)) as [msg | created] eqn:Eg.
    + eexists _, _. split; [reflexivity |]. fields. repeat split.
      left. repeat split; auto; lia.
    + eexists _, _. split; [reflexivity |]. fields. repeat split.
      right. exists created. repeat split; auto.
  - eexists _, _. split; [reflexivity |]. repeat split.
    left. repeat split; auto.
Qed.

End Services.

(** ** Scheduling a meeting: meeting_scheduler.py *)

Section Meeting.

Context (P : Platform).

Import MeetingSchedulerService.

(** An optional notification: it never raises and only sends mail. *)
Lemma optional_send (c : bool) (to_email subject : value) (w : World) :
  exists w' sent,
    (if c then _ <- email_service.send_email P to_email subject ;; ret tt else ret tt) w
    = (Ok tt, w')
    /\ session w' = session w
    /\ meeting_scheduler w' = meeting_scheduler w
    /\ trace w' = trace w ++ sent
    /\ Forall is_smtp_send sent
    /\ (clock_reads w <= clock_reads w')%nat
    /\ (length sent <= 1)%nat.
Proof.
  destruct c.
  - destruct (send_email_effects P to_email subject w)
      as (r & w' & sent & Hrun & Hs & Hm & Ht & Hf & Hc & Hl).
    exists w', sent. rewrite (bind_run _ _ _ _ _ Hrun). auto 10.
  - exists w, []. rewrite app_nil_r. cbn [length]. auto 10.
Qed.

Lemma dt_gt_naive_Ok (t : datetime) (n : Z) (b : bool) :
  dt_gt_naive t n = Ok b -> dt_aware t = false /\ b = (n <? dt_us t).
Proof.
  unfold dt_gt_naive. destruct (dt_aware t); [discriminate |].
  intros H. inversion H. auto.
Qed.

Lemma dt_sub_Ok (t : datetime) (delta : Z) (r : datetime) :
  dt_sub t delta = Ok r ->
  r = {| dt_us := dt_us t - delta; dt_aware := dt_aware t |}
  /\ 0 <= dt_us t - delta < datetime_end.
Proof.
  unfold dt_sub, dt_add.
  destruct ((0 <=? dt_us t + - delta) && (dt_us t + - delta <? datetime_end)) eqn:E;
    [| discriminate].
  intros H. inversion H. apply andb_true_iff in E as [E1 E2].
  replace (dt_us t + - delta) with (dt_us t - delta) in * by lia.
  split; [reflexivity | lia].
Qed.

(** The end time [schedule_meeting] uses: the given one, or an hour after
    the start. *)
Definition meeting_end_time (start_time : datetime) (end_time : option datetime)
    : outcome datetime :=
  match end_time with
  | Some t => Ok t
  | None => dt_add start_time us_per_hour
  end.

Lemma schedule_meeting_success title start_time end_time attendee_email attendee_name
    description reminder_hours_before (w w' : World) (r : pydict) :
  schedule_meeting P title start_time end_time attendee_email attendee_name description
    reminder_hours_before w = (Ok r, w') ->
  get "success" r = VBool true ->
  exists end_time' created lead sent n,
    meeting_end_time start_time end_time = Ok end_time'
    /\ calendar_is_configured P = true
    /\ google_insert P (length (trace w)) title start_time end_time'
         (calendar_service.all_attendees P (meeting_attendees P attendee_email)) = inr created
    /\ timedelta P us_per_hour reminder_hours_before = Ok lead
    /\ dt_aware start_time = false
    /\ 0 <= dt_us start_time - lead < datetime_end
    /\ trace w' = trace w
                  ++ ECalendarInsert title start_time end_time'
                       (calendar_service.all_attendees P (meeting_attendees P attendee_email))
                       true
                     :: sent
    /\ Forall is_smtp_send sent
    /\ (length sent <= 2)%nat
    /\ session w' = session w
    /\ (clock_reads w < n < clock_reads w')%nat
    /\ meeting_scheduler w'
       = (if clock_now P n <? dt_us start_time - lead
          then with_reminders P (opt_str (ce_id created))
                 {| dt_us := dt_us start_time - lead; dt_aware := false |}
                 title start_time (opt_str (ce_meet_uri created))
                 attendee_email attendee_name (meeting_scheduler w)
          else meeting_scheduler w)
    /\ dict_get (str "event_id") r = Some (opt_str (ce_id created))
    /\ dict_get (str "meet_link") r = Some (opt_str (ce_meet_uri created))
    /\ dict_get (str "message") r
       = Some (VStr (str "Întâlnirea '" ++ fmt P title ++
                     str "' a fost programată cu succes. Link Google Meet: "
                     ++ fmt P (opt_str (ce_meet_uri created)))).
Proof.
  intros H Hs. unfold schedule_meeting in H.
  apply try_except_inv in H as [(r0 & Er & H) | (e & w1 & _ & H)].
  2: { inversion H. subst. rewrite get_success_failure in Hs. discriminate Hs. }
  inversion Er. subst r0. clear Er. cbv zeta in H.
  inv_bind H.
  assert (meeting_end_time start_time end_time = Ok a /\ w0 = w) as [Eend ->].
  { destruct end_time; cbn [meeting_end_time].
    - inversion H0. auto.
    - apply lift_Ok in H0 as [-> ->]. auto. }
  clear H0. inv_bind H. inv_lift H0. clear E.
  inv_bind H.
  fold (meeting_attendees P attendee_email) in H0.
  destruct (create_event_effects P title start_time a description
              (meeting_attendees P attendee_email) true w)
    as (r1 & w1 & Hrun & Hss & Hms & Hcase).
  rewrite Hrun in H0. inversion H0. subst a1 w0. clear H0.
  destruct Hcase as [(Hf & _) |
                     (created & Hcfg & Hg & Htr & Hck & Hsucc & Heid & Hlink & _)].
  { rewrite Hf in H. cbn [truthy negb] in H. inversion H. subst.
    rewrite Hf in Hs. discriminate Hs. }
  destruct (get_present "success" r1 _ VNone Hsucc) as [Hgs _].
  destruct (get_present "event_id" r1 _ (VStr []) Heid) as [_ Hge].
  destruct (get_present "meet_link" r1 _ (VStr []) Hlink) as [_ Hgl].
  rewrite Hgs, Hge, Hgl in H. cbn [truthy negb] in H. clear Hs.
  inv_bind H. unfold _send_invitation_email in H0.
  destruct (optional_send (truthy attendee_email) attendee_email
              (VStr (str "Invitație la întâlnire: " ++ fmt P title)) w1)
    as (w2 & sent1 & Hr1 & Hss1 & Hms1 & Htr1 & Hf1 & Hck1 & Hl1).
  rewrite Hr1 in H0. inversion H0. subst a1 w0. clear H0.
  inv_bind H. unfold _send_organizer_confirmation_email in H0.
  destruct (optional_send (nonempty (SMTP_USER P)) (VStr (SMTP_USER P))
              (VStr (str "✅ Întâlnire programată: " ++ fmt P title)) w2)
    as (w3 & sent2 & Hr2 & Hss2 & Hms2 & Htr2 & Hf2 & Hck2 & Hl2).
  rewrite Hr2 in H0. inversion H0. subst a1 w0. clear H0.
  apply bind_Ok in H as (lead & wa & H0 & H). apply lift_Ok in H0 as [Elead ->].
  apply bind_Ok in H as (rt & wa & H0 & H). apply lift_Ok in H0 as [Esub ->].
  apply dt_sub_Ok in Esub as [-> Hrange].
  apply bind_Ok in H as (now1 & w4 & H0 & H). unfold now in H0. inversion H0.
  subst now1 w4. clear H0.
  apply bind_Ok in H as (in_future & wa & H0 & H). apply lift_Ok in H0 as [Egt ->].
  apply dt_gt_naive_Ok in Egt as [Haw ->]. cbn [dt_aware dt_us] in Haw, H.
  apply bind_Ok in H as (u & w5 & H0 & H).
  assert (w5 = set_meeting_scheduler
                 (fun s => if clock_now P (clock_reads w3) <? dt_us start_time - lead
                           then with_reminders P (opt_str (ce_id created))
                                  {| dt_us := dt_us start_time - lead; dt_aware := false |}
                                  title start_time (opt_str (ce_meet_uri created))
                                  attendee_email attendee_name s
                           else s)
                 (set_clock_reads S w3)) as ->.
  { rewrite Haw in H0.
    destruct (clock_now P (clock_reads w3) <? dt_us start_time - lead).
    - rewrite _schedule_reminder_run in H0. inversion H0. reflexivity.
    - inversion H0. destruct w3 as [ss [js rs st] tr ck]. reflexivity. }
  clear H0.
  apply bind_Ok in H as (now2 & w6 & H0 & H). unfold now in H0. inversion H0.
  subst now2 w6. clear H0.
  apply bind_Ok in H as (b2 & wa & H0 & H). apply lift_Ok in H0 as [_ ->].
  apply bind_Ok in H as (now3 & w7 & H0 & H). unfold now in H0. inversion H0.
  subst now3 w7. clear H0.
  apply bind_Ok in H as (b3 & wa & H0 & H). apply lift_Ok in H0 as [_ ->].
  inversion H. subst r w'. clear H.
  exists a, created, lead, (sent1 ++ sent2), (clock_reads w3).
  fields. rewrite Hss2, Hss1, Hss, Hms2, Hms1, Hms, Htr2, Htr1, Htr.
  repeat split; auto; try lia.
  - rewrite <- !app_assoc. reflexivity.
  - apply Forall_app. auto.
  - rewrite length_app. lia.
Qed.

(** A successful [schedule_meeting] has read the clock once to decide on
    the reminders.  If the reminder time (start minus lead) was after that
    reading, the job store is the old one with the organizer's job (when
    [SMTP_USER] is set) and the attendee's job (when an attendee with
    another address is given), under the ids of the remote event; so zero,
    one or two jobs.  If the reminder time had passed, the scheduler is left
    as it was, and the call succeeds all the same. *)
Theorem schedule_meeting_reminder_jobs title start_time end_time attendee_email
    attendee_name description reminder_hours_before (w w' : World) (r : pydict) :
  schedule_meeting P title start_time end_time attendee_email attendee_name description
    reminder_hours_before w = (Ok r, w') ->
  get "success" r = VBool true ->
  exists event_id meet_link lead n,
    dict_get (str "event_id") r = Some event_id
    /\ timedelta P us_per_hour reminder_hours_before = Ok lead
    /\ (clock_reads w < n < clock_reads w')%nat
    /\ let reminder_time := {| dt_us := dt_us start_time - lead; dt_aware := false |} in
       let with_owner :=
         if nonempty (SMTP_USER P)
         then <[job_id_owner P event_id :=
                  reminder_job reminder_time (VStr (SMTP_USER P)) (VStr []) title
                    start_time meet_link true]> (jobs (meeting_scheduler w))
         else jobs (meeting_scheduler w) in
       if clock_now P n <? dt_us start_time - lead
       then jobs (meeting_scheduler w')
            = (if attendee_reminded P attendee_email
               then <[job_id_attendee P event_id :=
                        reminder_job reminder_time attendee_email attendee_name title
                          start_time meet_link false]> with_owner
               else with_owner)
       else meeting_scheduler w' = meeting_scheduler w.
Proof.
  intros H Hs.
  destruct (schedule_meeting_success _ _ _ _ _ _ _ _ _ _ H Hs)
    as (et & created & lead & sent & n & _ & _ & _ & Hl & _ & _ & _ & _ & _ & _ & Hn & Hm & He & _).
  exists (opt_str (ce_id created)), (opt_str (ce_meet_uri created)), lead, n.
  repeat split; auto; try lia. cbv zeta. rewrite Hm.
  destruct (clock_now P n <? dt_us start_time - lead); reflexivity.
Qed.

(** A successful [schedule_meeting] has first inserted the event in the
    remote calendar and after that only sent mail; it has written nothing
    to the database session: the local row is the caller's to persist, after
    the emails. *)
Theorem schedule_meeting_effects title start_time end_time attendee_email
    attendee_name description reminder_hours_before (w w' : World) (r : pydict) :
  schedule_meeting P title start_time end_time attendee_email attendee_name description
    reminder_hours_before w = (Ok r, w') ->
  get "success" r = VBool true ->
  exists inserted sent,
    trace w' = trace w ++ inserted :: sent
    /\ (exists end_time' attendees,
           inserted = ECalendarInsert title start_time end_time' attendees true)
    /\ Forall is_smtp_send sent
    /\ (length sent <= 2)%nat
    /\ session w' = session w.
Proof.
  intros H Hs.
  destruct (schedule_meeting_success _ _ _ _ _ _ _ _ _ _ H Hs)
    as (et & created & lead & sent & n & _ & _ & _ & _ & _ & _ & Ht & Hf & Hlen & Hss & _).
  exists (ECalendarInsert title start_time et
            (calendar_service.all_attendees P (meeting_attendees P attendee_email)) true),
    sent.
  repeat split; eauto.
Qed.

End Meeting.

(** A meeting a day ahead with one attendee, on the demo platform. *)
Abbreviation demo_meeting :=
  (MeetingSchedulerService.schedule_meeting demo (VStr (str "Sync"))
     (naive (demo_now + 26 * us_per_hour)) None (VStr (str "ana@example.com"))
     (VStr (str "Ana")) (VStr []) (VInt 1)).

(** The demo meeting is scheduled. *)
Lemma demo_meeting_succeeds :
  exists r,
    fst (demo_meeting (world_of empty_db)) = Ok r /\ get "success" r = VBool true.
Proof. vm_compute. eexists. split; reflexivity. Qed.

Lemma run_of_fst {A} (m : M A) (w : World) (a : A) :
  fst (m w) = Ok a -> m w = (Ok a, snd (m w)).
Proof. intros H. rewrite <- H. apply surjective_pairing. Qed.

Lemma schedule_meeting_reminder_jobs_witness :
  exists r w' event_id meet_link lead n,
    demo_meeting (world_of empty_db) = (Ok r, w')
    /\ dict_get (str "event_id") r = Some event_id
    /\ timedelta demo us_per_hour (VInt 1) = Ok lead
    /\ (clock_reads (world_of empty_db) < n < clock_reads w')%nat
    /\ let reminder_time :=
         {| dt_us := dt_us (naive (demo_now + 26 * us_per_hour)) - lead; dt_aware := false |} in
       let with_owner :=
         if nonempty (SMTP_USER demo)
         then <[MeetingSchedulerService.job_id_owner demo event_id :=
                  reminder_job reminder_time (VStr (SMTP_USER demo)) (VStr [])
                    (VStr (str "Sync")) (naive (demo_now + 26 * us_per_hour)) meet_link
                    true]> (jobs (meeting_scheduler (world_of empty_db)))
         else jobs (meeting_scheduler (world_of empty_db)) in
       if clock_now demo n <? dt_us (naive (demo_now + 26 * us_per_hour)) - lead
       then jobs (meeting_scheduler w')
            = (if attendee_reminded demo (VStr (str "ana@example.com"))
               then <[MeetingSchedulerService.job_id_attendee demo event_id :=
                        reminder_job reminder_time (VStr (str "ana@example.com"))
                          (VStr (str "Ana")) (VStr (str "Sync"))
                          (naive (demo_now + 26 * us_per_hour)) meet_link false]> with_owner
               else with_owner)
       else meeting_scheduler w' = meeting_scheduler (world_of empty_db).
Proof.
  destruct demo_meeting_succeeds as (r & Hr & Hs).
  pose proof (run_of_fst _ _ _ Hr) as E.
  exists r, (snd (demo_meeting (world_of empty_db))).
  destruct (schedule_meeting_reminder_jobs demo _ _ _ _ _ _ _ _ _ _ E Hs)
    as (event_id & meet_link & lead & n & H).
  exists event_id, meet_link, lead, n. split; [exact E | exact H].
Defined.

Lemma schedule_meeting_effects_witness :
  exists r w' inserted sent,
    demo_meeting (world_of empty_db) = (Ok r, w')
    /\ trace w' = trace (world_of empty_db) ++ inserted :: sent
    /\ (exists end_time' attendees,
           inserted = ECalendarInsert (VStr (str "Sync"))
                        (naive (demo_now + 26 * us_per_hour)) end_time' attendees true)
    /\ Forall is_smtp_send sent
    /\ (length sent <= 2)%nat
    /\ session w' = session (world_of empty_db).
Proof.
  destruct demo_meeting_succeeds as (r & Hr & Hs).
  pose proof (run_of_fst _ _ _ Hr) as E.
  exists r, (snd (demo_meeting (world_of empty_db))).
  destruct (schedule_meeting_effects demo _ _ _ _ _ _ _ _ _ _ E Hs)
    as (inserted & sent & H).
  exists inserted, sent. split; [exact E | exact H].
Defined.

(** ** What a computation leaves unchanged *)

(** [preserves R m]: the states before and after [m], whether it returns or
    raises, are related by [R]. *)
Definition preserves {A} (R : World -> World -> Prop) (m : M A) : Prop :=
  forall w o w', m w = (o, w') -> R w w'.

(** [unchanged f]: the part [f] of the state is the same afterwards. *)
Definition unchanged {B} (f : World -> B) (w w' : World) : Prop := f w' = f w.

Section Frames.

Context {B : Type} (f : World -> B).

Lemma preserves_ret {A} (a : A) : preserves (unchanged f) (ret a).
Proof. intros w o w' H. inversion H. reflexivity. Qed.

Lemma preserves_raise {A} (e : pystr) : preserves (unchanged f) (@raise A e).
Proof. intros w o w' H. inversion H. reflexivity. Qed.

Lemma preserves_lift {A} (o : outcome A) : preserves (unchanged f) (lift o).
Proof. intros w o' w' H. inversion H. reflexivity. Qed.

Lemma preserves_get_world : preserves (unchanged f) get_world.
Proof. intros w o w' H. inversion H. reflexivity. Qed.

Lemma preserves_bind {A C} (m : M A) (k : A -> M C) :
  preserves (unchanged f) m -> (forall a, preserves (unchanged f) (k a)) ->
  preserves (unchanged f) (bind m k).
Proof.
  intros Hm Hk w o w' H. unfold bind in H.
  destruct (m w) as [[a | e] w1] eqn:E.
  - unfold unchanged. rewrite (Hk a _ _ _ H). exact (Hm _ _ _ E).
  - inversion H. subst. exact (Hm _ _ _ E).
Qed.

Lemma preserves_try_except {A} (body : M A) (handler : pystr -> M A) :
  preserves (unchanged f) body -> (forall e, preserves (unchanged f) (handler e)) ->
  preserves (unchanged f) (try_except body handler).
Proof.
  intros Hb Hh w o w' H. unfold try_except in H.
  destruct (body w) as [[a | e] w1] eqn:E.
  - inversion H. subst. exact (Hb _ _ _ E).
  - unfold unchanged. rewrite (Hh e _ _ _ H). exact (Hb _ _ _ E).
Qed.

End Frames.

Create HintDb frames.

(** A primitive of the runtime whose update of the state does not reach the
    part in question: unfold it and compare. *)
Ltac head_of t :=
  lazymatch t with
  | ?g _ => head_of g
  | _ => t
  end.

Ltac preserves_prim :=
  let H := fresh "H" in
  intros ? ? ? H;
  lazymatch type of H with
  | ?m _ = _ => let h := head_of m in unfold h in H
  end;
  repeat lazymatch type of H with
    | context [match ?x with _ => _ end] => destruct x
    | context [if ?x then _ else _] => destruct x
    end;
  inversion H; reflexivity.

Ltac preserves_step :=
  lazymatch goal with
  | |- preserves _ (bind _ _) => apply preserves_bind; [| intros ?]
  | |- preserves _ (ret _) => apply preserves_ret
  | |- preserves _ (raise _) => apply preserves_raise
  | |- preserves _ (lift _) => apply preserves_lift
  | |- preserves _ get_world => apply preserves_get_world
  | |- preserves _ (try_except _ _) => apply preserves_try_except; [| intros ?]
  | |- preserves _ (try_pass _) => apply preserves_try_except; [| intros ?]
  | |- preserves _ (if ?b then _ else _) => destruct b
  | |- preserves _ (match ?x with _ => _ end) => destruct x
  | |- preserves _ _ => first [ solve [auto 1 with frames nocore] | preserves_prim ]
  end.

Ltac preserves_tac := cbv zeta; repeat (preserves_step; cbv zeta).

Section ServiceFrames.

Context (P : Platform).

(** The collaborators read and write neither the database session nor the
    scheduler. *)
Lemma send_email_session to_email subject :
  preserves (unchanged session) (email_service.send_email P to_email subject).
Proof. unfold email_service.send_email. preserves_tac. Qed.

Lemma send_email_scheduler to_email subject :
  preserves (unchanged meeting_scheduler) (email_service.send_email P to_email subject).
Proof. unfold email_service.send_email. preserves_tac. Qed.

Lemma get_recent_emails_session count :
  preserves (unchanged session) (email_service.get_recent_emails P count).
Proof. unfold email_service.get_recent_emails. preserves_tac. Qed.

Lemma get_recent_emails_scheduler count :
  preserves (unchanged meeting_scheduler) (email_service.get_recent_emails P count).
Proof. unfold email_service.get_recent_emails. preserves_tac. Qed.

#[local] Hint Extern 1 (preserves (unchanged session) (email_service.get_recent_emails _ _)) =>
  apply get_recent_emails_session : frames.
#[local] Hint Extern 1
  (preserves (unchanged meeting_scheduler) (email_service.get_recent_emails _ _)) =>
  apply get_recent_emails_scheduler : frames.

Lemma get_email_by_index_session index :
  preserves (unchanged session) (email_service.get_email_by_index P index).
Proof. unfold email_service.get_email_by_index. preserves_tac. Qed.

Lemma get_email_by_index_scheduler index :
  preserves (unchanged meeting_scheduler) (email_service.get_email_by_index P index).
Proof. unfold email_service.get_email_by_index. preserves_tac. Qed.

Lemma search_emails_session query :
  preserves (unchanged session) (email_service.search_emails P query).
Proof. unfold email_service.search_emails. preserves_tac. Qed.

Lemma search_emails_scheduler query :
  preserves (unchanged meeting_scheduler) (email_service.search_emails P query).
Proof. unfold email_service.search_emails. preserves_tac. Qed.

Lemma create_event_session title start_time end_time description attendees notify :
  preserves (unchanged session)
    (calendar_service.create_event_with_meet P title start_time end_time description
       attendees notify).
Proof. unfold calendar_service.create_event_with_meet. preserves_tac. Qed.

Lemma create_event_scheduler title start_time end_time description attendees notify :
  preserves (unchanged meeting_scheduler)
    (calendar_service.create_event_with_meet P title start_time end_time description
       attendees notify).
Proof. unfold calendar_service.create_event_with_meet. preserves_tac. Qed.

Lemma get_upcoming_events_session :
  preserves (unchanged session) (calendar_service.get_upcoming_events P).
Proof. unfold calendar_service.get_upcoming_events. preserves_tac. Qed.

Lemma get_upcoming_events_scheduler :
  preserves (unchanged meeting_scheduler) (calendar_service.get_upcoming_events P).
Proof. unfold calendar_service.get_upcoming_events. preserves_tac. Qed.

Lemma delete_event_session event_id :
  preserves (unchanged session) (calendar_service.delete_event P event_id).
Proof. unfold calendar_service.delete_event. preserves_tac. Qed.

Lemma search_session query :
  preserves (unchanged session) (search_service.search P query).
Proof. unfold search_service.search. preserves_tac. Qed.

Lemma search_scheduler query :
  preserves (unchanged meeting_scheduler) (search_service.search P query).
Proof. unfold search_service.search. preserves_tac. Qed.

(** Writing the pending operations reads the clock and nothing else. *)
Definition only_clock {A} (m : M A) : Prop :=
  preserves (unchanged session) m
  /\ preserves (unchanged meeting_scheduler) m
  /\ preserves (unchanged trace) m.

Lemma flush_op_only_clock (op : pending_op) (d : Db) : only_clock (flush_op P op d).
Proof.
  repeat split; destruct op;
    unfold flush_op, insert_task, insert_item, insert_action, insert_event;
    preserves_tac.
Qed.

Lemma flush_only_clock (ops : list pending_op) (d : Db) : only_clock (flush P ops d).
Proof.
  revert d. induction ops as [| op ops IH]; intros d; cbn [flush].
  - repeat split; preserves_tac.
  - destruct (flush_op_only_clock op d) as (H1 & H2 & H3).
    repeat split; (apply preserves_bind; [assumption | intros r]);
      (apply preserves_bind; [apply IH | intros r']); apply preserves_ret.
Qed.

Lemma commit_scheduler : preserves (unchanged meeting_scheduler) (commit P).
Proof.
  intros w o w' H. unfold commit in H.
  destruct (flush P (pending (session w)) (database (session w)) w)
    as [[[d ids] | e] w1] eqn:E.
  - inversion H. subst. unfold unchanged. fields.
    exact (proj1 (proj2 (flush_only_clock _ _)) _ _ _ E).
  - inversion H. reflexivity.
Qed.

#[local] Hint Extern 1 (preserves (unchanged session) (email_service.send_email _ _ _)) =>
  apply send_email_session : frames.
#[local] Hint Extern 1 (preserves (unchanged meeting_scheduler) (email_service.send_email _ _ _)) =>
  apply send_email_scheduler : frames.
#[local] Hint Extern 1 (preserves (unchanged session) (email_service.get_email_by_index _ _)) =>
  apply get_email_by_index_session : frames.
#[local] Hint Extern 1 (preserves (unchanged meeting_scheduler) (email_service.get_email_by_index _ _)) =>
  apply get_email_by_index_scheduler : frames.
#[local] Hint Extern 1 (preserves (unchanged session) (email_service.search_emails _ _)) =>
  apply search_emails_session : frames.
#[local] Hint Extern 1 (preserves (unchanged meeting_scheduler) (email_service.search_emails _ _)) =>
  apply search_emails_scheduler : frames.
#[local] Hint Extern 1 (preserves (unchanged session) (calendar_service.create_event_with_meet _ _ _ _ _ _ _)) =>
  apply create_event_session : frames.
#[local] Hint Extern 1 (preserves (unchanged meeting_scheduler) (calendar_service.create_event_with_meet _ _ _ _ _ _ _)) =>
  apply create_event_scheduler : frames.
#[local] Hint Extern 1 (preserves (unchanged session) (calendar_service.get_upcoming_events _)) =>
  apply get_upcoming_events_session : frames.
#[local] Hint Extern 1 (preserves (unchanged meeting_scheduler) (calendar_service.get_upcoming_events _)) =>
  apply get_upcoming_events_scheduler : frames.
#[local] Hint Extern 1 (preserves (unchanged session) (search_service.search _ _)) =>
  apply search_session : frames.
#[local] Hint Extern 1 (preserves (unchanged meeting_scheduler) (search_service.search _ _)) =>
  apply search_scheduler : frames.
#[local] Hint Extern 1 (preserves (unchanged session) (calendar_service.delete_event _ _)) =>
  apply delete_event_session : frames.
#[local] Hint Extern 1 (preserves (unchanged meeting_scheduler) (commit _)) =>
  apply commit_scheduler : frames.

Import ActionExecutor.

Lemma add_tasks_scheduler data : preserves (unchanged meeting_scheduler) (add_tasks P data).
Proof. induction data as [| x data IH]; cbn [add_tasks]; preserves_tac. Qed.

Lemma add_items_scheduler data : preserves (unchanged meeting_scheduler) (add_items P data).
Proof. induction data as [| x data IH]; cbn [add_items]; preserves_tac. Qed.

Lemma find_task_scheduler d : preserves (unchanged meeting_scheduler) (find_task P d).
Proof. unfold find_task. preserves_tac. Qed.

Lemma find_item_scheduler d : preserves (unchanged meeting_scheduler) (find_item P d).
Proof. unfold find_item. preserves_tac. Qed.

Lemma find_task_session d : preserves (unchanged session) (find_task P d).
Proof. unfold find_task. preserves_tac. Qed.

Lemma find_item_session d : preserves (unchanged session) (find_item P d).
Proof. unfold find_item. preserves_tac. Qed.

Lemma find_event_session d : preserves (unchanged session) (find_event P d).
Proof. unfold find_event. preserves_tac. Qed.

Lemma find_event_scheduler d : preserves (unchanged meeting_scheduler) (find_event P d).
Proof. unfold find_event. preserves_tac. Qed.

#[local] Hint Extern 1 (preserves (unchanged meeting_scheduler) (add_tasks _ _)) =>
  apply add_tasks_scheduler : frames.
#[local] Hint Extern 1 (preserves (unchanged meeting_scheduler) (add_items _ _)) =>
  apply add_items_scheduler : frames.
#[local] Hint Extern 1 (preserves (unchanged meeting_scheduler) (find_task _ _)) =>
  apply find_task_scheduler : frames.
#[local] Hint Extern 1 (preserves (unchanged meeting_scheduler) (find_item _ _)) =>
  apply find_item_scheduler : frames.
#[local] Hint Extern 1 (preserves (unchanged meeting_scheduler) (find_event _ _)) =>
  apply find_event_scheduler : frames.
#[local] Hint Extern 1 (preserves (unchanged session) (find_task _ _)) =>
  apply find_task_session : frames.
#[local] Hint Extern 1 (preserves (unchanged session) (find_item _ _)) =>
  apply find_item_session : frames.
#[local] Hint Extern 1 (preserves (unchanged session) (find_event _ _)) =>
  apply find_event_session : frames.

Lemma _add_task_scheduler data : preserves (unchanged meeting_scheduler) (_add_task P data).
Proof. unfold _add_task. preserves_tac. Qed.

Lemma _list_tasks_scheduler data : preserves (unchanged meeting_scheduler) (_list_tasks P data).
Proof. unfold _list_tasks. preserves_tac. Qed.

Lemma _complete_task_scheduler data : preserves (unchanged meeting_scheduler) (_complete_task P data).
Proof. unfold _complete_task. preserves_tac. Qed.

Lemma _delete_task_scheduler data : preserves (unchanged meeting_scheduler) (_delete_task P data).
Proof. unfold _delete_task. preserves_tac. Qed.

Lemma _add_shopping_item_scheduler data : preserves (unchanged meeting_scheduler) (_add_shopping_item P data).
Proof. unfold _add_shopping_item. preserves_tac. Qed.

Lemma _list_shopping_scheduler data : preserves (unchanged meeting_scheduler) (_list_shopping P data).
Proof. unfold _list_shopping. preserves_tac. Qed.

Lemma _remove_shopping_item_scheduler data : preserves (unchanged meeting_scheduler) (_remove_shopping_item P data).
Proof. unfold _remove_shopping_item. preserves_tac. Qed.

Lemma _send_email_scheduler data : preserves (unchanged meeting_scheduler) (_send_email P data).
Proof. unfold _send_email. preserves_tac. Qed.

Lemma _read_emails_scheduler data : preserves (unchanged meeting_scheduler) (_read_emails P data).
Proof. unfold _read_emails. preserves_tac. Qed.

Lemma _read_last_email_scheduler data : preserves (unchanged meeting_scheduler) (_read_last_email P data).
Proof. unfold _read_last_email. preserves_tac. Qed.

Lemma _search_emails_scheduler data : preserves (unchanged meeting_scheduler) (_search_emails P data).
Proof. unfold _search_emails. preserves_tac. Qed.

Lemma _summarize_email_scheduler data : preserves (unchanged meeting_scheduler) (_summarize_email P data).
Proof. unfold _summarize_email. preserves_tac. Qed.

Lemma _search_internet_scheduler data : preserves (unchanged meeting_scheduler) (_search_internet P data).
Proof. unfold _search_internet. preserves_tac. Qed.

Lemma _add_calendar_event_scheduler data : preserves (unchanged meeting_scheduler) (_add_calendar_event P data).
Proof. unfold _add_calendar_event. preserves_tac. Qed.

Lemma _list_calendar_events_scheduler data : preserves (unchanged meeting_scheduler) (_list_calendar_events P data).
Proof. unfold _list_calendar_events. preserves_tac. Qed.

Lemma _list_tasks_session data : preserves (unchanged session) (_list_tasks P data).
Proof. unfold _list_tasks. preserves_tac. Qed.

Lemma _list_shopping_session data : preserves (unchanged session) (_list_shopping P data).
Proof. unfold _list_shopping. preserves_tac. Qed.

Lemma _read_emails_session data : preserves (unchanged session) (_read_emails P data).
Proof. unfold _read_emails. preserves_tac. Qed.

Lemma _read_last_email_session data : preserves (unchanged session) (_read_last_email P data).
Proof. unfold _read_last_email. preserves_tac. Qed.

Lemma _search_emails_session data : preserves (unchanged session) (_search_emails P data).
Proof. unfold _search_emails. preserves_tac. Qed.

Lemma _summarize_email_session data : preserves (unchanged session) (_summarize_email P data).
Proof. unfold _summarize_email. preserves_tac. Qed.

Lemma _search_internet_session data : preserves (unchanged session) (_search_internet P data).
Proof. unfold _search_internet. preserves_tac. Qed.

Lemma _list_calendar_events_session data : preserves (unchanged session) (_list_calendar_events P data).
Proof. unfold _list_calendar_events. preserves_tac. Qed.

End ServiceFrames.

(** ** Which intents touch what *)

Section Footprint.

Context (P : Platform).

Import ActionExecutor.

Lemma handler_of_In hs (intent : pystr) (h : value -> M pydict) :
  handler_of intent hs = Some h -> In (intent, h) hs.
Proof.
  induction hs as [| [name h'] hs IH]; cbn [handler_of]; [discriminate |].
  destruct (pystr_eqb intent name) eqn:E.
  - apply pystr_eqb_eq in E. intros H. inversion H. subst. left. reflexivity.
  - intros H. right. exact (IH H).
Qed.

(** The handler a registered intent is dispatched to, or nothing. *)
Lemma execute_cases (intent : pystr) (action_data : value) :
  (exists h, In (intent, h) (action_handlers P)
             /\ execute P intent action_data
                = h (if truthy action_data then action_data else VDict []))
  \/ execute P intent action_data = ret (failure (str "Unknown intent: " ++ intent)).
Proof.
  unfold execute. destruct (handler_of intent (action_handlers P)) as [h |] eqn:E.
  - left. exists h. split; [exact (handler_of_In _ _ _ E) | reflexivity].
  - right. reflexivity.
Qed.

(** Only [schedule_meeting] and [cancel_calendar_event] touch the reminder
    scheduler: whatever the payload and the outcome, every other intent,
    known or not, leaves the job store, the table of reminders and the
    started flag as they were. *)
Theorem other_intents_leave_the_scheduler (intent : pystr) (action_data : value)
    (w w' : World) (o : outcome pydict) :
  intent <> str "schedule_meeting" ->
  intent <> str "cancel_calendar_event" ->
  execute P intent action_data w = (o, w') ->
  meeting_scheduler w' = meeting_scheduler w.
Proof.
  intros Hs Hc H.
  destruct (execute_cases intent action_data) as [(h & Hin & E) | E]; rewrite E in H.
  - unfold action_handlers in Hin. cbn [In] in Hin.
    destruct Hin as [Hin | Hin];
      [injection Hin as <- <-; exact (_add_task_scheduler P _ _ _ _ H) |].
    destruct Hin as [Hin | Hin];
      [injection Hin as <- <-; exact (_list_tasks_scheduler P _ _ _ _ H) |].
    destruct Hin as [Hin | Hin];
      [injection Hin as <- <-; exact (_complete_task_scheduler P _ _ _ _ H) |].
    destruct Hin as [Hin | Hin];
      [injection Hin as <- <-; exact (_delete_task_scheduler P _ _ _ _ H) |].
    destruct Hin as [Hin | Hin];
      [injection Hin as <- <-; exact (_add_shopping_item_scheduler P _ _ _ _ H) |].
    destruct Hin as [Hin | Hin];
      [injection Hin as <- <-; exact (_list_shopping_scheduler P _ _ _ _ H) |].
    destruct Hin as [Hin | Hin];
      [injection Hin as <- <-; exact (_remove_shopping_item_scheduler P _ _ _ _ H) |].
    destruct Hin as [Hin | Hin];
      [injection Hin as <- <-; exact (_send_email_scheduler P _ _ _ _ H) |].
    destruct Hin as [Hin | Hin];
      [injection Hin as <- <-; exact (_read_emails_scheduler P _ _ _ _ H) |].
    destruct Hin as [Hin | Hin];
      [injection Hin as <- <-; exact (_read_last_email_scheduler P _ _ _ _ H) |].
    destruct Hin as [Hin | Hin];
      [injection Hin as <- <-; exact (_search_emails_scheduler P _ _ _ _ H) |].
    destruct Hin as [Hin | Hin];
      [injection Hin as <- <-; exact (_summarize_email_scheduler P _ _ _ _ H) |].
    destruct Hin as [Hin | Hin];
      [injection Hin as <- <-; exact (_search_internet_scheduler P _ _ _ _ H) |].
    destruct Hin as [Hin | Hin]; [injection Hin as <- _; exfalso; apply Hs; reflexivity |].
    destruct Hin as [Hin | Hin];
      [injection Hin as <- <-; exact (_add_calendar_event_scheduler P _ _ _ _ H) |].
    destruct Hin as [Hin | Hin];
      [injection Hin as <- <-; exact (_list_calendar_events_scheduler P _ _ _ _ H) |].
    destruct Hin as [Hin | Hin]; [injection Hin as <- _; exfalso; apply Hc; reflexivity |].
    contradiction.
  - inversion H. reflexivity.
Qed.

(** The intents that only read. *)
Definition reading_intents : list pystr :=
  [str "list_tasks"; str "list_shopping"; str "read_emails"; str "read_last_email";
   str "search_emails"; str "summarize_email"; str "search_internet";
   str "list_calendar_events"].

(** The listing, reading and searching intents never write: whatever the
    payload and the outcome, the database and the session's pending
    operations are as before, and nothing is committed. *)
Theorem reading_intents_leave_the_session (intent : pystr) (action_data : value)
    (w w' : World) (o : outcome pydict) :
  In intent reading_intents ->
  execute P intent action_data w = (o, w') ->
  session w' = session w.
Proof.
  intros Hro H.
  destruct (execute_cases intent action_data) as [(h & Hin & E) | E]; rewrite E in H.
  - unfold action_handlers in Hin. cbn [In] in Hin.
    destruct Hin as [Hin | Hin];
      [injection Hin as <- _; exfalso; vm_compute in Hro; intuition discriminate |].
    destruct Hin as [Hin | Hin];
      [injection Hin as <- <-; exact (_list_tasks_session P _ _ _ _ H) |].
    destruct Hin as [Hin | Hin];
      [injection Hin as <- _; exfalso; vm_compute in Hro; intuition discriminate |].
    destruct Hin as [Hin | Hin];
      [injection Hin as <- _; exfalso; vm_compute in Hro; intuition discriminate |].
    destruct Hin as [Hin | Hin];
      [injection Hin as <- _; exfalso; vm_compute in Hro; intuition discriminate |].
    destruct Hin as [Hin | Hin];
      [injection Hin as <- <-; exact (_list_shopping_session P _ _ _ _ H) |].
    destruct Hin as [Hin | Hin];
      [injection Hin as <- _; exfalso; vm_compute in Hro; intuition discriminate |].
    destruct Hin as [Hin | Hin];
      [injection Hin as <- _; exfalso; vm_compute in Hro; intuition discriminate |].
    destruct Hin as [Hin | Hin];
      [injection Hin as <- <-; exact (_read_emails_session P _ _ _ _ H) |].
    destruct Hin as [Hin | Hin];
      [injection Hin as <- <-; exact (_read_last_email_session P _ _ _ _ H) |].
    destruct Hin as [Hin | Hin];
      [injection Hin as <- <-; exact (_search_emails_session P _ _ _ _ H) |].
    destruct Hin as [Hin | Hin];
      [injection Hin as <- <-; exact (_summarize_email_session P _ _ _ _ H) |].
    destruct Hin as [Hin | Hin];
      [injection Hin as <- <-; exact (_search_internet_session P _ _ _ _ H) |].
    destruct Hin as [Hin | Hin];
      [injection Hin as <- _; exfalso; vm_compute in Hro; intuition discriminate |].
    destruct Hin as [Hin | Hin];
      [injection Hin as <- _; exfalso; vm_compute in Hro; intuition discriminate |].
    destruct Hin as [Hin | Hin];
      [injection Hin as <- <-; exact (_list_calendar_events_session P _ _ _ _ H) |].
    destruct Hin as [Hin | Hin];
      [injection Hin as <- _; exfalso; vm_compute in Hro; intuition discriminate |].
    contradiction.
  - inversion H. reflexivity.
Qed.

End Footprint.

Lemma other_intents_leave_the_scheduler_witness :
  meeting_scheduler
    (snd (ActionExecutor.execute demo (str "add_task")
            (VDict [(str "title", VStr (str "Sun la doctor"))]) (world_of empty_db)))
  = meeting_scheduler (world_of empty_db).
Proof.
  refine (other_intents_leave_the_scheduler demo (str "add_task")
            (VDict [(str "title", VStr (str "Sun la doctor"))]) (world_of empty_db) _ _
            _ _ (surjective_pairing _)).
  - vm_compute. discriminate.
  - vm_compute. discriminate.
Defined.

Lemma reading_intents_leave_the_session_witness :
  session (snd (ActionExecutor.execute demo (str "list_tasks")
                  (VDict [(str "today", VBool true)]) (world_of empty_db)))
  = session (world_of empty_db).
Proof.
  refine (reading_intents_leave_the_session demo (str "list_tasks")
            (VDict [(str "today", VBool true)]) (world_of empty_db) _ _ _
            (surjective_pairing _)).
  left. reflexivity.
Defined.

(** ** Names in the shopping list: the suffix rule of [_remove_shopping_item] *)

Lemma starts_with_spec (prefix s : pystr) :
  starts_with prefix s = true <-> exists rest, s = prefix ++ rest.
Proof.
  revert s. induction prefix as [| c prefix IH]; intros s; simpl.
  - split; [intros _; exists s; reflexivity | reflexivity].
  - destruct s as [| d s]; [split; [discriminate | intros [rest H]; discriminate H] |].
    rewrite andb_true_iff, N.eqb_eq, IH. split.
    + intros [-> [rest ->]]. exists rest. reflexivity.
    + intros [rest H]. inversion H. eauto.
Qed.

Lemma endswith_spec (s suffix : pystr) :
  endswith s suffix = true <-> exists stem, s = stem ++ suffix.
Proof.
  unfold endswith. rewrite starts_with_spec. split.
  - intros [rest H]. exists (rev rest).
    rewrite <- (rev_involutive s), H, rev_app_distr, rev_involutive. reflexivity.
  - intros [stem ->]. exists (rev stem). apply rev_app_distr.
Qed.

(** A suffix is cut off when it ends the term and the term is more than two
    characters longer than it. *)
Definition applies (term suffix : pystr) : Prop :=
  endswith term suffix = true /\ (length suffix + 2 < length term)%nat.

Lemma applies_dec (term suffix : pystr) :
  endswith term suffix && (length suffix + 2 <? length term)%nat = true
  <-> applies term suffix.
Proof. unfold applies. rewrite andb_true_iff, Nat.ltb_lt. reflexivity. Qed.

(** The loop over the suffixes cuts off the first suffix of the list that
    applies, and only that one; when none applies the term is unchanged. *)
Lemma strip_suffix_spec (candidates : list pystr) (term : pystr) :
  (exists before suffix after,
      candidates = before ++ suffix :: after
      /\ Forall (fun s => ~ applies term s) before
      /\ applies term suffix
      /\ term = ActionExecutor.strip_suffix candidates term ++ suffix)
  \/ (Forall (fun s => ~ applies term s) candidates
      /\ ActionExecutor.strip_suffix candidates term = term).
Proof.
  induction candidates as [| suffix candidates IH]; cbn [ActionExecutor.strip_suffix].
  - right. split; [constructor | reflexivity].
  - destruct (endswith term suffix && (length suffix + 2 <? length term)%nat) eqn:E.
    + apply applies_dec in E. left. exists [], suffix, candidates.
      repeat split; [constructor | apply E | apply E |].
      destruct E as [E _]. apply endswith_spec in E as [stem ->].
      rewrite length_app, Nat.add_sub, take_app_length. reflexivity.
    + assert (~ applies term suffix) as Hn.
      { intros H. apply applies_dec in H. rewrite H in E. discriminate E. }
      destruct IH as [(before & s & after & -> & Hb & Ha & Ht) | [Hall Hs]].
      * left. exists (suffix :: before), s, after.
        repeat split; [constructor; assumption | apply Ha | apply Ha | exact Ht].
      * right. split; [constructor; assumption | exact Hs].
Qed.

(** The name [_remove_shopping_item] searches for first: the lowered and
    trimmed name, less at most one suffix of the list; a suffix is only cut
    off a name more than two characters longer than it, so at least three
    characters are left of a name that was cut. *)
Theorem normalize_cuts_one_suffix (P : Platform) (item_name : pystr) :
  let cleaned := strip (str_lower P item_name) in
  let search_term := ActionExecutor.normalize P item_name in
  search_term = cleaned
  \/ (exists suffix,
         In suffix ActionExecutor.suffixes
         /\ cleaned = search_term ++ suffix
         /\ (2 < length search_term)%nat).
Proof.
  cbv zeta. unfold ActionExecutor.normalize.
  destruct (strip_suffix_spec ActionExecutor.suffixes (strip (str_lower P item_name)))
    as [(before & suffix & after & Hc & _ & [_ Hlen] & Ht) | [_ Hs]].
  - right. exists suffix. split; [| split].
    + rewrite Hc. apply in_or_app. right. left. reflexivity.
    + exact Ht.
    + rewrite Ht, length_app in Hlen. lia.
  - left. exact Hs.
Qed.

(** Names of three characters or fewer are searched for as they are. *)
Theorem normalize_keeps_short_names (P : Platform) (item_name : pystr) :
  (length (strip (str_lower P item_name)) <= 3)%nat ->
  ActionExecutor.normalize P item_name = strip (str_lower P item_name).
Proof.
  intros Hlen. unfold ActionExecutor.normalize.
  destruct (strip_suffix_spec ActionExecutor.suffixes (strip (str_lower P item_name)))
    as [(before & suffix & after & Hc & _ & [He Hl] & Ht) | [_ Hs]]; [| exact Hs].
  exfalso.
  assert (1 <= length suffix)%nat.
  { assert (In suffix ActionExecutor.suffixes) as Hin
      by (rewrite Hc; apply in_or_app; right; left; reflexivity).
    unfold ActionExecutor.suffixes in Hin. cbn [In] in Hin.
    repeat (destruct Hin as [<- | Hin]; [vm_compute; lia |]). contradiction. }
  lia.
Qed.


(** ** Name lookups: [ilike] with the pattern [%name%] *)

(** No [%] and no [_] in a text. *)
Definition wildcard_free (s : pystr) : Prop :=
  Forall (fun c => c <> 37%N /\ c <> 95%N) s.

Lemma like_percent (pattern text : pystr) :
  like (37%N :: pattern) text = true
  <-> exists skipped rest, text = skipped ++ rest /\ like pattern rest = true.
Proof.
  cbn [like]. rewrite N.eqb_refl.
  induction text as [| d text IH].
  - rewrite orb_false_r. split.
    + intros H. exists [], []. auto.
    + intros (skipped & rest & E & H). symmetry in E.
      apply app_eq_nil in E as [-> ->]. exact H.
  - rewrite orb_true_iff, IH. split.
    + intros [H | (skipped & rest & -> & H)].
      * exists [], (d :: text). auto.
      * exists (d :: skipped), rest. auto.
    + intros (skipped & rest & E & H). destruct skipped as [| c skipped].
      * left. cbn [app] in E. subst rest. exact H.
      * right. inversion E. subst. exists skipped, rest. auto.
Qed.

Lemma like_literal (pattern text : pystr) :
  wildcard_free pattern ->
  like (pattern ++ [37%N]) text = true <-> exists rest, text = pattern ++ rest.
Proof.
  intros Hw. revert text. induction Hw as [| c pattern [H1 H2] Hw IH]; intros text.
  - cbn [app]. rewrite like_percent. split.
    + intros _. exists text. reflexivity.
    + intros _. exists text, []. rewrite app_nil_r. split; reflexivity.
  - cbn [app like]. destruct (c =? 37)%N eqn:E37; [apply N.eqb_eq in E37; contradiction |].
    destruct text as [| d text]; [split; [discriminate | intros [r H]; discriminate H] |].
    destruct (c =? 95)%N eqn:E95; [apply N.eqb_eq in E95; contradiction |].
    cbn [orb]. rewrite andb_true_iff, N.eqb_eq, IH. split.
    + intros [-> [rest ->]]. exists rest. reflexivity.
    + intros [rest H]. inversion H. eauto.
Qed.

Lemma ascii_lower_not_wildcard (c : N) :
  c <> 37%N /\ c <> 95%N -> ascii_lower c <> 37%N /\ ascii_lower c <> 95%N.
Proof.
  unfold ascii_lower. intros [H1 H2].
  destruct ((65 <=? c)%N && (c <=? 90)%N) eqn:E; [| auto].
  apply andb_true_iff in E as [E1 E2]. apply N.leb_le in E1, E2. lia.
Qed.

Lemma wildcard_free_lower (s : pystr) :
  wildcard_free s -> wildcard_free (sqlite_lower s).
Proof.
  unfold wildcard_free, sqlite_lower. induction 1 as [| c s Hc _ IH]; cbn [map].
  - constructor.
  - constructor; [apply ascii_lower_not_wildcard, Hc | exact IH].
Qed.

(** For a name without [%] and [_], the lookup [column.ilike(f"%{name}%")]
    is the search for the name inside the column's text, ASCII letters
    compared without case. *)
Theorem ilike_is_containment (P : Platform) (name text : pystr) :
  wildcard_free name ->
  ilike (contains_pattern P (VStr name)) text = true
  <-> exists before after,
        sqlite_lower text = before ++ sqlite_lower name ++ after.
Proof.
  intros Hw. apply wildcard_free_lower in Hw.
  unfold ilike, contains_pattern, fmt.
  change (str "%") with [37%N].
  change (sqlite_lower ([37%N] ++ name ++ [37%N]))
    with (37%N :: sqlite_lower (name ++ [37%N])).
  assert (sqlite_lower (name ++ [37%N]) = sqlite_lower name ++ [37%N]) as ->
    by (unfold sqlite_lower; rewrite map_app; reflexivity).
  rewrite like_percent. split.
  - intros (skipped & rest & E & H).
    apply (like_literal _ _ Hw) in H as [after ->]. exists skipped, after. exact E.
  - intros (before & after & E). exists before, (sqlite_lower name ++ after).
    split; [exact E |]. apply (like_literal _ _ Hw). eauto.
Qed.

(** A [%] in the name is a wildcard of the query: the name [%] matches the
    text of every row. *)
Theorem percent_matches_everything (P : Platform) (text : pystr) :
  ilike (contains_pattern P (VStr (str "%"))) text = true.
Proof.
  unfold ilike, contains_pattern. cbn [fmt].
  change (sqlite_lower (str "%" ++ str "%" ++ str "%")) with [37%N; 37%N; 37%N].
  apply like_percent. exists (sqlite_lower text), []. split; [symmetry; apply app_nil_r |].
  apply like_percent. exists [], []. split; [reflexivity |].
  apply like_percent. exists [], []. split; reflexivity.
Qed.

Lemma ilike_is_containment_witness :
  ilike (contains_pattern demo (VStr (str "mer"))) (str "Mere") = true
  <-> exists before after,
        sqlite_lower (str "Mere") = before ++ sqlite_lower (str "mer") ++ after.
Proof.
  apply (ilike_is_containment demo (str "mer") (str "Mere")).
  unfold wildcard_free. vm_compute.
  repeat (constructor; [split; discriminate |]). constructor.
Defined.

(** ** Listing the tasks: [_list_tasks] *)

Section Ordering.

Context {A : Type} (leb : A -> A -> bool).

Hypothesis leb_total : forall a b, leb a b = true \/ leb b a = true.
Hypothesis leb_trans : forall a b c, leb a b = true -> leb b c = true -> leb a c = true.

Lemma insert_by_Permutation (x : A) (l : list A) :
  Permutation (insert_by leb x l) (x :: l).
Proof.
  induction l as [| y l IH]; cbn [insert_by]; [reflexivity |].
  destruct (leb x y); [reflexivity |].
  rewrite IH. apply perm_swap.
Qed.

Lemma order_by_Permutation (l : list A) : Permutation (order_by leb l) l.
Proof.
  induction l as [| x l IH]; cbn [order_by]; [reflexivity |].
  rewrite insert_by_Permutation, IH. reflexivity.
Qed.

Lemma insert_by_sorted (x : A) (l : list A) :
  StronglySorted (fun a b => leb a b = true) l ->
  StronglySorted (fun a b => leb a b = true) (insert_by leb x l).
Proof.
  induction 1 as [| y l Hs IH Hy]; cbn [insert_by].
  - repeat constructor.
  - destruct (leb x y) eqn:E.
    + constructor; [constructor; assumption |].
      constructor; [exact E |].
      eapply Forall_impl; [exact Hy |]. intros z Hz. cbn beta in *. eauto.
    + constructor; [exact IH |].
      apply (Permutation_Forall (Permutation_sym (insert_by_Permutation x l))).
      constructor; [| exact Hy].
      destruct (leb_total x y) as [H | H]; [congruence | exact H].
Qed.

Lemma order_by_In (x : A) (l : list A) : In x (order_by leb l) <-> In x l.
Proof.
  split; apply Permutation_in;
    [apply order_by_Permutation | apply Permutation_sym, order_by_Permutation].
Qed.

Lemma order_by_sorted (l : list A) :
  StronglySorted (fun a b => leb a b = true) (order_by leb l).
Proof.
  induction l as [| x l IH]; cbn [order_by]; [constructor | apply insert_by_sorted, IH].
Qed.

End Ordering.

Lemma StronglySorted_weaken {A} (R1 R2 : A -> A -> Prop) (l : list A) :
  (forall a b, R1 a b -> R2 a b) -> StronglySorted R1 l -> StronglySorted R2 l.
Proof.
  intros HR. induction 1 as [| x l Hs IH Hx]; constructor; [exact IH |].
  eapply Forall_impl; [exact Hx |]. intros y. apply HR.
Qed.

Section Listing.

Context (P : Platform).

Import ActionExecutor.

(** A dict payload reaches the handler of its intent as it is. *)
Lemma execute_dict (intent : pystr) (h : value -> M pydict) (d : pydict) :
  handler_of intent (action_handlers P) = Some h ->
  execute P intent (VDict d) = h (VDict d).
Proof. intros E. unfold execute. rewrite E. destruct d; reflexivity. Qed.

(** [Task.due_date.asc().nullsfirst()] *)
Definition due_order (a b : Task.t) : bool :=
  asc_nullsfirst (Task.due_date a) (Task.due_date b).

Lemma due_order_total (a b : Task.t) : due_order a b = true \/ due_order b a = true.
Proof.
  unfold due_order, asc_nullsfirst.
  destruct (Task.due_date a), (Task.due_date b); auto.
  rewrite !Z.leb_le. lia.
Qed.

Lemma due_order_trans (a b c : Task.t) :
  due_order a b = true -> due_order b c = true -> due_order a c = true.
Proof.
  unfold due_order, asc_nullsfirst.
  destruct (Task.due_date a), (Task.due_date b), (Task.due_date c);
    rewrite ?Z.leb_le; try discriminate; auto. lia.
Qed.

Lemma list_tasks_query_sorted category today (db : Db) :
  StronglySorted (fun a b => due_order a b = true) (list_tasks_query category today db).
Proof.
  unfold list_tasks_query. apply order_by_sorted.
  - apply due_order_total.
  - apply due_order_trans.
Qed.

Lemma list_tasks_query_In category today (db : Db) (t : Task.t) :
  In t (list_tasks_query category today db) <->
  In t (tasks db)
  /\ Task.is_completed t = false
  /\ match category with
     | Some key => eq_text key (Task.category t) = true
     | None => True
     end
  /\ match today with
     | Some start => in_range start (start + us_per_day) (Task.due_date t) = true
     | None => True
     end.
Proof.
  unfold list_tasks_query.
  rewrite order_by_In. unfold active_tasks.
  destruct category as [key |], today as [start |];
    rewrite <- ?list_elem_of_In, ?list_elem_of_filter, ?list_elem_of_In;
    rewrite ?Is_true_true, ?negb_true_iff; tauto.
Qed.

Lemma now_run (w : World) :
  now P w = (Ok (clock_now P (clock_reads w)), set_clock_reads S w).
Proof. reflexivity. Qed.

(** What a successful [list_tasks] returns. *)
Lemma _list_tasks_returns (d : pydict) (w w' : World) (r : pydict) :
  _list_tasks P (VDict d) w = (Ok r, w') ->
  get "success" r = VBool true ->
  exists category listed,
    (if truthy (get "category" d) then exists key, category = Some key else category = None)
    /\ listed
       = list_tasks_query category
           (if truthy (get "today" d)
            then Some (date_of (clock_now P (clock_reads w))) else None)
           (database (session w))
    /\ r = [(str "success", VBool true);
            (str "action", VStr (str "list_tasks"));
            (str "count", VInt (Z.of_nat (length listed)));
            (str "tasks", VList (map (task_dict P) listed))].
Proof.
  intros H Hs. unfold _list_tasks in H.
  apply try_except_inv in H as [(r0 & Er & H) | (e & w1 & _ & H)].
  2: { inversion H. subst. rewrite get_success_failure in Hs. discriminate Hs. }
  inversion Er. subst r0. clear Er.
  apply bind_Ok in H as (d' & wa & H0 & H). apply lift_Ok in H0 as [E ->].
  inversion E. subst d'. clear E.
  apply bind_Ok in H as (category & wa & H0 & H).
  assert (wa = w /\ if truthy (get "category" d)
                    then exists key, category = Some key else category = None)
    as [-> Hcat].
  { destruct (truthy (get "category" d)).
    - apply bind_Ok in H0 as (key & wb & H1 & H0). apply lift_Ok in H1 as [_ ->].
      inversion H0. eauto.
    - inversion H0. auto. }
  clear H0.
  apply bind_Ok in H as (today & wa & H0 & H).
  assert (today = (if truthy (get "today" d)
                   then Some (date_of (clock_now P (clock_reads w))) else None)
          /\ session wa = session w) as [-> Hss].
  { destruct (truthy (get "today" d)).
    - rewrite (bind_run _ _ _ _ _ (now_run w)) in H0.
      destruct (date_of (clock_now P (clock_reads w)) + us_per_day <? datetime_end);
        inversion H0; auto.
    - inversion H0. auto. }
  clear H0.
  apply bind_Ok in H as (listed & wb & H0 & H). unfold query in H0. inversion H0.
  subst listed wb. clear H0. inversion H. subst r w'. clear H.
  exists category. eexists. rewrite Hss. split; [exact Hcat |]. split; reflexivity.
Qed.

(** A successful [list_tasks] lists tasks of the table that are not
    completed, ordered by due date with the tasks without a due date
    FIRST ([nullsfirst]); with [today] set, only tasks due within the day of
    the clock reading, which leaves out those without a due date; without
    filters, every active task exactly once. *)
Theorem list_tasks_order (d : pydict) (w w' : World) (r : pydict) :
  execute P (str "list_tasks") (VDict d) w = (Ok r, w') ->
  get "success" r = VBool true ->
  exists listed,
    dict_get (str "tasks") r = Some (VList (map (task_dict P) listed))
    /\ dict_get (str "count") r = Some (VInt (Z.of_nat (length listed)))
    /\ StronglySorted
         (fun a b => match Task.due_date a, Task.due_date b with
                     | None, _ => True
                     | Some _, None => False
                     | Some x, Some y => x <= y
                     end) listed
    /\ (forall t, In t listed ->
          In t (tasks (database (session w))) /\ Task.is_completed t = false)
    /\ (truthy (get "today" d) = true ->
        forall t, In t listed ->
          exists due,
            Task.due_date t = Some due
            /\ date_of (clock_now P (clock_reads w)) <= due
               < date_of (clock_now P (clock_reads w)) + us_per_day)
    /\ (truthy (get "today" d) = false -> truthy (get "category" d) = false ->
        Permutation listed (active_tasks (database (session w)))).
Proof.
  intros H Hs. rewrite (execute_dict (str "list_tasks") (_list_tasks P) d eq_refl) in H.
  destruct (_list_tasks_returns d w w' r H Hs) as (category & listed & Hcat & Hl & ->).
  exists listed. split; [reflexivity |]. split; [reflexivity |].
  split; [| split; [| split]].
  - pose proof (list_tasks_query_sorted category
                  (if truthy (get "today" d)
                   then Some (date_of (clock_now P (clock_reads w))) else None)
                  (database (session w))) as Hsorted.
    rewrite <- Hl in Hsorted.
    eapply StronglySorted_weaken; [| exact Hsorted].
    intros a b. unfold due_order, asc_nullsfirst.
    destruct (Task.due_date a), (Task.due_date b); rewrite ?Z.leb_le; auto; discriminate.
  - intros t Hin. rewrite Hl in Hin. apply list_tasks_query_In in Hin. tauto.
  - intros Htoday t Hin. rewrite Hl, Htoday in Hin.
    apply list_tasks_query_In in Hin as (_ & _ & _ & Hr).
    unfold in_range in Hr. destruct (Task.due_date t) as [due |]; [| discriminate].
    exists due. apply andb_true_iff in Hr as [H1 H2].
    apply Z.leb_le in H1. apply Z.ltb_lt in H2. auto.
  - intros Htoday Hc. rewrite Htoday in Hl. rewrite Hc in Hcat. subst category.
    rewrite Hl. unfold list_tasks_query. apply order_by_Permutation.
Qed.

End Listing.

(** A database with three tasks: one without a due date, one due on the
    day of [demo_now], one completed. *)
Definition demo_task (id : Z) (title : string) (due : option Z) (completed : bool) : Task.t :=
  {| Task.id := id; Task.title := str title; Task.description := None;
     Task.due_date := due; Task.reminder_date := None; Task.is_completed := completed;
     Task.priority := VInt 1; Task.category := None;
     Task.created_at := 0; Task.updated_at := 0 |}.

Definition demo_tasks : Db :=
  {| tasks := [demo_task 1 "Sun la doctor" (Some (demo_now + us_per_hour)) false;
               demo_task 2 "Cumpar flori" None false;
               demo_task 3 "Platesc chiria" (Some demo_now) true];
     shopping_items := []; agent_actions := []; calendar_events := [] |}.

Abbreviation demo_list_tasks :=
  (ActionExecutor.execute demo (str "list_tasks") (VDict []) (world_of demo_tasks)).

Lemma demo_list_tasks_succeeds :
  exists r, fst demo_list_tasks = Ok r /\ get "success" r = VBool true.
Proof. vm_compute. eexists. split; reflexivity. Qed.

Lemma list_tasks_order_witness :
  exists r listed,
    fst demo_list_tasks = Ok r
    /\ dict_get (str "tasks") r = Some (VList (map (ActionExecutor.task_dict demo) listed))
    /\ Permutation listed (active_tasks demo_tasks).
Proof.
  destruct demo_list_tasks_succeeds as (r & Hr & Hs).
  destruct (list_tasks_order demo [] (world_of demo_tasks) _ r (run_of_fst _ _ _ Hr) Hs)
    as (listed & Ht & _ & _ & _ & _ & Hp).
  exists r, listed. split; [exact Hr |]. split; [exact Ht |].
  apply Hp; reflexivity.
Defined.

(** ** Validation in [_schedule_meeting] *)

Section Validation.

Context (P : Platform).

Import ActionExecutor.


Lemma lift_run {A} (o : outcome A) (w : World) : lift o w = (o, w).
Proof. reflexivity. Qed.

Lemma rollback_database (w : World) :
  exists w', rollback w = (Ok tt, w')
             /\ database (session w') = database (session w)
             /\ pending (session w') = []
             /\ meeting_scheduler w' = meeting_scheduler w
             /\ trace w' = trace w.
Proof. eexists. split; [reflexivity |]. repeat split. Qed.

(** A meeting with an attendee address that [validate_email] does not
    accept is refused before anything is done with it: the result is a
    failure, and the database, the scheduler and the record of effects are
    as before: no calendar event, no email, no reminder. *)
Theorem schedule_meeting_refuses_attendee (d : pydict) (w : World) :
  truthy (get "attendee_email" d) = true ->
  email_service.validate_email (get "attendee_email" d) <> Ok true ->
  exists r w',
    execute P (str "schedule_meeting") (VDict d) w = (Ok r, w')
    /\ get "success" r = VBool false
    /\ database (session w') = database (session w)
    /\ meeting_scheduler w' = meeting_scheduler w
    /\ trace w' = trace w.
Proof.
  intros Ht Hv.
  rewrite (execute_dict P (str "schedule_meeting") (_schedule_meeting P) d eq_refl).
  unfold _schedule_meeting.
  assert (forall e w1,
             database (session w1) = database (session w) ->
             meeting_scheduler w1 = meeting_scheduler w -> trace w1 = trace w ->
             exists r w',
               (rollback ;;; ret (failure e)) w1 = (Ok r, w')
               /\ get "success" r = VBool false
               /\ database (session w') = database (session w)
               /\ meeting_scheduler w' = meeting_scheduler w
               /\ trace w' = trace w) as Hfail.
  { intros e w1 H1 H2 H3. eexists _, _. split; [reflexivity |].
    fields. rewrite H1, H2, H3. repeat split. }
  destruct (meeting_start_time P d) as [start_time |] eqn:Es.
  2: { eexists _, _. split.
       - apply try_except_Ok. erewrite bind_run by reflexivity. rewrite Es. reflexivity.
       - repeat split. }
  set (w1 := set_clock_reads S w).
  assert (forall e body,
             body w = (Raise e, w1) ->
             exists r w',
               try_except body (fun e => rollback ;;; ret (failure e)) w = (Ok r, w')
               /\ get "success" r = VBool false
               /\ database (session w') = database (session w)
               /\ meeting_scheduler w' = meeting_scheduler w
               /\ trace w' = trace w) as Hraise.
  { intros e body Hb. destruct (Hfail e w1) as (r & w' & Hr & Hrest); try reflexivity.
    exists r, w'. split; [| exact Hrest]. erewrite try_except_Raise; eauto. }
  assert (forall msg body,
             body w = (Ok (failure msg), w1) ->
             exists r w',
               try_except body (fun e => rollback ;;; ret (failure e)) w = (Ok r, w')
               /\ get "success" r = VBool false
               /\ database (session w') = database (session w)
               /\ meeting_scheduler w' = meeting_scheduler w
               /\ trace w' = trace w) as Hrefuse.
  { intros msg body Hb. exists (failure msg), w1. split; [| repeat split].
    apply try_except_Ok. exact Hb. }
  destruct (dt_le_naive start_time (clock_now P (clock_reads w))) as [[|] | e] eqn:El.
  - eapply Hrefuse. erewrite bind_run by reflexivity. rewrite Es.
    erewrite bind_run by apply (now_run P). rewrite El.
    erewrite bind_run by apply lift_run. reflexivity.
  - destruct (truthy (get "end_time" d)) eqn:Ee.
    + destruct (email_service.validate_email (get "attendee_email" d)) as [[|] | e] eqn:Ev.
      * congruence.
      * eapply Hrefuse. erewrite bind_run by reflexivity. rewrite Es.
        erewrite bind_run by apply (now_run P). rewrite El.
        erewrite bind_run by apply lift_run. cbv iota.
        rewrite Ee. erewrite bind_run by reflexivity.
        rewrite Ht, Ev. erewrite bind_run by apply lift_run. reflexivity.
      * eapply Hraise. erewrite bind_run by reflexivity. rewrite Es.
        erewrite bind_run by apply (now_run P). rewrite El.
        erewrite bind_run by apply lift_run. cbv iota.
        rewrite Ee. erewrite bind_run by reflexivity.
        rewrite Ht, Ev. erewrite bind_raise by apply lift_run. reflexivity.
    + destruct (timedelta P us_per_minute (get_default "duration_minutes" (VInt 60) d))
        as [delta | e] eqn:Ed.
      2: { eapply Hraise. erewrite bind_run by reflexivity. rewrite Es.
           erewrite bind_run by apply (now_run P). rewrite El.
           erewrite bind_run by apply lift_run. cbv iota.
           rewrite Ee, Ed.
           erewrite bind_raise; [reflexivity |].
           erewrite bind_raise by apply lift_run. reflexivity. }
      destruct (dt_add start_time delta) as [end_time | e] eqn:Ea.
      2: { eapply Hraise. erewrite bind_run by reflexivity. rewrite Es.
           erewrite bind_run by apply (now_run P). rewrite El.
           erewrite bind_run by apply lift_run. cbv iota.
           rewrite Ee, Ed.
           erewrite bind_raise; [reflexivity |].
           erewrite bind_run by apply lift_run. rewrite Ea.
           erewrite bind_raise by apply lift_run. reflexivity. }
      destruct (email_service.validate_email (get "attendee_email" d)) as [[|] | e] eqn:Ev.
      * congruence.
      * eapply Hrefuse. erewrite bind_run by reflexivity. rewrite Es.
        erewrite bind_run by apply (now_run P). rewrite El.
        erewrite bind_run by apply lift_run. cbv iota.
        rewrite Ee, Ed.
        erewrite (bind_run (bind _ _)).
        2: { erewrite bind_run by apply lift_run. rewrite Ea.
             erewrite bind_run by apply lift_run. reflexivity. }
        rewrite Ht, Ev. erewrite bind_run by apply lift_run. reflexivity.
      * eapply Hraise. erewrite bind_run by reflexivity. rewrite Es.
        erewrite bind_run by apply (now_run P). rewrite El.
        erewrite bind_run by apply lift_run. cbv iota.
        rewrite Ee, Ed.
        erewrite (bind_run (bind _ _)).
        2: { erewrite bind_run by apply lift_run. rewrite Ea.
             erewrite bind_run by apply lift_run. reflexivity. }
        rewrite Ht, Ev. erewrite bind_raise by apply lift_run. reflexivity.
  - eapply Hraise. erewrite bind_run by reflexivity. rewrite Es.
    erewrite bind_run by apply (now_run P). rewrite El.
    erewrite bind_raise by apply lift_run. reflexivity.
Qed.



End Validation.


Lemma schedule_meeting_refuses_attendee_witness :
  exists r w',
    ActionExecutor.execute demo (str "schedule_meeting")
      (VDict [(str "title", VStr (str "Sync"));
              (str "start_time", VStr (str "tomorrow 10:00"));
              (str "attendee_email", VStr (str "ana at example"))]) (world_of empty_db)
    = (Ok r, w')
    /\ get "success" r = VBool false
    /\ database (session w') = database (session (world_of empty_db))
    /\ meeting_scheduler w' = meeting_scheduler (world_of empty_db)
    /\ trace w' = trace (world_of empty_db).
Proof.
  apply (schedule_meeting_refuses_attendee demo).
  - reflexivity.
  - vm_compute. discriminate.
Defined.

(** ** Cancelling an event: [_cancel_calendar_event] *)

Section Cancelling.

Context (P : Platform).

Import ActionExecutor MeetingSchedulerService.

Lemma query_run {A} (q : Db -> A) (w : World) :
  query q w = (Ok (q (database (session w))), w).
Proof. reflexivity. Qed.

(** The lookup reads the database and changes nothing. *)
Lemma find_event_pure (d : pydict) (w w' : World) o :
  find_event P d w = (o, w') -> w' = w.
Proof.
  unfold find_event. intros H.
  repeat lazymatch type of H with
    | context [if ?b then _ else _] => destruct b
    end;
    unfold bind, lift, query, ret in H;
    repeat lazymatch type of H with
      | context [match ?x with _ => _ end] => destruct x
      end;
    inversion H; reflexivity.
Qed.

(** An event found by its title is in the table and is scheduled: a
    cancelled event is not found by title. *)
Lemma find_event_by_title (d : pydict) (w w' : World) (event : CalendarEvent.t) :
  truthy (get "event_id" d) = false ->
  truthy (get "google_event_id" d) = false ->
  find_event P d w = (Ok (Some event), w') ->
  In event (calendar_events (database (session w)))
  /\ CalendarEvent.status event = Some (str "scheduled")
  /\ ilike (contains_pattern P (get "title" d)) (CalendarEvent.title event) = true.
Proof.
  intros H1 H2 H. unfold find_event in H. rewrite H1, H2 in H.
  destruct (truthy (get "title" d)); [| discriminate H].
  unfold query in H. inversion H as [[Hf Hw]]. clear H. subst w'.
  apply find_some in Hf as [Hin Hm]. apply andb_true_iff in Hm as [Hm Hs].
  split; [exact Hin |]. split; [| exact Hm].
  unfold is_scheduled, eq_text in Hs.
  destruct (CalendarEvent.status event) as [s |]; [| discriminate Hs].
  apply pystr_eqb_eq in Hs. subst. reflexivity.
Qed.

(** [delete_event] never raises, whatever the remote calendar answers. *)
Lemma delete_event_run (event_id : pystr) (w : World) :
  exists r,
    calendar_service.delete_event P event_id w
    = (Ok r, if calendar_is_configured P
             then set_trace (fun t => t ++ [ECalendarDelete event_id]) w else w).
Proof.
  unfold calendar_service.delete_event, calendar_service.is_configured.
  destruct (calendar_is_configured P); cbn [negb].
  - unfold bind, get_world, emit, ret.
    destruct (google_delete P (length (trace w)) event_id); eexists; reflexivity.
  - eexists. reflexivity.
Qed.

(** The remote id of an event, when it has one that is not empty: what
    [if event.google_event_id:] tests. *)
Definition remote_id (event : CalendarEvent.t) : option pystr :=
  match CalendarEvent.google_event_id event with
  | Some (c :: s) => Some (c :: s)
  | _ => None
  end.

(** The state after [_cancel_calendar_event] has cancelled [event]. *)
Definition after_cancel (event : CalendarEvent.t) (w : World) : World :=
  {| session :=
       {| database :=
            set_calendar_events
              (update_where CalendarEvent.id (CalendarEvent.id event)
                 (cancel_row (clock_utcnow P (clock_reads w))))
              (database (session w));
          pending := [] |};
     meeting_scheduler :=
       match remote_id event with
       | Some g => without_reminders P g (meeting_scheduler w)
       | None => meeting_scheduler w
       end;
     trace :=
       (trace w
        ++ match remote_id event with
           | Some g => if calendar_is_configured P then [ECalendarDelete g] else []
           | None => []
           end)
       ++ [EDbCommit];
     clock_reads := S (clock_reads w) |}.

Lemma _cancel_calendar_event_run (d : pydict) (w : World) (event : CalendarEvent.t) :
  pending (session w) = [] ->
  find_event P d w = (Ok (Some event), w) ->
  _cancel_calendar_event P (VDict d) w
  = (Ok [(str "success", VBool true);
         (str "action", VStr (str "cancel_calendar_event"));
         (str "message",
          VStr (str "Evenimentul '" ++ CalendarEvent.title event ++ str "' a fost anulat."))],
     after_cancel event w).
Proof.
  intros Hclean Hfind. unfold _cancel_calendar_event.
  apply try_except_Ok. erewrite bind_run by reflexivity.
  erewrite bind_run by exact Hfind. cbv iota.
  destruct w as [[db pend] ms tr ck]. cbn [session pending] in Hclean. subst pend.
  unfold after_cancel, remote_id.
  cbn [session database meeting_scheduler trace clock_reads].
  destruct (CalendarEvent.google_event_id event) as [[| c s] |].
  - rewrite app_nil_r. reflexivity.
  - destruct (delete_event_run (c :: s)
                {| session := {| database := db; pending := [] |};
                   meeting_scheduler := ms; trace := tr; clock_reads := ck |}) as [r Hr].
    erewrite bind_run.
    2: { erewrite bind_run by exact Hr.
         erewrite bind_run by apply cancel_reminder_run. reflexivity. }
    destruct (calendar_is_configured P); rewrite ?app_nil_r; reflexivity.
  - rewrite app_nil_r. reflexivity.
Qed.

Lemma find_event_found (d : pydict) (w : World) (event : CalendarEvent.t) :
  fst (find_event P d w) = Ok (Some event) ->
  find_event P d w = (Ok (Some event), w).
Proof.
  destruct (find_event P d w) as [o w0] eqn:E. cbn [fst]. intros ->.
  apply find_event_pure in E as E'. subst w0. reflexivity.
Qed.

Lemma cancel_calendar_event_run (d : pydict) (w : World) (event : CalendarEvent.t) :
  pending (session w) = [] ->
  fst (find_event P d w) = Ok (Some event) ->
  execute P (str "cancel_calendar_event") (VDict d) w
  = (Ok [(str "success", VBool true);
         (str "action", VStr (str "cancel_calendar_event"));
         (str "message",
          VStr (str "Evenimentul '" ++ CalendarEvent.title event ++ str "' a fost anulat."))],
     after_cancel event w).
Proof.
  intros Hclean Hfind.
  rewrite (execute_dict P (str "cancel_calendar_event") (_cancel_calendar_event P) d eq_refl).
  apply _cancel_calendar_event_run; [exact Hclean |].
  apply find_event_found, Hfind.
Qed.

Lemma update_where_ids {A} (id_of : A -> Z) (key : Z) (f : A -> A) (rows : list A) :
  (forall r, id_of (f r) = id_of r) ->
  map id_of (update_where id_of key f rows) = map id_of rows.
Proof.
  intros Hf. unfold update_where. rewrite map_map. apply map_ext.
  intros r. destruct (id_of r =? key); [apply Hf | reflexivity].
Qed.

Lemma update_where_In {A} (id_of : A -> Z) (key : Z) (f : A -> A) (rows : list A) (r' : A) :
  (forall r, id_of (f r) = id_of r) ->
  In r' (update_where id_of key f rows) ->
  (id_of r' = key /\ exists r, In r rows /\ r' = f r)
  \/ (id_of r' <> key /\ In r' rows).
Proof.
  intros Hf Hin. unfold update_where in Hin. apply in_map_iff in Hin as [r [Hr Hin]].
  destruct (id_of r =? key) eqn:E.
  - left. apply Z.eqb_eq in E. subst r'. rewrite Hf. split; [exact E | eauto].
  - right. apply Z.eqb_neq in E. subst r'. split; assumption.
Qed.

(** X17: cancelling an event that the lookup finds succeeds and is an
    update of that one row: the event's row gets the status cancelled and
    the time of the utc clock, no row is added or removed, every other row
    and every other table is as before, and nothing is left pending. *)
Theorem cancel_marks_the_event (d : pydict) (w : World) (event : CalendarEvent.t) :
  pending (session w) = [] ->
  fst (find_event P d w) = Ok (Some event) ->
  exists r w',
    execute P (str "cancel_calendar_event") (VDict d) w = (Ok r, w')
    /\ dict_get (str "success") r = Some (VBool true)
    /\ tasks (database (session w')) = tasks (database (session w))
    /\ shopping_items (database (session w')) = shopping_items (database (session w))
    /\ agent_actions (database (session w')) = agent_actions (database (session w))
    /\ map CalendarEvent.id (calendar_events (database (session w')))
       = map CalendarEvent.id (calendar_events (database (session w)))
    /\ (forall e, In e (calendar_events (database (session w'))) ->
          CalendarEvent.id e = CalendarEvent.id event ->
          CalendarEvent.status e = Some (str "cancelled")
          /\ CalendarEvent.updated_at e = clock_utcnow P (clock_reads w))
    /\ (forall e, In e (calendar_events (database (session w'))) ->
          CalendarEvent.id e <> CalendarEvent.id event ->
          In e (calendar_events (database (session w))))
    /\ pending (session w') = [].
Proof.
  intros Hclean Hfind. eexists _, _.
  split; [apply cancel_calendar_event_run; eassumption |].
  split; [reflexivity |].
  unfold after_cancel. cbn [session database pending].
  destruct (database (session w)) as [ts its acts evs].
  cbn [set_calendar_events tasks shopping_items agent_actions calendar_events].
  repeat (split; [reflexivity |]).
  split; [apply update_where_ids; reflexivity |].
  split; [| split; [| reflexivity]].
  - intros e Hin Hid.
    apply update_where_In in Hin as [[_ [r0 [_ ->]]] | [Hne _]]; [| contradiction | reflexivity].
    split; reflexivity.
  - intros e Hin Hne.
    apply update_where_In in Hin as [[Hid _] | [_ Hin]]; [contradiction | exact Hin | reflexivity].
Qed.

(** X18: an event without a remote id (NULL or the empty string) is
    cancelled locally: nothing is asked of the remote calendar, the
    scheduler is not touched, and the only effect is the commit. *)
Theorem cancel_without_remote_id_is_local (d : pydict) (w : World) (event : CalendarEvent.t) :
  pending (session w) = [] ->
  fst (find_event P d w) = Ok (Some event) ->
  CalendarEvent.google_event_id event = None
  \/ CalendarEvent.google_event_id event = Some [] ->
  exists r w',
    execute P (str "cancel_calendar_event") (VDict d) w = (Ok r, w')
    /\ dict_get (str "success") r = Some (VBool true)
    /\ trace w' = trace w ++ [EDbCommit]
    /\ meeting_scheduler w' = meeting_scheduler w.
Proof.
  intros Hclean Hfind Hid. eexists _, _.
  split; [apply cancel_calendar_event_run; eassumption |].
  split; [reflexivity |].
  unfold after_cancel, remote_id. cbn [trace meeting_scheduler].
  destruct Hid as [-> | ->]; rewrite app_nil_r; split; reflexivity.
Qed.

(** X19: an event with a remote id is cancelled whatever the remote
    calendar answers: the deletion is asked once when the calendar is
    configured and not at all otherwise, the handler reports success in
    both cases and when the remote deletion fails, and afterwards neither
    reminder job of the event exists; the jobs of other events stay. *)
Theorem cancel_with_remote_id (d : pydict) (w : World) (event : CalendarEvent.t)
    (google_event_id : pystr) :
  pending (session w) = [] ->
  fst (find_event P d w) = Ok (Some event) ->
  CalendarEvent.google_event_id event = Some google_event_id ->
  google_event_id <> [] ->
  exists r w',
    execute P (str "cancel_calendar_event") (VDict d) w = (Ok r, w')
    /\ dict_get (str "success") r = Some (VBool true)
    /\ trace w'
       = trace w
         ++ (if calendar_is_configured P then [ECalendarDelete google_event_id] else [])
         ++ [EDbCommit]
    /\ jobs (meeting_scheduler w') !! job_id_owner P (VStr google_event_id) = None
    /\ jobs (meeting_scheduler w') !! job_id_attendee P (VStr google_event_id) = None
    /\ scheduled_reminders (meeting_scheduler w') !! Some google_event_id = None
    /\ (forall job_id,
           job_id <> job_id_owner P (VStr google_event_id) ->
           job_id <> job_id_attendee P (VStr google_event_id) ->
           jobs (meeting_scheduler w') !! job_id = jobs (meeting_scheduler w) !! job_id).
Proof.
  intros Hclean Hfind Hid Hne. eexists _, _.
  split; [apply cancel_calendar_event_run; eassumption |].
  split; [reflexivity |].
  unfold after_cancel, remote_id. cbn [trace meeting_scheduler]. rewrite Hid.
  destruct google_event_id as [| c s]; [congruence |].
  unfold without_reminders. cbn [jobs scheduled_reminders].
  split; [symmetry; apply app_assoc |].
  split.
  { rewrite lookup_delete_ne by (apply not_eq_sym, job_ids_differ). apply lookup_delete_eq. }
  split; [apply lookup_delete_eq |].
  split; [apply lookup_delete_eq |].
  intros job_id Ho Ha. rewrite !lookup_delete_ne by congruence. reflexivity.
Qed.

(** X20: when the lookup finds no event the handler reports that the event
    was not found and changes nothing: no remote call, no write, no
    commit. *)
Theorem cancel_not_found (d : pydict) (w : World) :
  fst (find_event P d w) = Ok None ->
  execute P (str "cancel_calendar_event") (VDict d) w
  = (Ok (failure (str "Evenimentul nu a fost găsit.")), w).
Proof.
  intros Hfind.
  rewrite (execute_dict P (str "cancel_calendar_event") (_cancel_calendar_event P) d eq_refl).
  destruct (find_event P d w) as [o w0] eqn:E. cbn [fst] in Hfind. subst o.
  apply find_event_pure in E as E'. subst w0.
  unfold _cancel_calendar_event. apply try_except_Ok.
  erewrite bind_run by reflexivity. erewrite bind_run by exact E. reflexivity.
Qed.

(** What cancelling [event] adds to the record of effects. *)
Definition cancel_effects (event : CalendarEvent.t) : list effect :=
  match CalendarEvent.google_event_id event with
  | Some (c :: s) => if calendar_is_configured P then [ECalendarDelete (c :: s)] else []
  | _ => []
  end ++ [EDbCommit].

Lemma after_cancel_trace (event : CalendarEvent.t) (w : World) :
  trace (after_cancel event w) = trace w ++ cancel_effects event.
Proof.
  unfold after_cancel, cancel_effects, remote_id. cbn [trace].
  rewrite <- app_assoc.
  destruct (CalendarEvent.google_event_id event) as [[| c s] |]; reflexivity.
Qed.

Lemma find_update_where (key0 key : Z) (f : CalendarEvent.t -> CalendarEvent.t)
    (rows : list CalendarEvent.t) (event : CalendarEvent.t) :
  (forall r, CalendarEvent.id (f r) = CalendarEvent.id r) ->
  find (fun e => eq_integer (Some key0) (CalendarEvent.id e)) rows = Some event ->
  key = CalendarEvent.id event ->
  find (fun e => eq_integer (Some key0) (CalendarEvent.id e))
       (update_where CalendarEvent.id key f rows) = Some (f event).
Proof.
  intros Hf Hfind ->. unfold eq_integer in *.
  induction rows as [| r rows IH]; [discriminate Hfind |].
  cbn [find update_where map] in *.
  destruct (CalendarEvent.id r =? key0) eqn:E.
  - injection Hfind as ->. rewrite Z.eqb_refl, Hf, E. reflexivity.
  - destruct (CalendarEvent.id r =? CalendarEvent.id event);
      rewrite ?Hf, E; apply IH, Hfind.
Qed.

(** The lookup by id does not look at the status: it finds a cancelled
    event again. *)
Lemma find_event_again (d : pydict) (w : World) (event : CalendarEvent.t) :
  truthy (get "event_id" d) = true ->
  fst (find_event P d w) = Ok (Some event) ->
  fst (find_event P d (after_cancel event w))
  = Ok (Some (cancel_row (clock_utcnow P (clock_reads w)) event)).
Proof.
  unfold find_event. intros -> H.
  destruct (bind_integer P (get "event_id" d)) as [key | e] eqn:E.
  2: { discriminate H. }
  erewrite bind_run in H by apply lift_run.
  erewrite bind_run by apply lift_run.
  unfold query in *. cbn [fst] in *. injection H as H.
  unfold after_cancel. cbn [session database].
  destruct (database (session w)) as [ts its acts evs].
  cbn [set_calendar_events calendar_events] in *.
  destruct key as [key |].
  - f_equal. apply find_update_where; [reflexivity | exact H | reflexivity].
  - exfalso. induction evs as [| r evs IH]; [discriminate H | exact (IH H)].
Qed.

(** X21: the lookup by [event_id] does not look at the status, so an event
    that was cancelled is cancelled again by a second request with the same
    id: the second call succeeds too, and asks the remote calendar for the
    same deletion once more. *)
Theorem cancel_again_by_id (d : pydict) (w : World) (event : CalendarEvent.t) :
  pending (session w) = [] ->
  truthy (get "event_id" d) = true ->
  fst (find_event P d w) = Ok (Some event) ->
  exists r1 w1 r2 w2,
    execute P (str "cancel_calendar_event") (VDict d) w = (Ok r1, w1)
    /\ execute P (str "cancel_calendar_event") (VDict d) w1 = (Ok r2, w2)
    /\ dict_get (str "success") r1 = Some (VBool true)
    /\ dict_get (str "success") r2 = Some (VBool true)
    /\ trace w2 = trace w ++ cancel_effects event ++ cancel_effects event.
Proof.
  intros Hclean Hkey Hfind. eexists _, _, _, _.
  split; [apply cancel_calendar_event_run; eassumption |].
  split.
  { apply cancel_calendar_event_run; [reflexivity |].
    apply find_event_again; assumption. }
  split; [reflexivity |]. split; [reflexivity |].
  rewrite !after_cancel_trace, <- app_assoc. reflexivity.
Qed.

Lemma scheduled_is_not_cancelled : Some (str "cancelled") <> Some (str "scheduled").
Proof. vm_compute. discriminate. Qed.

(** X22: the lookup by title sees scheduled events only, so once an event
    is cancelled no request by title finds it: whatever such a request
    finds afterwards is another event. *)
Theorem cancelled_is_not_found_by_title (d d' : pydict) (w : World)
    (event event' : CalendarEvent.t) :
  pending (session w) = [] ->
  fst (find_event P d w) = Ok (Some event) ->
  truthy (get "event_id" d') = false ->
  truthy (get "google_event_id" d') = false ->
  fst (find_event P d'
         (snd (execute P (str "cancel_calendar_event") (VDict d) w)))
  = Ok (Some event') ->
  CalendarEvent.id event' <> CalendarEvent.id event.
Proof.
  intros Hclean Hfind Hid Hgid Hfind' Heq.
  rewrite (cancel_calendar_event_run d w event Hclean Hfind) in Hfind'. cbn [snd] in Hfind'.
  apply find_event_found in Hfind'.
  apply (find_event_by_title d' _ _ event' Hid Hgid) in Hfind' as (Hin & Hs & _).
  unfold after_cancel in Hin. cbn [session database] in Hin.
  destruct (database (session w)) as [ts its acts evs].
  cbn [set_calendar_events calendar_events] in Hin.
  apply update_where_In in Hin as [[_ [r0 [_ ->]]] | [Hne _]];
    [| contradiction | reflexivity].
  cbn [cancel_row CalendarEvent.status] in Hs.
  exact (scheduled_is_not_cancelled Hs).
Qed.

End Cancelling.

(** A database with three events: two meetings with the same word in the
    title, the first with a remote id, and a local event without one. *)
Definition demo_event (id : Z) (google_event_id : option pystr) (title : string) :
    CalendarEvent.t :=
  {| CalendarEvent.id := id;
     CalendarEvent.google_event_id := google_event_id;
     CalendarEvent.title := str title;
     CalendarEvent.description := None;
     CalendarEvent.start_time := demo_now + 26 * us_per_hour;
     CalendarEvent.end_time := demo_now + 27 * us_per_hour;
     CalendarEvent.meet_link := None;
     CalendarEvent.attendee_email := None;
     CalendarEvent.attendee_name := None;
     CalendarEvent.reminder_sent := false;
     CalendarEvent.reminder_time := None;
     CalendarEvent.status := Some (str "scheduled");
     CalendarEvent.created_at := 0;
     CalendarEvent.updated_at := 0 |}.

Definition demo_events : Db :=
  {| tasks := []; shopping_items := []; agent_actions := [];
     calendar_events := [demo_event 1 (Some (str "evt1")) "Sedinta proiect";
                         demo_event 2 None "Dentist";
                         demo_event 3 (Some (str "evt3")) "Sedinta buget"] |}.

Abbreviation demo_meeting_1 := (demo_event 1 (Some (str "evt1")) "Sedinta proiect").

Abbreviation demo_cancel d :=
  (ActionExecutor.execute demo (str "cancel_calendar_event") (VDict d) (world_of demo_events)).

Lemma cancel_marks_the_event_witness :
  exists r w',
    demo_cancel [(str "event_id", VInt 1)] = (Ok r, w')
    /\ dict_get (str "success") r = Some (VBool true)
    /\ map CalendarEvent.id (calendar_events (database (session w'))) = [1; 2; 3]
    /\ pending (session w') = [].
Proof.
  destruct (cancel_marks_the_event demo [(str "event_id", VInt 1)] (world_of demo_events)
              demo_meeting_1)
    as (r & w' & Hrun & Hs & _ & _ & _ & Hids & _ & _ & Hp);
    [reflexivity | vm_compute; reflexivity |].
  exists r, w'. repeat split; assumption.
Defined.

Lemma cancel_without_remote_id_is_local_witness :
  exists r w',
    demo_cancel [(str "title", VStr (str "dentist"))] = (Ok r, w')
    /\ dict_get (str "success") r = Some (VBool true)
    /\ trace w' = [EDbCommit]
    /\ meeting_scheduler w' = meeting_scheduler (world_of demo_events).
Proof.
  apply (cancel_without_remote_id_is_local demo [(str "title", VStr (str "dentist"))]
           (world_of demo_events) (demo_event 2 None "Dentist"));
    [reflexivity | vm_compute; reflexivity | left; reflexivity].
Defined.

Lemma cancel_with_remote_id_witness :
  exists r w',
    demo_cancel [(str "google_event_id", VStr (str "evt3"))] = (Ok r, w')
    /\ dict_get (str "success") r = Some (VBool true)
    /\ trace w' = [ECalendarDelete (str "evt3"); EDbCommit].
Proof.
  destruct (cancel_with_remote_id demo [(str "google_event_id", VStr (str "evt3"))]
              (world_of demo_events) (demo_event 3 (Some (str "evt3")) "Sedinta buget")
              (str "evt3"))
    as (r & w' & Hrun & Hs & Ht & _);
    [reflexivity | vm_compute; reflexivity | reflexivity | vm_compute; discriminate |].
  exists r, w'. repeat split; assumption.
Defined.

Lemma cancel_not_found_witness :
  demo_cancel [(str "title", VStr (str "concert"))]
  = (Ok (failure (str "Evenimentul nu a fost găsit.")), world_of demo_events).
Proof.
  apply (cancel_not_found demo [(str "title", VStr (str "concert"))] (world_of demo_events)).
  vm_compute. reflexivity.
Defined.

Lemma cancel_again_by_id_witness :
  exists r1 w1 r2 w2,
    demo_cancel [(str "event_id", VInt 1)] = (Ok r1, w1)
    /\ ActionExecutor.execute demo (str "cancel_calendar_event")
         (VDict [(str "event_id", VInt 1)]) w1 = (Ok r2, w2)
    /\ dict_get (str "success") r2 = Some (VBool true)
    /\ trace w2
       = [ECalendarDelete (str "evt1"); EDbCommit; ECalendarDelete (str "evt1"); EDbCommit].
Proof.
  destruct (cancel_again_by_id demo [(str "event_id", VInt 1)] (world_of demo_events)
              demo_meeting_1)
    as (r1 & w1 & r2 & w2 & H1 & H2 & _ & Hs & Ht);
    [reflexivity | reflexivity | vm_compute; reflexivity |].
  exists r1, w1, r2, w2. repeat split; assumption.
Defined.

Lemma cancelled_is_not_found_by_title_witness :
  CalendarEvent.id (demo_event 3 (Some (str "evt3")) "Sedinta buget")
  <> CalendarEvent.id demo_meeting_1.
Proof.
  apply (cancelled_is_not_found_by_title demo
           [(str "event_id", VInt 1)] [(str "title", VStr (str "sedinta"))]
           (world_of demo_events));
    [reflexivity | vm_compute; reflexivity | reflexivity | reflexivity
    | vm_compute; reflexivity].
Defined.

(** ** The session after a request *)

(** [clean m]: from a session without pending writes, [m] leaves none when
    it returns.  [ends_clean m]: whatever was pending before, nothing is
    when [m] returns. *)
Definition clean {A} (m : M A) : Prop :=
  forall w a w', pending (session w) = [] -> m w = (Ok a, w') -> pending (session w') = [].

Definition ends_clean {A} (m : M A) : Prop :=
  forall w a w', m w = (Ok a, w') -> pending (session w') = [].

Lemma clean_of_preserves {A} (m : M A) : preserves (unchanged session) m -> clean m.
Proof. intros Hm w a w' Hc H. rewrite (Hm _ _ _ H). exact Hc. Qed.

Lemma clean_bind {A B} (m : M A) (k : A -> M B) :
  preserves (unchanged session) m -> (forall a, clean (k a)) -> clean (bind m k).
Proof.
  intros Hm Hk w b w' Hc H. apply bind_Ok in H as (a & w1 & H1 & H).
  apply (Hk a w1 b w'); [| exact H]. rewrite (Hm _ _ _ H1). exact Hc.
Qed.

Lemma clean_of_ends {A} (m : M A) : ends_clean m -> clean m.
Proof. intros Hm w a w' _ H. exact (Hm _ _ _ H). Qed.

Lemma ends_clean_bind {A B} (m : M A) (k : A -> M B) :
  (forall a, ends_clean (k a)) -> ends_clean (bind m k).
Proof. intros Hk w b w' H. apply bind_Ok in H as (a & w1 & _ & H). exact (Hk _ _ _ _ H). Qed.

Lemma ends_clean_commit {B} (P : Platform) (k : list Z -> M B) :
  (forall ids, preserves (unchanged session) (k ids)) -> ends_clean (bind (commit P) k).
Proof.
  intros Hk w b w' H. apply bind_Ok in H as (ids & w1 & H1 & H).
  rewrite (Hk _ _ _ _ H). unfold commit in H1.
  destruct (flush P (pending (session w)) (database (session w)) w) as [[[d l] | e] w2];
    inversion H1. reflexivity.
Qed.

(** A handler whose [except] branch rolls back leaves a clean session when
    its body does. *)
Lemma clean_handler (body : M pydict) (w w' : World) (o : outcome pydict) :
  clean body ->
  pending (session w) = [] ->
  try_except body (fun e => rollback ;;; ret (failure e)) w = (o, w') ->
  pending (session w') = [].
Proof.
  intros Hb Hc H. apply try_except_inv in H as [(a & -> & H) | (e & w1 & _ & H)].
  - exact (Hb _ _ _ Hc H).
  - inversion H. reflexivity.
Qed.

Ltac ends_clean_tac :=
  cbv zeta;
  lazymatch goal with
  | |- ends_clean (bind (commit _) _) =>
      first [ apply ends_clean_bind; intros ?; ends_clean_tac
            | apply ends_clean_commit; intros ?; solve [preserves_tac] ]
  | |- ends_clean (bind _ _) => apply ends_clean_bind; intros ?; ends_clean_tac
  | |- ends_clean (if ?b then _ else _) => destruct b; ends_clean_tac
  | |- ends_clean (match ?x with _ => _ end) => destruct x; ends_clean_tac
  end.

Ltac clean_tac :=
  cbv zeta;
  lazymatch goal with
  | |- clean (bind _ _) =>
      first [ apply clean_bind; [solve [preserves_tac] | intros ?; clean_tac]
            | apply clean_of_ends; ends_clean_tac ]
  | |- clean (if ?b then _ else _) => destruct b; clean_tac
  | |- clean (match ?x with _ => _ end) => destruct x; clean_tac
  | |- clean _ => apply clean_of_preserves; solve [preserves_tac]
  end.

Section SessionDiscipline.

Context (P : Platform).

Import ActionExecutor MeetingSchedulerService.

Lemma cancel_reminder_session event_id :
  preserves (unchanged session) (cancel_reminder P event_id).
Proof. intros w o w' H. rewrite cancel_reminder_run in H. inversion H. reflexivity. Qed.

Lemma _schedule_reminder_session event_id reminder_time title start_time meet_link
    attendee_email attendee_name :
  preserves (unchanged session)
    (_schedule_reminder P event_id reminder_time title start_time meet_link
       attendee_email attendee_name).
Proof. intros w o w' H. rewrite _schedule_reminder_run in H. inversion H. reflexivity. Qed.

#[local] Hint Extern 1 (preserves (unchanged session) (email_service.send_email _ _ _)) =>
  apply send_email_session : frames.
#[local] Hint Extern 1
  (preserves (unchanged session) (calendar_service.create_event_with_meet _ _ _ _ _ _ _)) =>
  apply create_event_session : frames.
#[local] Hint Extern 1 (preserves (unchanged session) (calendar_service.delete_event _ _)) =>
  apply delete_event_session : frames.
#[local] Hint Extern 1 (preserves (unchanged session) (cancel_reminder _ _)) =>
  apply cancel_reminder_session : frames.
#[local] Hint Extern 1 (preserves (unchanged session) (_schedule_reminder _ _ _ _ _ _ _ _)) =>
  apply _schedule_reminder_session : frames.
#[local] Hint Extern 1 (preserves (unchanged session) (find_task _ _)) =>
  apply find_task_session : frames.
#[local] Hint Extern 1 (preserves (unchanged session) (find_item _ _)) =>
  apply find_item_session : frames.
#[local] Hint Extern 1 (preserves (unchanged session) (find_event _ _)) =>
  apply find_event_session : frames.

Lemma schedule_meeting_session title start_time end_time attendee_email attendee_name
    description reminder_hours_before :
  preserves (unchanged session)
    (schedule_meeting P title start_time end_time attendee_email attendee_name description
       reminder_hours_before).
Proof.
  unfold schedule_meeting, _send_invitation_email, _send_organizer_confirmation_email.
  preserves_tac.
Qed.

#[local] Hint Extern 1 (preserves (unchanged session) (schedule_meeting _ _ _ _ _ _ _ _)) =>
  apply schedule_meeting_session : frames.

Lemma _add_task_pending (data : value) (w w' : World) (o : outcome pydict) :
  pending (session w) = [] -> _add_task P data w = (o, w') -> pending (session w') = [].
Proof. unfold _add_task. apply clean_handler. clean_tac. Qed.

Lemma _complete_task_pending (data : value) (w w' : World) (o : outcome pydict) :
  pending (session w) = [] -> _complete_task P data w = (o, w') -> pending (session w') = [].
Proof. unfold _complete_task. apply clean_handler. clean_tac. Qed.

Lemma _delete_task_pending (data : value) (w w' : World) (o : outcome pydict) :
  pending (session w) = [] -> _delete_task P data w = (o, w') -> pending (session w') = [].
Proof. unfold _delete_task. apply clean_handler. clean_tac. Qed.

Lemma _add_shopping_item_pending (data : value) (w w' : World) (o : outcome pydict) :
  pending (session w) = [] -> _add_shopping_item P data w = (o, w') -> pending (session w') = [].
Proof. unfold _add_shopping_item. apply clean_handler. clean_tac. Qed.

Lemma _remove_shopping_item_pending (data : value) (w w' : World) (o : outcome pydict) :
  pending (session w) = [] -> _remove_shopping_item P data w = (o, w') -> pending (session w') = [].
Proof. unfold _remove_shopping_item. apply clean_handler. clean_tac. Qed.

Lemma _send_email_pending (data : value) (w w' : World) (o : outcome pydict) :
  pending (session w) = [] -> _send_email P data w = (o, w') -> pending (session w') = [].
Proof. unfold _send_email. apply clean_handler. clean_tac. Qed.

Lemma _schedule_meeting_pending (data : value) (w w' : World) (o : outcome pydict) :
  pending (session w) = [] -> _schedule_meeting P data w = (o, w') -> pending (session w') = [].
Proof. unfold _schedule_meeting. apply clean_handler. clean_tac. Qed.

Lemma _add_calendar_event_pending (data : value) (w w' : World) (o : outcome pydict) :
  pending (session w) = [] -> _add_calendar_event P data w = (o, w') -> pending (session w') = [].
Proof. unfold _add_calendar_event. apply clean_handler. clean_tac. Qed.

Lemma _cancel_calendar_event_pending (data : value) (w w' : World) (o : outcome pydict) :
  pending (session w) = [] -> _cancel_calendar_event P data w = (o, w') -> pending (session w') = [].
Proof. unfold _cancel_calendar_event. apply clean_handler. clean_tac. Qed.

(** X23: the executor never leaves uncommitted writes behind: started
    with a session that has none, every intent, known or not, with every
    payload and on every path (success, refusal, or an exception caught by
    the handler) ends with a session that has none: each write is
    committed or rolled back before the handler returns. *)
Theorem execute_leaves_nothing_pending (intent : pystr) (action_data : value)
    (w w' : World) (o : outcome pydict) :
  pending (session w) = [] ->
  execute P intent action_data w = (o, w') ->
  pending (session w') = [].
Proof.
  intros Hc H.
  destruct (execute_cases P intent action_data) as [(h & Hin & E) | E]; rewrite E in H.
  - unfold action_handlers in Hin. cbn [In] in Hin.
    destruct Hin as [Hin | Hin];
      [injection Hin as <- <-; exact (_add_task_pending _ _ _ _ Hc H) |].
    destruct Hin as [Hin | Hin];
      [injection Hin as <- <-; rewrite (_list_tasks_session P _ _ _ _ H); exact Hc |].
    destruct Hin as [Hin | Hin];
      [injection Hin as <- <-; exact (_complete_task_pending _ _ _ _ Hc H) |].
    destruct Hin as [Hin | Hin];
      [injection Hin as <- <-; exact (_delete_task_pending _ _ _ _ Hc H) |].
    destruct Hin as [Hin | Hin];
      [injection Hin as <- <-; exact (_add_shopping_item_pending _ _ _ _ Hc H) |].
    destruct Hin as [Hin | Hin];
      [injection Hin as <- <-; rewrite (_list_shopping_session P _ _ _ _ H); exact Hc |].
    destruct Hin as [Hin | Hin];
      [injection Hin as <- <-; exact (_remove_shopping_item_pending _ _ _ _ Hc H) |].
    destruct Hin as [Hin | Hin];
      [injection Hin as <- <-; exact (_send_email_pending _ _ _ _ Hc H) |].
    destruct Hin as [Hin | Hin];
      [injection Hin as <- <-; rewrite (_read_emails_session P _ _ _ _ H); exact Hc |].
    destruct Hin as [Hin | Hin];
      [injection Hin as <- <-; rewrite (_read_last_email_session P _ _ _ _ H); exact Hc |].
    destruct Hin as [Hin | Hin];
      [injection Hin as <- <-; rewrite (_search_emails_session P _ _ _ _ H); exact Hc |].
    destruct Hin as [Hin | Hin];
      [injection Hin as <- <-; rewrite (_summarize_email_session P _ _ _ _ H); exact Hc |].
    destruct Hin as [Hin | Hin];
      [injection Hin as <- <-; rewrite (_search_internet_session P _ _ _ _ H); exact Hc |].
    destruct Hin as [Hin | Hin];
      [injection Hin as <- <-; exact (_schedule_meeting_pending _ _ _ _ Hc H) |].
    destruct Hin as [Hin | Hin];
      [injection Hin as <- <-; exact (_add_calendar_event_pending _ _ _ _ Hc H) |].
    destruct Hin as [Hin | Hin];
      [injection Hin as <- <-; rewrite (_list_calendar_events_session P _ _ _ _ H); exact Hc |].
    destruct Hin as [Hin | Hin];
      [injection Hin as <- <-; exact (_cancel_calendar_event_pending _ _ _ _ Hc H) |].
    contradiction.
  - inversion H. subst. exact Hc.
Qed.

End SessionDiscipline.

Lemma execute_leaves_nothing_pending_witness :
  pending (session (snd (ActionExecutor.execute demo (str "add_task")
                           (VDict [(str "title", VNone)]) (world_of demo_events)))) = [].
Proof.
  apply (execute_leaves_nothing_pending demo (str "add_task") (VDict [(str "title", VNone)])
           (world_of demo_events) _
           (fst (ActionExecutor.execute demo (str "add_task")
                   (VDict [(str "title", VNone)]) (world_of demo_events))));
    [reflexivity | apply surjective_pairing].
Defined.

(** ** The audit trail of [_send_email] *)

Lemma next_id_above (ids : list Z) (z : Z) : In z ids -> z < next_id ids.
Proof.
  unfold next_id. induction ids as [| i ids IH]; cbn [In fold_right]; [contradiction |].
  intros [-> | Hin]; [lia | specialize (IH Hin); lia].
Qed.


Section Audit.

Context (P : Platform).

Import ActionExecutor.




(** X25: without a recipient, or with one that [validate_email] does not
    accept, nothing is logged and nothing is sent: the result is a failure
    and the database and the record of effects are as before. *)
Theorem send_email_refuses_bad_address (d : pydict) (w : World) :
  truthy (get "to" d) = false
  \/ email_service.validate_email (get "to" d) <> Ok true ->
  exists r w',
    execute P (str "send_email") (VDict d) w = (Ok r, w')
    /\ get "success" r = VBool false
    /\ database (session w') = database (session w)
    /\ meeting_scheduler w' = meeting_scheduler w
    /\ trace w' = trace w.
Proof.
  intros H.
  rewrite (execute_dict P (str "send_email") (_send_email P) d eq_refl).
  unfold _send_email.
  destruct (truthy (get "to" d)) eqn:Et.
  - destruct H as [H | H]; [discriminate H |].
    destruct (email_service.validate_email (get "to" d)) as [[|] | e] eqn:Ev.
    + congruence.
    + eexists _, _. split.
      * apply try_except_Ok. erewrite bind_run by reflexivity. cbv zeta.
        rewrite Et, Ev. cbn [negb]. cbv iota. erewrite bind_run by apply lift_run.
        reflexivity.
      * repeat split.
    + eexists _, _. split.
      * erewrite try_except_Raise; [reflexivity |].
        erewrite bind_run by reflexivity. cbv zeta.
        rewrite Et, Ev. cbn [negb]. cbv iota. reflexivity.
      * repeat split.
  - eexists _, _. split.
    + apply try_except_Ok. erewrite bind_run by reflexivity. cbv zeta.
      rewrite Et. reflexivity.
    + repeat split.
Qed.

End Audit.


Lemma send_email_refuses_bad_address_witness :
  exists r w',
    ActionExecutor.execute demo (str "send_email")
      (VDict [(str "to", VStr (str "ana at example"))]) (world_of empty_db) = (Ok r, w')
    /\ get "success" r = VBool false
    /\ trace w' = [].
Proof.
  destruct (send_email_refuses_bad_address demo [(str "to", VStr (str "ana at example"))]
              (world_of empty_db))
    as (r & w' & Hrun & Hs & _ & _ & Ht);
    [right; vm_compute; discriminate |].
  exists r, w'. repeat split; assumption.
Defined.

(** ** A meeting whose end time cannot be parsed *)

Section UnparsedEnd.

Context (P : Platform).

Import ActionExecutor.

(** A [CalendarEvent] without an end time cannot be inserted: [end_time]
    is [nullable=False]. *)
Lemma insert_event_without_end (o : new_event) :
  ne_end_time o = None ->
  exists e, forall (d : Db) (w : World), exists w1, insert_event P o d w = (Raise e, w1).
Proof.
  intros He. unfold insert_event, bind, lift. rewrite He.
  destruct (bind_text P (ne_google_event_id o)); [| eauto].
  destruct (match bind_text P (ne_title o) with
            | Ok t => not_null t | Raise e => Raise e end); [| eauto].
  destruct (bind_text P (ne_description o)); [| eauto].
  destruct (not_null (ne_start_time o)); [| eauto].
  cbn [not_null]. eauto.
Qed.

(** A commit whose first pending write is such an event fails and writes
    nothing. *)
Lemma commit_without_end (o : new_event) :
  ne_end_time o = None ->
  exists e, forall (ops : list pending_op) (w : World),
    pending (session w) = AddEvent o :: ops -> commit P w = (Raise e, w).
Proof.
  intros He. destruct (insert_event_without_end o He) as (e & E).
  exists e. intros ops w Hp. unfold commit. rewrite Hp. cbn [flush flush_op].
  destruct (E (database (session w)) w) as (w1 & E1).
  unfold bind at 1. unfold bind at 1. rewrite E1. reflexivity.
Qed.

(** X26: when the payload has an [end_time] that cannot be parsed, the
    service is called without an end time and uses its default of one
    hour, but the row the handler then builds has no end time and the
    commit fails.  So whenever the service succeeds (the event is in the
    remote calendar, the emails are out, the reminders set), the handler
    still reports a failure and stores nothing: the database is as before
    and the remote event is not withdrawn. *)
Theorem unparsed_end_time_loses_the_meeting (d : pydict) (w w2 : World)
    (start_time : datetime) (result : pydict) :
  pending (session w) = [] ->
  meeting_start_time P d = Some start_time ->
  dt_le_naive start_time (clock_now P (clock_reads w)) = Ok false ->
  truthy (get "end_time" d) = true ->
  _parse_date P (get "end_time" d) = None ->
  truthy (get "attendee_email" d) = false
  \/ email_service.validate_email (get "attendee_email" d) = Ok true ->
  MeetingSchedulerService.schedule_meeting P
    (get_default "title" (VStr (str "Întâlnire")) d) start_time None
    (get "attendee_email" d) (get_default "attendee_name" (VStr []) d)
    (get_default "description" (VStr []) d)
    (get_default "reminder_hours" (VFloat (FFinite 1)) d) (set_clock_reads S w)
  = (Ok result, w2) ->
  get "success" result = VBool true ->
  exists r w' inserted sent,
    execute P (str "schedule_meeting") (VDict d) w = (Ok r, w')
    /\ get "success" r = VBool false
    /\ database (session w') = database (session w)
    /\ pending (session w') = []
    /\ meeting_scheduler w' = meeting_scheduler w2
    /\ trace w' = trace w ++ inserted :: sent
    /\ (exists end_time attendees,
           inserted = ECalendarInsert (get_default "title" (VStr (str "Întâlnire")) d)
                        start_time end_time attendees true)
    /\ Forall is_smtp_send sent.
Proof.
  intros Hc Hstart Hfut Hend Hparse Hvalid Hrun Hsucc.
  destruct (schedule_meeting_success P _ _ _ _ _ _ _ _ _ _ Hrun Hsucc)
    as (et & created & lead & sent & n & _ & _ & _ & Hlead & Hnaive & Hrange & Ht & Hsmtp
        & _ & Hss & _).
  fields_in Ht. fields_in Hss.
  assert (exists reminder_time, dt_sub start_time lead = Ok reminder_time) as [rt Hrt].
  { unfold dt_sub, dt_add. cbv zeta.
    replace (dt_us start_time + - lead) with (dt_us start_time - lead) by lia.
    replace ((0 <=? dt_us start_time - lead) && (dt_us start_time - lead <? datetime_end))
      with true by (symmetry; apply andb_true_iff; split; [apply Z.leb_le | apply Z.ltb_lt]; lia).
    eauto. }
  set (o := {| ne_google_event_id := get "event_id" result;
               ne_title := get_default "title" (VStr (str "Întâlnire")) d;
               ne_description := get_default "description" (VStr []) d;
               ne_start_time := Some start_time;
               ne_end_time := None;
               ne_meet_link := get "meet_link" result;
               ne_attendee_email := get "attendee_email" d;
               ne_attendee_name := get_default "attendee_name" (VStr []) d;
               ne_reminder_time := Some rt;
               ne_status := VStr (str "scheduled") |}).
  destruct (commit_without_end o eq_refl) as (e & Hcommit).
  assert (truthy (get "success" result) = true) as Htruthy by (rewrite Hsucc; reflexivity).
  exists (failure e). eexists.
  exists (ECalendarInsert (get_default "title" (VStr (str "Întâlnire")) d) start_time et
            (calendar_service.all_attendees P
               (meeting_attendees P (get "attendee_email" d))) true), sent.
  split.
  - rewrite (execute_dict P (str "schedule_meeting") (_schedule_meeting P) d eq_refl).
    unfold _schedule_meeting. erewrite try_except_Raise; [reflexivity |].
    erewrite bind_run by reflexivity. cbv zeta. rewrite Hstart.
    erewrite bind_run by apply (now_run P). rewrite Hfut.
    erewrite bind_run by apply lift_run. cbv iota.
    rewrite Hend, Hparse. erewrite bind_run by reflexivity.
    erewrite bind_run.
    2: { destruct Hvalid as [Hv | Hv]; rewrite ?Hv;
           [reflexivity
           | destruct (truthy (get "attendee_email" d)); [apply lift_run | reflexivity]]. }
    cbn [negb]. cbv iota.
    erewrite bind_run by exact Hrun. rewrite Htruthy.
    rewrite Hlead. erewrite bind_run by apply lift_run.
    rewrite Hrt. erewrite bind_run by apply lift_run.
    erewrite bind_run by reflexivity.
    erewrite bind_run by reflexivity.
    erewrite bind_run by reflexivity.
    apply bind_raise. eapply Hcommit.
    fields. rewrite Hss. fields. rewrite Hc. reflexivity.
  - fields. rewrite Hss, Ht. fields. repeat split; eauto.
Qed.

End UnparsedEnd.

(** The demo meeting, asked for with an end time that is not a date. *)
Abbreviation demo_unparsed_end :=
  [(str "title", VStr (str "Sync"));
   (str "start_time", VStr (str "tomorrow 10:00"));
   (str "end_time", VStr (str "whenever"));
   (str "attendee_email", VStr (str "ana@example.com"))].

Abbreviation demo_unparsed_end_service :=
  (MeetingSchedulerService.schedule_meeting demo
     (get_default "title" (VStr (str "Întâlnire")) demo_unparsed_end)
     (naive (demo_now + 26 * us_per_hour)) None
     (get "attendee_email" demo_unparsed_end)
     (get_default "attendee_name" (VStr []) demo_unparsed_end)
     (get_default "description" (VStr []) demo_unparsed_end)
     (get_default "reminder_hours" (VFloat (FFinite 1)) demo_unparsed_end)
     (set_clock_reads S (world_of empty_db))).

Lemma demo_unparsed_end_service_succeeds :
  exists r, fst demo_unparsed_end_service = Ok r /\ get "success" r = VBool true.
Proof. vm_compute. eexists. split; reflexivity. Qed.

Lemma unparsed_end_time_loses_the_meeting_witness :
  exists r w' inserted sent,
    ActionExecutor.execute demo (str "schedule_meeting") (VDict demo_unparsed_end)
      (world_of empty_db) = (Ok r, w')
    /\ get "success" r = VBool false
    /\ database (session w') = empty_db
    /\ trace w' = inserted :: sent.
Proof.
  destruct demo_unparsed_end_service_succeeds as (result & Hr & Hs).
  destruct (unparsed_end_time_loses_the_meeting demo demo_unparsed_end (world_of empty_db)
              (snd demo_unparsed_end_service)
              (naive (demo_now + 26 * us_per_hour)) result)
    as (r & w' & inserted & sent & Hrun & Hfail & Hdb & _ & _ & Ht & _);
    [reflexivity | vm_compute; reflexivity | vm_compute; reflexivity | reflexivity
    | vm_compute; reflexivity | right; vm_compute; reflexivity
    | exact (run_of_fst _ _ _ Hr) | exact Hs |].
  exists r, w', inserted, sent. repeat split; assumption.
Defined.

(** ** Adding a task and deleting it again *)

Lemma delete_where_other {A} (id_of : A -> Z) (key : Z) (rows : list A) :
  (forall r, In r rows -> id_of r <> key) -> delete_where id_of key rows = rows.
Proof.
  intros H. unfold delete_where. induction rows as [| r rows IH]; [reflexivity |].
  rewrite filter_cons_True.
  - f_equal. apply IH. intros r0 Hr0. apply H. right. exact Hr0.
  - apply Is_true_true, negb_true_iff, Z.eqb_neq, H. left. reflexivity.
Qed.

(** Deleting the row added last gives the rows there were. *)
Lemma delete_where_last {A} (id_of : A -> Z) (rows : list A) (row : A) :
  id_of row = next_id (map id_of rows) ->
  delete_where id_of (id_of row) (rows ++ [row]) = rows.
Proof.
  intros Hid. unfold delete_where. rewrite filter_app.
  rewrite (filter_cons_False _ row []).
  2: { intros H. apply Is_true_true, negb_true_iff, Z.eqb_neq in H. congruence. }
  rewrite filter_nil, app_nil_r. apply delete_where_other.
  intros r Hr. pose proof (next_id_above (map id_of rows) (id_of r) (in_map _ _ _ Hr)). lia.
Qed.

Lemma find_after {A} (p : A -> bool) (rows : list A) (row : A) :
  (forall r, In r rows -> p r = false) -> p row = true ->
  find p (rows ++ [row]) = Some row.
Proof.
  intros Hrows Hrow. induction rows as [| r rows IH]; cbn [app find].
  - rewrite Hrow. reflexivity.
  - rewrite (Hrows r (or_introl eq_refl)). apply IH. intros r0 Hr0. apply Hrows. right. exact Hr0.
Qed.

(** The row added last is the one found under its id. *)
Lemma find_last {A} (id_of : A -> Z) (rows : list A) (row : A) :
  id_of row = next_id (map id_of rows) ->
  find (fun r => id_of r =? id_of row) (rows ++ [row]) = Some row.
Proof.
  intros Hid. apply find_after; [| apply Z.eqb_refl].
  intros r Hr. apply Z.eqb_neq.
  pose proof (next_id_above (map id_of rows) (id_of r) (in_map _ _ _ Hr)). lia.
Qed.

Lemma next_id_positive (ids : list Z) : 0 < next_id ids.
Proof. unfold next_id. induction ids as [| i ids IH]; cbn [fold_right]; lia. Qed.

Section AddDelete.

Context (P : Platform).

Import ActionExecutor.

(** What inserting a task does to the database. *)
Lemma insert_task_Ok (o : new_task) (db db' : Db) (k : Z) (w w' : World) :
  insert_task P o db w = (Ok (db', k), w') ->
  exists row,
    db' = set_tasks (fun l => l ++ [row]) db
    /\ Task.id row = k
    /\ k = next_id (map Task.id (tasks db))
    /\ Task.is_completed row = false
    /\ session w' = session w /\ meeting_scheduler w' = meeting_scheduler w
    /\ trace w' = trace w.
Proof.
  unfold insert_task. intros H.
  inv_bind H. inv_lift H0. inv_bind H. inv_lift H0. inv_bind H. inv_lift H0.
  inv_bind H. inv_lift H0.
  inv_bind H. inversion H0. subst. clear H0.
  inv_bind H. inversion H0. subst. clear H0.
  inversion H. subst. eexists. repeat split.
Qed.

(** A commit of one new task. *)
Lemma commit_add_task (o : new_task) (w w0 : World) (ids : list Z) :
  pending (session w) = [AddTask o] ->
  commit P w = (Ok ids, w0) ->
  exists row,
    ids = [Task.id row]
    /\ session w0 = {| database := set_tasks (fun l => l ++ [row]) (database (session w));
                       pending := [] |}
    /\ Task.id row = next_id (map Task.id (tasks (database (session w))))
    /\ Task.is_completed row = false
    /\ meeting_scheduler w0 = meeting_scheduler w
    /\ trace w0 = trace w ++ [EDbCommit].
Proof.
  intros Hp H. unfold commit in H. rewrite Hp in H. cbn [flush flush_op] in H.
  match type of H with
  | match ?m with _ => _ end = _ => destruct m as [[[db' l] | e] w2] eqn:E
  end; [| discriminate H].
  inversion H. subst. clear H.
  apply bind_Ok in E as (r1 & w3 & E1 & E).
  apply bind_Ok in E1 as ([db1 k] & w4 & Hins & E1).
  inversion E1. subst. clear E1. inversion E. subst. clear E.
  apply insert_task_Ok in Hins as (row & -> & Hid & Hk & Hdone & Hs & Hm & Ht).
  exists row. fields. cbn [app]. rewrite Hid, Hm, Ht. repeat split; auto.
Qed.

Lemma ret_Ok {A} (a b : A) (w w' : World) : ret a w = (Ok b, w') -> b = a /\ w' = w.
Proof. unfold ret. intros H. injection H as -> ->. auto. Qed.

Lemma query_Ok {A} (q : Db -> A) (a : A) (w w' : World) :
  query q w = (Ok a, w') -> a = q (database (session w)) /\ w' = w.
Proof. unfold query. intros H. injection H as <- <-. auto. Qed.

(** What a successful [add_task] of one task has done. *)
Lemma _add_task_single (d : pydict) (w w1 : World) (r : pydict) (k : Z) :
  pending (session w) = [] ->
  _add_task P (VDict d) w = (Ok r, w1) ->
  dict_get (str "task_id") r = Some (VInt k) ->
  exists row,
    session w1 = {| database := set_tasks (fun l => l ++ [row]) (database (session w));
                    pending := [] |}
    /\ Task.id row = k
    /\ k = next_id (map Task.id (tasks (database (session w))))
    /\ Task.is_completed row = false
    /\ meeting_scheduler w1 = meeting_scheduler w
    /\ trace w1 = trace w ++ [EDbCommit].
Proof.
  intros Hc H Hk. unfold _add_task in H.
  apply try_except_inv in H as [(r0 & Er & H) | (e & w0 & _ & H)].
  2: { apply ret_Ok in H as [-> _]. vm_compute in Hk. discriminate Hk. }
  injection Er as <-.
  apply bind_Ok in H as (d0 & w2 & Hd & H). apply lift_Ok in Hd as [Hd ->].
  injection Hd as <-.
  apply bind_Ok in H as ([] & w3 & Hadd & H). unfold db_add in Hadd. injection Hadd as <-.
  apply bind_Ok in H as (ids & w4 & Hcommit & H).
  apply commit_add_task with (o := task_of P d) in Hcommit
    as (row & -> & Hs & Hid & Hdone & Hm & Ht);
    [| fields; rewrite Hc; reflexivity].
  fields_in Hs. fields_in Hid. fields_in Hm. fields_in Ht.
  apply bind_Ok in H as (task & w5 & Htask & H).
  apply bind_Ok in Htask as (x & w6 & Hq & Hx).
  apply query_Ok in Hq as [-> ->]. apply lift_Ok in Hx as [Hx ->].
  apply bind_Ok in H as (all_tasks & w7 & Hq & H). apply query_Ok in Hq as [_ ->].
  apply ret_Ok in H as [-> ->].
  rewrite Hs in Hx. fields_in Hx.
  unfold added_row in Hx. cbn [List.last] in Hx. rewrite (find_last Task.id _ row Hid) in Hx.
  injection Hx as <-.
  change (Some (VInt (Task.id row)) = Some (VInt k)) in Hk. injection Hk as <-.
  exists row. repeat split; auto.
Qed.

Lemma find_task_by_id (k : Z) (w : World) :
  k <> 0 ->
  find_task P [(str "task_id", VInt k)] w
  = (Ok (find (fun t => Task.id t =? k) (tasks (database (session w)))), w).
Proof.
  intros Hk. unfold find_task.
  change (get "task_id" [(str "task_id", VInt k)]) with (VInt k).
  cbn [truthy]. apply Z.eqb_neq in Hk as ->. cbn [negb].
  erewrite bind_run by apply lift_run. reflexivity.
Qed.

(** X27: a task that [add_task] has just added is deleted again by
    [delete_task] with the [task_id] that [add_task] returned, and that
    restores the database: the new row is the one found under the id, and
    no other row is touched. *)
Theorem add_then_delete_task (d : pydict) (w w1 : World) (r : pydict) (k : Z) :
  pending (session w) = [] ->
  execute P (str "add_task") (VDict d) w = (Ok r, w1) ->
  dict_get (str "task_id") r = Some (VInt k) ->
  exists r2 w2,
    execute P (str "delete_task") (VDict [(str "task_id", VInt k)]) w1 = (Ok r2, w2)
    /\ get "success" r2 = VBool true
    /\ database (session w2) = database (session w)
    /\ pending (session w2) = [].
Proof.
  intros Hc Hadd Hk.
  rewrite (execute_dict P (str "add_task") (_add_task P) d eq_refl) in Hadd.
  destruct (_add_task_single d w w1 r k Hc Hadd Hk) as (row & Hs & Hid & Hnext & _).
  rewrite (execute_dict P (str "delete_task") (_delete_task P) _ eq_refl).
  assert (k <> 0) as Hk0.
  { pose proof (next_id_positive (map Task.id (tasks (database (session w))))). lia. }
  eexists _, _. split.
  - unfold _delete_task. apply try_except_Ok.
    erewrite bind_run by reflexivity.
    erewrite bind_run by (apply find_task_by_id; exact Hk0).
    rewrite Hs. fields. subst k.
    rewrite (find_last Task.id _ row Hnext).
    erewrite bind_run by reflexivity.
    erewrite bind_run.
    2: { unfold commit. fields. rewrite Hs. fields. cbn [app flush flush_op].
         reflexivity. }
    reflexivity.
  - split; [reflexivity |]. fields. split; [| reflexivity].
    destruct (database (session w)) as [ts its acts evs]. unfold set_tasks. fields.
    f_equal. subst k. apply (delete_where_last Task.id ts row Hnext).
Qed.

End AddDelete.

Abbreviation demo_add_task :=
  (ActionExecutor.execute demo (str "add_task")
     (VDict [(str "title", VStr (str "Cumpar paine"))]) (world_of demo_tasks)).

Lemma demo_add_task_succeeds :
  exists r, fst demo_add_task = Ok r /\ dict_get (str "task_id") r = Some (VInt 4).
Proof. vm_compute. eexists. split; reflexivity. Qed.

Lemma add_then_delete_task_witness :
  exists r2 w2,
    ActionExecutor.execute demo (str "delete_task") (VDict [(str "task_id", VInt 4)])
      (snd demo_add_task) = (Ok r2, w2)
    /\ get "success" r2 = VBool true
    /\ database (session w2) = demo_tasks.
Proof.
  destruct demo_add_task_succeeds as (r & Hr & Hk).
  destruct (add_then_delete_task demo [(str "title", VStr (str "Cumpar paine"))]
              (world_of demo_tasks) (snd demo_add_task) r 4)
    as (r2 & w2 & Hrun & Hs & Hdb & _);
    [reflexivity | exact (run_of_fst _ _ _ Hr) | exact Hk |].
  exists r2, w2. repeat split; assumption.
Defined.
